(** * FreeRide: comment-preserving merge of free models into config.yaml

    A shallow embedding of [freeride.py].  Python [str] values are Rocq
    strings whose characters are the code points below 256; dictionaries
    are finite maps; the loops over lines are recursive functions over
    the list of lines. *)

From Stdlib Require Import Ascii QArith Qminmax Lqa.
From stdpp Require Import base list gmap strings sorting pretty.

Local Open Scope list_scope.
Local Open Scope stdpp_scope.

(** ** Python string primitives *)

Module Py.

(** [str.isspace] on one character, which is also what [str.strip] removes
    and what the regular expression class [\s] matches. *)
Definition is_space (c : ascii) : bool :=
  match c with
  | "009" | "010" | "011" | "012" | "013"
  | "028" | "029" | "030" | "031" | " " | "133" | "160" => true
  | _ => false
  end%char.

(** [s.lstrip()] *)
Fixpoint lstrip (s : string) : string :=
  match s with
  | String c s' => if is_space c then lstrip s' else s
  | EmptyString => EmptyString
  end.

(** [s.rstrip()] *)
Fixpoint rstrip (s : string) : string :=
  match s with
  | EmptyString => EmptyString
  | String c s' =>
      match rstrip s' with
      | EmptyString => if is_space c then EmptyString else String c EmptyString
      | r => String c r
      end
  end.

(** [s.strip()] *)
Definition strip (s : string) : string := rstrip (lstrip s).

(** [s.startswith(p)] *)
Fixpoint startswith (s p : string) {struct p} : bool :=
  match p with
  | EmptyString => true
  | String a p' =>
      match s with
      | String b s' => Ascii.eqb a b && startswith s' p'
      | EmptyString => false
      end
  end.

(** [s.endswith(p)]: some suffix of [s] is [p]. *)
Fixpoint endswith (s p : string) : bool :=
  String.eqb s p ||
  match s with
  | String _ s' => endswith s' p
  | EmptyString => false
  end.

(** [sub in s] *)
Fixpoint contains (s sub : string) : bool :=
  startswith s sub ||
  match s with
  | String _ s' => contains s' sub
  | EmptyString => false
  end.

(** [s[n:]] *)
Fixpoint drop (n : nat) (s : string) : string :=
  match n, s with
  | S n', String _ s' => drop n' s'
  | _, _ => s
  end.

(** [s[:-n]] for [n > 0] *)
Definition drop_last (n : nat) (s : string) : string :=
  String.substring 0 (String.length s - n) s.

(** [str.lower] on one code point below 256: the ASCII capitals and the
    Latin-1 capitals U+00C0..U+00DE without the multiplication sign. *)
Definition lower_char (c : ascii) : ascii :=
  let n := nat_of_ascii c in
  if ((65 <=? n) && (n <=? 90)) || ((192 <=? n) && (n <=? 222) && negb (n =? 215))
  then ascii_of_nat (n + 32) else c.

(** [s.lower()] *)
Fixpoint lower (s : string) : string :=
  match s with
  | EmptyString => EmptyString
  | String c s' => String (lower_char c) (lower s')
  end.

(** [s.split(sep)[0]] for a one-character separator. *)
Fixpoint split_head (sep : ascii) (s : string) : string :=
  match s with
  | EmptyString => EmptyString
  | String c s' => if Ascii.eqb c sep then EmptyString else String c (split_head sep s')
  end.

(** [s.split(sep)[-1]] for a one-character separator. *)
Fixpoint split_last (sep : ascii) (s : string) : string :=
  match s with
  | EmptyString => EmptyString
  | String c s' =>
      if contains s' (String sep EmptyString) then split_last sep s'
      else if Ascii.eqb c sep then s' else s
  end.

(** [s.split(sep)] for a one-character separator: never the empty list. *)
Fixpoint split (sep : ascii) (s : string) : list string :=
  match s with
  | EmptyString => [EmptyString]
  | String c s' =>
      if Ascii.eqb c sep then EmptyString :: split sep s'
      else match split sep s' with
           | piece :: pieces => String c piece :: pieces
           | [] => [String c EmptyString]
           end
  end.

(** [sep.join(pieces)] *)
Fixpoint join (sep : string) (pieces : list string) : string :=
  match pieces with
  | [] => EmptyString
  | [piece] => piece
  | piece :: rest => piece +:+ sep +:+ join sep rest
  end.

(** [len(line) - len(line.lstrip())] *)
Definition indent_of (line : string) : nat :=
  String.length line - String.length (lstrip line).

End Py.

(** ** Identity normalizer and router format *)

Definition PREFIXES : list string :=
  ["openrouter:"; "anthropic:"; "google:"; "kimi:"; "exo:"; "nvidia:"; "lmstudio:"].

(** The [for prefix in prefixes: ... break] loop of [normalize_model_id]. *)
Fixpoint remove_first_prefix (prefixes : list string) (normalized : string) : string :=
  match prefixes with
  | [] => normalized
  | prefix :: prefixes' =>
      if Py.startswith normalized prefix
      then Py.drop (String.length prefix) normalized
      else remove_first_prefix prefixes' normalized
  end.

Definition normalize_model_id (model_id : string) : string :=
  let normalized := Py.strip model_id in
  let normalized := remove_first_prefix PREFIXES normalized in
  let normalized :=
    if Py.endswith normalized ":free" then Py.drop_last 5 normalized else normalized in
  Py.lower normalized.

Definition format_model_for_router (model_id : string) : string :=
  let base_id :=
    if negb (Py.contains model_id ":free") then model_id +:+ ":free" else model_id in
  let base_id :=
    if Py.startswith base_id "openrouter/"
    then Py.drop (String.length "openrouter/") base_id else base_id in
  "openrouter:" +:+ base_id.

(** ** Catalog entries, scoring and ranking *)

(** One model object of the catalog.  [m_score] is the ["_score"] key added
    by the ranker; the catalog itself does not carry it. *)
Record Model := {
  m_id : string;
  m_pricing_prompt : option Q;
  m_context_length : Z;
  m_supported_parameters : list string;
  m_created : Z;
  m_score : option Q
}.

(** [{**model, "_score": score}] *)
Definition with_score (model : Model) (score : Q) : Model :=
  {| m_id := m_id model;
     m_pricing_prompt := m_pricing_prompt model;
     m_context_length := m_context_length model;
     m_supported_parameters := m_supported_parameters model;
     m_created := m_created model;
     m_score := Some score |}.

(** [model.get("_score", 0)] *)
Definition get_score (model : Model) : Q := default 0%Q (m_score model).

Definition TRUSTED_PROVIDERS : list string :=
  ["google"; "meta-llama"; "mistralai"; "deepseek";
   "nvidia"; "qwen"; "microsoft"; "allenai"; "arcee-ai";
   "liquid"; "stepfun"; "upstage"].

(** [xs.index(x)] when [x in xs] *)
Fixpoint list_index (x : string) (xs : list string) : option nat :=
  match xs with
  | [] => None
  | y :: xs' => if String.eqb x y then Some 0 else S <$> list_index x xs'
  end.

Definition Qgtb (a b : Q) : bool := negb (Qle_bool a b).

(** Scores are exact rationals; [now] is the reading of [time.time()]. *)
Definition calculate_model_score (now : Q) (model : Model) : Q :=
  let score := 0%Q in
  let context_length := m_context_length model in
  let context_score := Qmin (inject_Z context_length / 1000000) 1 in
  let score := (score + context_score * 0.4)%Q in
  let capabilities := m_supported_parameters model in
  let capability_count := length capabilities in
  let capability_score := Qmin (inject_Z (Z.of_nat capability_count) / 10) 1 in
  let score := (score + capability_score * 0.3)%Q in
  let created := m_created model in
  let score :=
    if (created =? 0)%Z then score
    else
      let days_old := ((now - inject_Z created) / 86400)%Q in
      let recency_score := Qmax 0 (1 - days_old / 365) in
      (score + recency_score * 0.2)%Q in
  let model_id := m_id model in
  let provider := if Py.contains model_id "/" then Py.split_head "/" model_id else "" in
  match list_index provider TRUSTED_PROVIDERS with
  | Some trust_index =>
      let trust_score :=
        (1 - inject_Z (Z.of_nat trust_index)
             / inject_Z (Z.of_nat (length TRUSTED_PROVIDERS)))%Q in
      (score + trust_score * 0.1)%Q
  | None => score
  end.

(** [list.sort(key=..., reverse=...)]: a stable sort on the keys.  With
    [reverse=True] the list is reversed, sorted ascending and reversed
    again, which is how stability is kept for a descending sort. *)
Section PySort.
Context {A K : Type} (key : A → K) (leb : K → K → bool).

Fixpoint sort_insert (x : A) (sorted : list A) : list A :=
  match sorted with
  | [] => [x]
  | y :: sorted' =>
      if leb (key x) (key y) then x :: y :: sorted' else y :: sort_insert x sorted'
  end.

(** The order of the sort on the elements. *)
Definition key_le (x y : A) : Prop := leb (key x) (key y) = true.

Definition py_sort (l : list A) : list A := foldr sort_insert [] l.

Definition py_sort_reverse (l : list A) : list A := reverse (py_sort (reverse l)).
End PySort.

(** The [i]-th model is scored at clock reading [clock i]. *)
Definition score_models (clock : nat → Q) (models : list Model) : list Model :=
  imap (λ i model, with_score model (calculate_model_score (clock i) model)) models.

Definition rank_free_models (clock : nat → Q) (models : list Model) : list Model :=
  let scored_models := score_models clock models in
  py_sort_reverse get_score Qle_bool scored_models.

#[global] Instance Q_eq_dec : EqDecision Q.
Proof. solve_decision. Defined.

#[global] Instance Model_eq_dec : EqDecision Model.
Proof. solve_decision. Defined.

(** [filter_free_models]; a [prompt] price that is absent or not a number
    is [None]. *)
Fixpoint filter_free_loop (models free_models : list Model) : list Model :=
  match models with
  | [] => free_models
  | model :: models' =>
      let model_id := m_id model in
      let zero_price :=
        match m_pricing_prompt model with
        | Some prompt_cost => Qeq_bool prompt_cost 0
        | None => false
        end in
      if zero_price then filter_free_loop models' (free_models ++ [model])
      else if Py.contains model_id ":free" && negb (bool_decide (model ∈ free_models))
      then filter_free_loop models' (free_models ++ [model])
      else filter_free_loop models' free_models
  end.

Definition filter_free_models (models : list Model) : list Model :=
  filter_free_loop models [].

(** ** Tier classifier *)

Definition TIERS : list string := ["super_easy"; "easy"; "medium"; "hard"; "super_hard"].

(** [any(x in model_name for x in keywords)] *)
Definition any_in (model_name : string) (keywords : list string) : bool :=
  existsb (Py.contains model_name) keywords.

Definition categorize_model (model : Model) : string :=
  let model_id := Py.lower (m_id model) in
  let context_length := m_context_length model in
  let score := get_score model in
  let model_name :=
    if Py.contains model_id "/" then Py.split_last "/" model_id else model_id in
  if any_in model_name ["opus"; "o1"; "o3"; "deepseek-r1"; "qwen3-235b"; "thinking"]
     && (Qgtb score 0.5 || (100000 <? context_length)%Z)
  then "super_hard"
  else if any_in model_name ["coder"; "65b"; "70b"; "405b"; "large"; "gemini-2.5"]
          && Qgtb score 0.4
  then "hard"
  else if any_in model_name ["1b"; "1.5b"; "2b"; "3b"; "gemma-2b"; "nano"]
  then "super_easy"
  else if any_in model_name ["7b"; "8b"; "9b"; "nano"; "mini"; "small"; "gemma"]
  then "easy"
  else if any_in model_name ["14b"; "27b"; "32b"; "flash"; "mistral"; "llama-3.3"]
  then "medium"
  else if (128000 <=? context_length)%Z || Qgtb score 0.6
  then "hard"
  else if Qgtb score 0.7 then "hard"
  else if Qgtb score 0.5 then "medium"
  else if Qgtb score 0.3 then "easy"
  else "super_easy".

Definition free_router : string := "openrouter:openrouter/free:free".

(** [tiers[tier].append(formatted)] unless already there. *)
Definition add_to_tier (tiers : gmap string (list string)) (model : Model)
  : gmap string (list string) :=
  let tier := categorize_model model in
  let formatted := format_model_for_router (m_id model) in
  let members := default [] (tiers !! tier) in
  if bool_decide (formatted ∈ members) then tiers
  else <[tier := members ++ [formatted]]> tiers.

Definition ensure_fallback (members : list string) : list string :=
  if bool_decide (free_router ∈ members) then members else members ++ [free_router].

(** [distribute_to_tiers]; the [tier_mapping] it assembles from the
    configuration is never read, so it is left out. *)
Definition distribute_to_tiers (ranked_models : list Model) : gmap string (list string) :=
  let tiers : gmap string (list string) := list_to_map ((λ t, (t, [])) <$> TIERS) in
  let tiers := foldl add_to_tier tiers ranked_models in
  ensure_fallback <$> tiers.

(** ** Comment-preserving merger *)

(** A tier entry: the text of the list item and whether it is commented out. *)
Abbreviation TierEntry := (string * bool)%type.

Definition has_duplicate (tier_entries : list TierEntry) (new_model : string) : bool :=
  let new_normalized := normalize_model_id new_model in
  existsb (λ '(existing_model, is_commented),
             String.eqb new_normalized (normalize_model_id existing_model))
          tier_entries.

(** First pass of [merge_models_with_comments]: every existing entry. *)
Fixpoint merge_existing (tier_entries : list TierEntry)
    (result : list string) (added_models : gset string) : list string * gset string :=
  match tier_entries with
  | [] => (result, added_models)
  | (model_str, is_commented) :: tier_entries' =>
      let normalized := normalize_model_id model_str in
      let result :=
        if is_commented then result ++ ["  # - " +:+ model_str]
        else result ++ ["  - " +:+ model_str] in
      merge_existing tier_entries' result ({[normalized]} ∪ added_models)
  end.

(** Second pass: the new models that are not present yet. *)
Fixpoint merge_new (new_models : list string)
    (result : list string) (added_models : gset string) : list string * gset string :=
  match new_models with
  | [] => (result, added_models)
  | new_model :: new_models' =>
      let normalized := normalize_model_id new_model in
      if bool_decide (normalized ∉ added_models)
      then merge_new new_models' (result ++ ["  - " +:+ new_model])
                     ({[normalized]} ∪ added_models)
      else merge_new new_models' result added_models
  end.

Definition merge_models_with_comments
    (tier_entries : list TierEntry) (new_models : list string) : list string :=
  let '(result, added_models) := merge_existing tier_entries [] ∅ in
  (merge_new new_models result added_models).1.

(** ** Tiered text parser *)

Module Re.

(** [\s*] followed by the rest of the pattern [k]: greedy, backtracking. *)
Fixpoint star_space {A} (k : string → option A) (s : string) : option A :=
  match s with
  | String c s' =>
      if Py.is_space c
      then match star_space k s' with
           | Some r => Some r
           | None => k s
           end
      else k s
  | EmptyString => k s
  end.

(** The longest prefix without a newline. *)
Fixpoint dot_run (s : string) : string :=
  match s with
  | String c s' => if Ascii.eqb c "010" then EmptyString else String c (dot_run s')
  | EmptyString => EmptyString
  end.

(** [(.+)] at the end of a pattern: the group, if it is not empty. *)
Definition dot_plus (s : string) : option string :=
  match dot_run s with
  | EmptyString => None
  | g => Some g
  end.

(** The pattern after the marker, anchored at [s]: white space, an
    optional dash with white space, then the group [(.+)]; the result is
    that group. *)
Definition comment_body (s : string) : option string :=
  star_space
    (λ r,
       match
         match r with
         | String "-" r1 => star_space dot_plus r1
         | _ => None
         end
       with
       | Some g => Some g
       | None => dot_plus r
       end) s.

(** [re.search] of the comment pattern (a hash, then [comment_body]):
    group 2 of the leftmost match. *)
Fixpoint search_comment (s : string) : option string :=
  match s with
  | EmptyString => None
  | String c s' =>
      if Ascii.eqb c "#"
      then match comment_body s' with
           | Some g => Some g
           | None => search_comment s'
           end
      else search_comment s'
  end.

Fixpoint all_space (s : string) : bool :=
  match s with
  | EmptyString => true
  | String c s' => Py.is_space c && all_space s'
  end.

(** [re.match(rf"^{re.escape(tier_name)}:\s*$", s)] *)
Definition match_tier (tier_name s : string) : bool :=
  Py.startswith s (tier_name +:+ ":")
  && all_space (Py.drop (String.length (tier_name +:+ ":")) s).

End Re.

(** The "process model lines" block of the parser: the entry a stripped
    line contributes, if any. *)
Definition line_entry (stripped : string) : option TierEntry :=
  if negb (String.eqb stripped "") then
    if Py.startswith stripped "#" || Py.startswith stripped "- #" then
      match Re.search_comment stripped with
      | Some group2 => Some (Py.strip group2, true)
      | None => None
      end
    else if Py.startswith stripped "- " then
      Some (Py.strip (Py.drop 2 stripped), false)
    else None
  else None.

(** The test that ends the scan of a tier in the parser. *)
Definition leaves_tier (models_keys : list string) (tier_name line : string) : bool :=
  let stripped := Py.strip line in
  let current_indent := Py.indent_of line in
  negb (String.eqb stripped "") && (current_indent <=? 0) && Py.contains stripped ":"
  && (negb (existsb (Py.startswith stripped) models_keys)
      || negb (String.eqb (Py.split_head ":" stripped) tier_name)).

(** The loop over the lines for one tier; [models_keys] are the keys of the
    [models] section of the loaded YAML document.  The variable
    [indent_level] of the source is assigned and never read. *)
Fixpoint parse_tier (models_keys : list string) (tier_name : string)
    (in_tier : bool) (lines : list string) : list TierEntry :=
  match lines with
  | [] => []
  | line :: lines' =>
      if Re.match_tier tier_name (Py.strip line)
      then parse_tier models_keys tier_name true lines'
      else if in_tier then
        if leaves_tier models_keys tier_name line then []
        else option_list (line_entry (Py.strip line))
             ++ parse_tier models_keys tier_name true lines'
      else parse_tier models_keys tier_name false lines'
  end.

(** The tier comments of [parse_yaml_with_comments] for a file's text. *)
Definition parse_tier_comments (models_keys : list string) (content : string)
  : gmap string (list TierEntry) :=
  list_to_map
    ((λ tier_name,
        (tier_name, parse_tier models_keys tier_name false (Py.split "010" content)))
       <$> TIERS).

(** ** Config rewriter *)

Definition newline : string := String "010" EmptyString.

(** The first tier whose header pattern matches the stripped line. *)
Definition tier_match (stripped : string) : option string :=
  List.find (λ tier_name, Re.match_tier tier_name stripped) TIERS.

(** The test that ends a tier section in the rewriter. *)
Definition ends_section (next_line : string) : bool :=
  let next_stripped := Py.strip next_line in
  let next_indent := Py.indent_of next_line in
  (next_indent <=? 0) && Py.contains next_stripped ":"
  && negb (bool_decide (Py.split_head ":" next_stripped ∈ TIERS)).

(** [for j in range(i + 1, len(lines))] with its [tier_end] variable;
    [from_j] is [lines[j:]]. *)
Fixpoint find_tier_end (from_j : list string) (j tier_end : nat) : nat :=
  match from_j with
  | [] => tier_end
  | next_line :: from_j' =>
      if String.eqb (Py.strip next_line) "" then find_tier_end from_j' (S j) j
      else if ends_section next_line then j
      else find_tier_end from_j' (S j) (S j)
  end.

(** [while i < len(lines)]; [merged] gives the merger's lines of a tier. *)
Fixpoint save_loop (fuel : nat) (merged : string → list string)
    (lines : list string) (i : nat) (result_lines : list string) : list string :=
  match fuel with
  | 0 => result_lines
  | S fuel' =>
      match lines !! i with
      | None => result_lines
      | Some line =>
          match tier_match (Py.strip line) with
          | Some current_tier =>
              let tier_end := find_tier_end (drop (S i) lines) (S i) (S i) in
              save_loop fuel' merged lines tier_end
                        (result_lines ++ [line] ++ merged current_tier)
          | None => save_loop fuel' merged lines (S i) (result_lines ++ [line])
          end
      end
  end.

(** Every turn of the loop moves [i] forward, so [length lines] turns do. *)
Definition rewrite_lines (merged : string → list string) (lines : list string)
  : list string :=
  save_loop (length lines) merged lines 0 [].

Definition merged_tier (tier_comments : gmap string (list TierEntry))
    (new_tiers : gmap string (list string)) (current_tier : string) : list string :=
  let existing_entries := default [] (tier_comments !! current_tier) in
  let new_models := default [] (new_tiers !! current_tier) in
  merge_models_with_comments existing_entries new_models.

(** [save_config_with_comments] as a function from the original text to
    the text written back. *)
Definition save_config_with_comments (original_content : string)
    (tier_comments : gmap string (list TierEntry))
    (new_tiers : gmap string (list string)) : string :=
  let lines := Py.split "010" original_content in
  Py.join newline (rewrite_lines (merged_tier tier_comments new_tiers) lines).

(** One run of the text pipeline: parse the tier entries, merge, rewrite. *)
Definition update_text (models_keys : list string) (content : string)
    (new_tiers : gmap string (list string)) : string :=
  save_config_with_comments content (parse_tier_comments models_keys content) new_tiers.

(** ** The update operation *)

(** What the YAML loader gives for the parts the tool reads. *)
Record Config := {
  models_keys : list string;
  openrouter_api_key : option string
}.

(** The configuration file at [config_path]. *)
Inductive File :=
| Missing
| Unreadable (error : string)
| Content (text : string).

(** How writing the file can fail: when it is opened for writing, which
    leaves it as it is, or later, after opening has emptied it and
    [written] characters of the new text have reached it. *)
Inductive WriteError :=
| OpenFails (error : string)
| WriteFails (error : string) (written : nat).

Record Stats := {
  added : nat;
  preserved : nat;
  skipped_duplicates : nat;
  tiers_updated : nat
}.

Inductive UpdateResult :=
| Failure (error : string)
| Success (message : string) (stats : Stats) (top_models : list string).

Definition tier_stats (existing_entries : list TierEntry) (new_models : list string)
    (stats : Stats) : Stats :=
  let kept :=
    length (List.filter (λ '(model_str, is_commented),
                           is_commented || negb (Py.startswith model_str "openrouter:"))
                        existing_entries) in
  let fresh := length (List.filter (λ m, negb (has_duplicate existing_entries m)) new_models) in
  {| added := added stats + fresh;
     preserved := preserved stats + kept;
     skipped_duplicates := skipped_duplicates stats + (length new_models - fresh);
     tiers_updated := S (tiers_updated stats) |}.

Section Update.
(** The collaborators outside the core: the YAML library ([inl] is the
    text of a raised exception), the environment, the catalog fetch, the
    clock and the way writing the file fails, if it does. *)
Variable config_path : string.
Variable yaml_safe_load : string → string + Config.
Variable yaml_dump_metadata : string → nat → string.
Variable env_api_key : option string.
Variable fetch_all_models : string → list Model.
Variable clock : nat → Q.
Variable write_error : option WriteError.

Definition truthy (s : option string) : option string :=
  match s with
  | Some EmptyString | None => None
  | Some k => Some k
  end.

Definition get_api_key (config : Config) : option string :=
  match truthy env_api_key with
  | Some api_key => Some api_key
  | None => truthy (openrouter_api_key config)
  end.

Definition empty_config : Config := {| models_keys := []; openrouter_api_key := None |}.

(** [parse_yaml_with_comments(config_path)]; [inl] when it raises. *)
Definition parse_yaml_with_comments (file : File)
  : string + (Config * gmap string (list TierEntry)) :=
  match file with
  | Missing => inr (empty_config, ∅)
  | Unreadable error => inl error
  | Content content =>
      match yaml_safe_load content with
      | inl error => inl error
      | inr config => inr (config, parse_tier_comments (models_keys config) content)
      end
  end.

(** [with open(config_file, 'w') as f] and the write in it: the text of
    the exception, if any, and the file afterwards. *)
Definition write_file (file : File) (text : string) : option string * File :=
  match write_error with
  | None => (None, Content text)
  | Some (OpenFails error) => (Some error, file)
  | Some (WriteFails error written) =>
      (Some error, Content (String.substring 0 written text))
  end.

(** [save_config_with_comments(config_path, ...)]: the file afterwards,
    or the exception with the file as it is left. *)
Definition save_file (file : File) (tier_comments : gmap string (list TierEntry))
    (new_tiers : gmap string (list string)) : string * File + File :=
  match file with
  | Missing => inl ("No such file or directory", file)
  | Unreadable error => inl (error, file)
  | Content original_content =>
      match write_file file (save_config_with_comments original_content
                               tier_comments new_tiers) with
      | (Some error, damaged) => inl (error, damaged)
      | (None, saved) => inr saved
      end
  end.

(** The metadata step after a successful save; every failure in it is
    only printed as a warning. *)
Definition update_metadata (file : File) (total_free_models : nat)
    (new_tiers : gmap string (list string)) : File :=
  match file with
  | Content updated_content =>
      match yaml_safe_load updated_content with
      | inl _ => file
      | inr _ =>
          match write_file file (yaml_dump_metadata updated_content total_free_models) with
          | (Some _, damaged) => damaged
          | (None, dumped) =>
              match parse_yaml_with_comments dumped with
              | inl _ => dumped
              | inr (_, tier_comments) =>
                  match save_file dumped tier_comments new_tiers with
                  | inl (_, damaged) => damaged
                  | inr saved => saved
                  end
              end
          end
      end
  | _ => file
  end.

Definition update_config_with_freeride (file : File) (api_key : option string)
  : UpdateResult * File :=
  match file with
  | Missing => (Failure ("Config file not found: " +:+ config_path), file)
  | _ =>
      match parse_yaml_with_comments file with
      | inl e => (Failure ("Error reading config: " +:+ e), file)
      | inr (config, tier_comments) =>
          let api_key :=
            match truthy api_key with
            | Some k => Some k
            | None => get_api_key config
            end in
          match api_key with
          | None =>
              (Failure ("No OpenRouter API key found. Set OPENROUTER_API_KEY env var "
                        +:+ "or add to config.providers.openrouter.api_key"), file)
          | Some api_key =>
              let all_models := fetch_all_models api_key in
              match all_models with
              | [] => (Failure "Failed to fetch models from OpenRouter", file)
              | _ =>
                  let free_models := filter_free_models all_models in
                  match free_models with
                  | [] => (Failure "No free models found on OpenRouter", file)
                  | _ =>
                      let ranked_models := rank_free_models clock free_models in
                      let new_tiers := distribute_to_tiers ranked_models in
                      let stats :=
                        foldr (λ '(tier_name, new_models) stats,
                                 tier_stats (default [] (tier_comments !! tier_name))
                                            new_models stats)
                              {| added := 0; preserved := 0;
                                 skipped_duplicates := 0; tiers_updated := 0 |}
                              (map_to_list new_tiers) in
                      match save_file file tier_comments new_tiers with
                      | inl (e, damaged) =>
                          (Failure ("Error saving config: " +:+ e), damaged)
                      | inr saved =>
                          (Success
                             ("Updated " +:+ pretty (tiers_updated stats)
                              +:+ " tiers with " +:+ pretty (added stats)
                              +:+ " new free models, preserved "
                              +:+ pretty (preserved stats) +:+ " existing entries")
                             stats
                             (m_id <$> take 5 ranked_models),
                           update_metadata saved (length free_models) new_tiers)
                      end
                  end
              end
          end
      end
  end.

(** The [--update] branch of the command line: the exit code and the file. *)
Definition main_update (file : File) : nat * File :=
  let '(result, file') := update_config_with_freeride file None in
  match result with
  | Success _ _ _ => (0, file')
  | Failure _ => (1, file')
  end.
End Update.


(** The model with another context length. *)
Definition with_context_length (model : Model) (context_length : Z) : Model :=
  {| m_id := m_id model;
     m_pricing_prompt := m_pricing_prompt model;
     m_context_length := context_length;
     m_supported_parameters := m_supported_parameters model;
     m_created := m_created model;
     m_score := m_score model |}.

(** ** Listing the free models *)

(** [l[:limit]] for an integer [limit], which counts from the end when it
    is negative. *)
Definition py_slice_to {A} (limit : Z) (l : list A) : list A :=
  if (limit <? 0)%Z then take (Z.to_nat (Z.of_nat (length l) + limit)) l
  else take (Z.to_nat limit) l.

Section Listing.
Variable yaml_safe_load : string → string + Config.
Variable env_api_key : option string.
Variable fetch_all_models : string → list Model.
Variable clock : nat → Q.

(** [list_free_models]: a file that is missing or cannot be loaded gives
    the empty configuration. *)
Definition list_free_models (file : File) (limit : Z) : list Model :=
  let config :=
    match file with
    | Content text =>
        match yaml_safe_load text with
        | inr config => config
        | inl _ => empty_config
        end
    | _ => empty_config
    end in
  match get_api_key env_api_key config with
  | None => []
  | Some api_key =>
      let all_models := fetch_all_models api_key in
      let free_models := filter_free_models all_models in
      let ranked := rank_free_models clock free_models in
      py_slice_to limit ranked
  end.
End Listing.

(** ** The benchmark tool ([multispeedtest.py]) *)

Module Speedtest.

(** [s.split(sep, 1)[1]] when [sep in s] *)
Fixpoint split_rest (sep : ascii) (s : string) : string :=
  match s with
  | EmptyString => EmptyString
  | String c s' => if Ascii.eqb c sep then s' else split_rest sep s'
  end.

Definition parse_model_string (model_str : string) : string * string :=
  if Py.contains model_str ":"
  then (Py.split_head ":" model_str, split_rest ":" model_str)
  else ("unknown", model_str).

(** [table.get(key)] for a dictionary literal *)
Fixpoint dict_get (table : list (string * string)) (key : string) : option string :=
  match table with
  | [] => None
  | (k, v) :: table' => if String.eqb k key then Some v else dict_get table' key
  end.

Definition endpoints : list (string * string) :=
  [("anthropic", "https://api.anthropic.com/v1/messages");
   ("openai", "https://api.openai.com/v1/chat/completions");
   ("google", "https://generativelanguage.googleapis.com/v1beta/models");
   ("kimi", "https://api.moonshot.cn/v1/chat/completions");
   ("deepseek", "https://api.deepseek.com/v1/chat/completions");
   ("ollama", "http://localhost:11434/api/chat");
   ("exo", "http://localhost:52415/v1/chat/completions");
   ("lmstudio", "http://localhost:1234/v1/chat/completions");
   ("pollinations", "https://gen.pollinations.ai/v1/chat/completions");
   ("nvidia", "https://integrate.api.nvidia.com/v1/chat/completions")].

(** A value of the loaded YAML configuration or of a JSON answer.  The
    items of a mapping have pairwise different keys. *)
#[local] Unset Elimination Schemes.
Inductive Value :=
| VNone
| VBool (b : bool)
| VNum (n : Q)
| VStr (s : string)
| VList (items : list Value)
| VDict (fields : list (Value * Value)).
#[local] Set Elimination Schemes.

(** What goes wrong when such a value is used as the tool uses it. *)
Inductive Fault :=
| NoGet (v : Value)
| NoContains (v : Value)
| NoIndex (v : Value)
| NoSlice (v : Value)
| NoOrder (v : Value).

(** [bool(v)] *)
Definition py_bool (v : Value) : bool :=
  match v with
  | VNone => false
  | VBool b => b
  | VNum n => negb (Qeq_bool n 0)
  | VStr s => negb (String.eqb s "")
  | VList items => match items with [] => false | _ => true end
  | VDict fields => match fields with [] => false | _ => true end
  end.

(** [v == key] for a string [key] *)
Definition is_str (key : string) (v : Value) : bool :=
  match v with
  | VStr s => String.eqb s key
  | _ => false
  end.

Fixpoint dict_lookup (fields : list (Value * Value)) (key : string) : option Value :=
  match fields with
  | [] => None
  | (k, v) :: fields' => if is_str key k then Some v else dict_lookup fields' key
  end.

(** [v.get(key, dflt)], an [AttributeError] when [v] is no mapping *)
Definition py_get (v : Value) (key : string) (dflt : Value) : Fault + Value :=
  match v with
  | VDict fields => inr (default dflt (dict_lookup fields key))
  | _ => inl (NoGet v)
  end.

(** [key in v] for a string [key] *)
Definition py_contains (v : Value) (key : string) : Fault + bool :=
  match v with
  | VDict fields => inr (match dict_lookup fields key with Some _ => true | None => false end)
  | VList items => inr (existsb (is_str key) items)
  | VStr s => inr (Py.contains s key)
  | _ => inl (NoContains v)
  end.

(** [v[key]] for a string [key] *)
Definition py_index (v : Value) (key : string) : Fault + Value :=
  match v with
  | VDict fields =>
      match dict_lookup fields key with
      | Some x => inr x
      | None => inl (NoIndex v)
      end
  | _ => inl (NoIndex v)
  end.

(** [v[:100]] *)
Definition py_slice100 (v : Value) : Fault + Value :=
  match v with
  | VStr s => inr (VStr (String.substring 0 100 s))
  | VList items => inr (VList (take 100 items))
  | _ => inl (NoSlice v)
  end.

(** [v > 0]; a [bool] counts as 0 or 1. *)
Definition py_positive (v : Value) : Fault + bool :=
  match v with
  | VNum n => inr (Qgtb n 0)
  | VBool b => inr b
  | _ => inl (NoOrder v)
  end.

(** The number in [v / x], after [v > 0] has been evaluated. *)
Definition as_number (v : Value) : Q :=
  match v with
  | VNum n => n
  | VBool true => 1
  | _ => 0
  end.

(** The configuration has the form of the format as far as a provider
    goes: a mapping, whose [providers], if there, is a mapping, in which
    the entry of the provider, if there, is a mapping or is empty. *)
Definition config_ok (config : Value) (provider : string) : bool :=
  match config with
  | VDict fields =>
      match dict_lookup fields "providers" with
      | None => true
      | Some (VDict providers) =>
          match dict_lookup providers provider with
          | None => true
          | Some (VDict _) => true
          | Some entry => negb (py_bool entry)
          end
      | Some _ => false
      end
  | _ => false
  end.

Definition env_vars : list (string * string) :=
  [("anthropic", "ANTHROPIC_API_KEY");
   ("openai", "OPENAI_API_KEY");
   ("google", "GOOGLE_API_KEY");
   ("kimi", "MOONSHOT_API_KEY");
   ("deepseek", "DEEPSEEK_API_KEY");
   ("nvidia", "NVIDIA_API_KEY")].

(** [_get_api_key]; [environ] is [os.environ.get]. *)
Definition get_api_key (environ : string → option string) (provider : string)
  : option string :=
  match dict_get env_vars provider with
  | Some env_var => environ env_var
  | None =>
      if bool_decide (provider ∈ ["ollama"; "exo"; "lmstudio"; "pollinations"])
      then Some "dummy-key" else None
  end.

(** The three ways [test_model] calls a provider. *)
Inductive Strategy := Anthropic | OpenAICompatible | Google.

Definition strategy_of (provider : string) : option Strategy :=
  if String.eqb provider "anthropic" then Some Anthropic
  else if bool_decide (provider ∈ ["openai"; "kimi"; "deepseek"; "ollama"; "exo";
                                   "lmstudio"; "pollinations"; "nvidia"])
  then Some OpenAICompatible
  else if String.eqb provider "google" then Some Google
  else None.

(** What a call returns: the [content] and the [usage] of the answer. *)
Record ApiResponse := {
  content : Value;
  usage : Value
}.

(** The dictionary [test_model] returns; [None] is [None], and the
    endpoint is [VNone] when there is none. *)
Record TestResult := {
  r_tier : string;
  r_model : string;
  r_provider : string;
  r_model_name : string;
  r_endpoint : Value;
  r_success : bool;
  r_latency_ms : option Q;
  r_tokens_per_sec : option Q;
  r_error : option string;
  r_response : option Value
}.

(** What [run_tests] records for a model: the dictionary of [test_model],
    or the short one it builds itself when [test_model] raises. *)
Inductive Outcome :=
| Tested (result : TestResult)
| Crashed (tier model error : string).

Definition DEFAULT_PROMPT : string := "Say 'OK' and nothing else.".

Section TestModel.
(** The collaborators: the text [str(e)] of the exception of a fault, the
    result of opening and loading the configuration file ([inl] is the
    text of the exception it raises), the environment, the HTTP call
    ([inl] is the text of a raised exception), the clock before and after
    the call, and [round(x, 2)]. *)
Variable str_of : Fault → string.
Variable load_config : string + Value.
Variable environ : string → option string.
Variable call_api : Strategy → Value → string → string → string → string + ApiResponse.
Variable start_time end_time : Q.
Variable round2 : Q → Q.

(** [endpoints.get(provider)] *)
Definition builtin_endpoint (provider : string) : Value :=
  match dict_get endpoints provider with
  | Some url => VStr url
  | None => VNone
  end.

(** [get_api_endpoint]; [inl] when it raises. *)
Definition get_api_endpoint (provider : string) : string + Value :=
  match load_config with
  | inl e => inl e
  | inr config =>
      match py_get config "providers" (VDict []) with
      | inl fault => inl (str_of fault)
      | inr providers =>
          match py_contains providers provider with
          | inl fault => inl (str_of fault)
          | inr false => inr (builtin_endpoint provider)
          | inr true =>
              match py_index providers provider with
              | inl fault => inl (str_of fault)
              | inr entry =>
                  if py_bool entry then
                    match py_get entry "url" VNone with
                    | inl fault => inl (str_of fault)
                    | inr url =>
                        if py_bool url then inr url else inr (builtin_endpoint provider)
                    end
                  else inr (builtin_endpoint provider)
              end
          end
      end
  end.

(** [test_model]; [inl] when it raises, which only the lookup of the
    endpoint can do, the rest being inside the [try]. *)
Definition test_model (tier model_str test_prompt : string) : string + TestResult :=
  let '(provider, model_name) := parse_model_string model_str in
  match get_api_endpoint provider with
  | inl e => inl e
  | inr endpoint =>
      let result error success latency tokens response :=
        {| r_tier := tier; r_model := model_str; r_provider := provider;
           r_model_name := model_name; r_endpoint := endpoint; r_success := success;
           r_latency_ms := latency; r_tokens_per_sec := tokens; r_error := error;
           r_response := response |} in
      inr
        (if negb (py_bool endpoint) then
           result (Some ("Kein Endpoint f" +:+ String "252" ("r Provider '" +:+ provider +:+ "'")))
                  false None None None
         else
           match get_api_key environ provider with
           | None | Some EmptyString =>
               result (Some ("Kein API-Key f" +:+ String "252" ("r Provider '" +:+ provider +:+ "'")))
                      false None None None
           | Some api_key =>
               match strategy_of provider with
               | None =>
                   result (Some ("Provider '" +:+ provider +:+ "' nicht unterst"
                                 +:+ String "252" "tzt"))
                          false None None None
               | Some strategy =>
                   match call_api strategy endpoint api_key model_name test_prompt with
                   | inl e => result (Some e) false None None None
                   | inr response =>
                       let elapsed_ms := ((end_time - start_time) * 1000)%Q in
                       let latency := Some (round2 elapsed_ms) in
                       match py_slice100 (content response) with
                       | inl fault => result (Some (str_of fault)) true latency None None
                       | inr text =>
                           let failed fault :=
                             result (Some (str_of fault)) true latency None (Some text) in
                           match py_get (usage response) "total_tokens" (VNum 0) with
                           | inl fault => failed fault
                           | inr total =>
                               match (if py_bool total then inr total
                                      else py_get (usage response) "completion_tokens"
                                             (VNum 0)) with
                               | inl fault => failed fault
                               | inr total_tokens =>
                                   match py_positive total_tokens with
                                   | inl fault => failed fault
                                   | inr positive =>
                                       result None true latency
                                         (if positive && Qgtb elapsed_ms 0
                                          then Some (round2 (as_number total_tokens
                                                             / (elapsed_ms / 1000)))
                                          else None)
                                         (Some text)
                                   end
                               end
                           end
                       end
                   end
               end
           end)
  end.

(** The job of [run_tests] for one model, which calls [test_model] with
    its default prompt. *)
Definition run_one (tier model : string) : Outcome :=
  match test_model tier model DEFAULT_PROMPT with
  | inr result => Tested result
  | inl e => Crashed tier model e
  end.
End TestModel.

(** [r["success"]] *)
Definition success (r : Outcome) : bool :=
  match r with
  | Tested result => r_success result
  | Crashed _ _ _ => false
  end.

(** [r["latency_ms"]], which [print_summary] reads of successful results
    only. *)
Definition latency_ms (r : Outcome) : option Q :=
  match r with
  | Tested result => r_latency_ms result
  | Crashed _ _ _ => None
  end.

(** [r["latency_ms"]] is truthy. *)
Definition has_latency (r : Outcome) : bool :=
  match latency_ms r with
  | Some latency => negb (Qeq_bool latency 0)
  | None => false
  end.

Definition latency_of (r : Outcome) : Q := default 0%Q (latency_ms r).

(** The "TOP 3" of [print_summary]. *)
Definition top3 (results : list Outcome) : list Outcome :=
  let successful := List.filter success results in
  take 3 (py_sort latency_of Qle_bool (List.filter has_latency successful)).

End Speedtest.

(** ** Notions used to state the properties *)

(** The line the merger writes for an entry. *)
Definition render_entry (entry : TierEntry) : string :=
  if entry.2 then "  # - " +:+ entry.1 else "  - " +:+ entry.1.

(** The normalized identity of an entry. *)
Definition entry_id (entry : TierEntry) : string := normalize_model_id entry.1.

(** The candidates the second pass appends when [seen] holds the tracked
    identities. *)
Fixpoint fresh_models (seen : gset string) (new_models : list string) : list string :=
  match new_models with
  | [] => []
  | new_model :: new_models' =>
      let normalized := normalize_model_id new_model in
      if bool_decide (normalized ∉ seen)
      then new_model :: fresh_models ({[normalized]} ∪ seen) new_models'
      else fresh_models seen new_models'
  end.

(** The entries of a tier after the merge. *)
Definition merge_entries (tier_entries : list TierEntry) (new_models : list string)
  : list TierEntry :=
  tier_entries
  ++ ((λ m, (m, false)) <$> fresh_models (list_to_set (entry_id <$> tier_entries)) new_models).

(** The lines the merger adds after those of the existing entries. *)
Definition appended_lines (tier_entries : list TierEntry) (new_models : list string)
  : list string :=
  drop (length tier_entries) (merge_models_with_comments tier_entries new_models).

(** An entry text as the parser produces it: not empty, no white space
    around it, on one line. *)
Definition clean_text (text : string) : bool :=
  negb (String.eqb text "") && String.eqb (Py.strip text) text
  && negb (Py.contains text newline).

(** An entry that the parser reads back from the line the merger writes
    for it: an active entry must not begin with the comment marker. *)
Definition entry_ok (entry : TierEntry) : bool :=
  clean_text entry.1 && (entry.2 || negb (Py.startswith entry.1 "#")).

Definition candidate_ok (new_model : string) : bool := entry_ok (new_model, false).

(** A line of the file that does not hold an active entry beginning with
    the comment marker. *)
Definition line_ok (line : string) : bool :=
  match line_entry (Py.strip line) with
  | Some (text, false) => negb (Py.startswith text "#")
  | _ => true
  end.

(** Every candidate of the five tiers is read back from its line. *)
Definition candidates_ok (new_tiers : gmap string (list string)) : bool :=
  forallb (λ tier_name, forallb candidate_ok (default [] (new_tiers !! tier_name))) TIERS.

Definition lines_ok (content : string) : bool :=
  forallb line_ok (Py.split "010" content).

(** How the rewriter treats each line of the original file: copied,
    copied as the header of a tier, or dropped as part of the range it
    replaces after a header. *)
Inductive Segment :=
| Keep (line : string)
| Header (tier_name line : string)
| Replaced (line : string).

Definition segment_line (seg : Segment) : string :=
  match seg with
  | Keep line | Header _ line | Replaced line => line
  end.

(** The range the rewriter replaces runs from the line after a header up
    to the next line at zero indentation that holds a key which is not a
    tier name; without such a line it runs to the end of the file, a
    blank last line excepted.  The header of another tier does not end
    it. *)
Fixpoint segments (in_body : bool) (lines : list string) : list Segment :=
  match lines with
  | [] => []
  | line :: lines' =>
      if in_body then
        if String.eqb (Py.strip line) "" then
          match lines' with
          | [] => [Keep line]
          | _ => Replaced line :: segments true lines'
          end
        else if ends_section line then Keep line :: segments false lines'
        else Replaced line :: segments true lines'
      else
        match tier_match (Py.strip line) with
        | Some tier_name => Header tier_name line :: segments true lines'
        | None => Keep line :: segments false lines'
        end
  end.

(** What the rewritten file holds for a segment. *)
Definition emit (merged : string → list string) (seg : Segment) : list string :=
  match seg with
  | Keep line => [line]
  | Header tier_name line => line :: merged tier_name
  | Replaced _ => []
  end.






(** The catalog entry of the classification scenario, created ten days
    before [now]. *)
Definition scenario_entry (now : Z) : Model :=
  {| m_id := "meta-llama/llama-3.1-8b";
     m_pricing_prompt := Some 0%Q;
     m_context_length := 131072;
     m_supported_parameters := [];
     m_created := now - 10 * 86400;
     m_score := None |}.

#[global] Instance Qeq_decision (a b : Q) : Decision (a == b)%Q := Qeq_dec a b.

(** * Properties *)

#[local] Arguments String.append !_ _ / : simpl nomatch.

(** ** The definitions on concrete inputs *)

Example normalize_examples :
  normalize_model_id "openrouter:meta-llama/Llama-3.1-8B:free" = "meta-llama/llama-3.1-8b"
  ∧ normalize_model_id "  anthropic:claude-haiku " = "claude-haiku"
  ∧ normalize_model_id "openrouter:openrouter/free:free" = "openrouter/free"
  ∧ format_model_for_router "meta-llama/llama-3.1-8b"
    = "openrouter:meta-llama/llama-3.1-8b:free".
Proof. vm_compute. done. Qed.

Example merge_scenario :
  merge_models_with_comments
    [("openrouter:old/model:free", false); ("openrouter:banned/model:free", true)]
    ["openrouter:old/model:free"; "openrouter:new/model:free"]
  = ["  - openrouter:old/model:free"; "  # - openrouter:banned/model:free";
     "  - openrouter:new/model:free"].
Proof. vm_compute. reflexivity. Qed.

Example comment_pattern_examples :
  Re.search_comment "# - x" = Some "x"
  ∧ Re.search_comment "#" = None
  ∧ Re.search_comment "# -" = Some "-"
  ∧ Re.search_comment "- #x" = Some "x"
  ∧ Re.search_comment "# a # b" = Some "a # b".
Proof. vm_compute. done. Qed.

Example parse_example :
  parse_tier ["super_easy"; "easy"] "super_easy" false
    ["models:"; "  super_easy:"; "    - a"; "    # - b"; ""; "  easy:"; "    - c";
     "providers:"; "  x: 1"]
  = [("a", false); ("b", true); ("c", false)].
Proof. vm_compute. reflexivity. Qed.

Example rewrite_example :
  rewrite_lines (λ _, ["  - m"])
    ["models:"; "  super_easy:"; "    - a"; ""; "  easy:"; "    - c"; ""; "providers:"; ""]
  = ["models:"; "  super_easy:"; "  - m"; "providers:"; ""].
Proof. vm_compute. reflexivity. Qed.

(** ** Strings *)

Section StringLemmas.
Implicit Types s t p : string.

Lemma contains_char_cons c a p :
  Py.contains (String a p) (String c "") = Ascii.eqb c a || Py.contains p (String c "").
Proof. simpl. by rewrite andb_true_r. Qed.

Lemma startswith_app_miss p s t c :
  Py.contains p (String c "") = false →
  Py.startswith (s +:+ String c t) p = Py.startswith s p.
Proof.
  revert s. induction p as [|a p IH]; intros s Hc; [done|].
  rewrite contains_char_cons in Hc. apply orb_false_iff in Hc as [Hac Hp].
  destruct s as [|b s]; simpl.
  - rewrite Ascii.eqb_sym, Hac. done.
  - by rewrite IH.
Qed.

Lemma lstrip_id s c : Py.is_space c = false → Py.lstrip (String c s) = String c s.
Proof. intros H. simpl. by rewrite H. Qed.

Lemma rstrip_nonempty_app s t :
  Py.rstrip t = t → t ≠ "" → Py.rstrip (s +:+ t) = s +:+ t.
Proof.
  intros Ht Hne. induction s as [|c s IH]; simpl; [done|].
  rewrite IH. destruct (s +:+ t) eqn:E; [|done].
  destruct s; simpl in E; congruence.
Qed.

Lemma endswith_app s t : Py.endswith (s +:+ t) t = true.
Proof.
  induction s as [|c s IH]; simpl.
  - destruct t; cbn [Py.endswith]; by rewrite String.eqb_refl.
  - rewrite IH. apply orb_true_r.
Qed.

Lemma startswith_refl s : Py.startswith s s = true.
Proof. induction s; simpl; [done|]. by rewrite Ascii.eqb_refl. Qed.

Lemma endswith_contains s p : Py.endswith s p = true → Py.contains s p = true.
Proof.
  induction s as [|c s IH]; cbn [Py.endswith Py.contains]; intros H.
  - rewrite orb_false_r in H. apply String.eqb_eq in H as <-. done.
  - apply orb_true_iff in H as [H|H].
    + apply String.eqb_eq in H as <-. by rewrite startswith_refl.
    + rewrite (IH H). apply orb_true_r.
Qed.

Lemma length_app s t : String.length (s +:+ t) = String.length s + String.length t.
Proof. induction s; simpl; [done|]. by rewrite IHs. Qed.

Lemma substring_0_app s t : String.substring 0 (String.length s) (s +:+ t) = s.
Proof. induction s; simpl; [by destruct t|]. by rewrite IHs. Qed.

Lemma drop_last_app s t : Py.drop_last (String.length t) (s +:+ t) = s.
Proof.
  unfold Py.drop_last. rewrite length_app.
  replace (String.length s + String.length t - String.length t) with (String.length s) by lia.
  apply substring_0_app.
Qed.

Lemma drop_app_length p s : Py.drop (String.length p) (p +:+ s) = s.
Proof. induction p; simpl; [by destruct s|done]. Qed.

Lemma app_assoc_s s t u : (s +:+ t) +:+ u = s +:+ t +:+ u.
Proof. induction s; simpl; [done|]. by rewrite IHs. Qed.
End StringLemmas.

Lemma remove_first_prefix_none prefixes s :
  Forall (λ p, Py.startswith s p = false) prefixes → remove_first_prefix prefixes s = s.
Proof. induction 1 as [|p ps Hp _ IH]; simpl; [done|]. by rewrite Hp. Qed.

(** ** Router format and normalizer *)

(** C10, as stated, fails: the catalog identifier "openrouter/free" starts
    with no scheme prefix and holds no free marker, yet its router form
    normalizes to "free"; and an identifier with a space after it keeps
    the space inside its router form, while the normalizer strips it from
    the identifier alone. *)
Lemma format_normalize_differs :
  (let model_id := "openrouter/free" in
   forallb (λ prefix, negb (Py.startswith model_id prefix)) PREFIXES = true
   ∧ Py.contains model_id ":free" = false
   ∧ normalize_model_id (format_model_for_router model_id) = "free"
   ∧ normalize_model_id model_id = "openrouter/free")
  ∧ (let model_id := "vendor/model " in
     forallb (λ prefix, negb (Py.startswith model_id prefix)) PREFIXES = true
     ∧ Py.contains model_id ":free" = false
     ∧ normalize_model_id (format_model_for_router model_id) = "vendor/model "
     ∧ normalize_model_id model_id = "vendor/model").
Proof. vm_compute. done. Qed.

(** C10, amended: for an identifier without white space around it that
    starts with no scheme prefix of the normalizer nor with "openrouter/"
    and holds no free marker, the router form and the identifier have the
    same normalized identity. *)
Theorem format_normalize_round_trip (model_id : string) :
  Py.strip model_id = model_id →
  forallb (λ prefix, negb (Py.startswith model_id prefix)) PREFIXES = true →
  Py.startswith model_id "openrouter/" = false →
  Py.contains model_id ":free" = false →
  normalize_model_id (format_model_for_router model_id) = normalize_model_id model_id.
Proof.
  intros Hstrip Hpre Hor Hfree.
  assert (Forall (λ p, Py.startswith model_id p = false) PREFIXES) as Hpre'.
  { apply Forall_forall. intros p Hp. rewrite forallb_forall in Hpre.
    apply negb_true_iff, Hpre. by apply list_elem_of_In. }
  unfold format_model_for_router. rewrite Hfree. cbn [negb].
  rewrite (startswith_app_miss "openrouter/" model_id "free" ":") by done.
  rewrite Hor.
  unfold normalize_model_id at 2. rewrite Hstrip, (remove_first_prefix_none _ _ Hpre').
  destruct (Py.endswith model_id ":free") eqn:E.
  { apply endswith_contains in E. congruence. }
  unfold normalize_model_id.
  assert (Py.strip ("openrouter:" +:+ model_id +:+ ":free")
          = "openrouter:" +:+ model_id +:+ ":free") as ->.
  { unfold Py.strip. rewrite <- app_assoc_s.
    replace (Py.lstrip (("openrouter:" +:+ model_id) +:+ ":free"))
      with (("openrouter:" +:+ model_id) +:+ ":free") by done.
    by apply rstrip_nonempty_app. }
  replace (remove_first_prefix PREFIXES ("openrouter:" +:+ model_id +:+ ":free"))
    with (model_id +:+ ":free") by done.
  rewrite endswith_app.
  f_equal. apply (drop_last_app model_id ":free").
Qed.

Lemma format_normalize_round_trip_witness :
  let model_id := "meta-llama/llama-3.1-8b" in
  Py.strip model_id = model_id
  ∧ normalize_model_id (format_model_for_router model_id) = normalize_model_id model_id.
Proof.
  intros model_id. split; [vm_compute; reflexivity|].
  apply (format_normalize_round_trip model_id); vm_compute; reflexivity.
Defined.
(** ** Merger *)

Section Merger.
Implicit Types (tier_entries : list TierEntry) (new_models : list string).
Implicit Types (seen : gset string).

Lemma merge_existing_spec tier_entries result seen :
  merge_existing tier_entries result seen
  = (result ++ (render_entry <$> tier_entries),
     list_to_set (entry_id <$> tier_entries) ∪ seen).
Proof.
  revert result seen. induction tier_entries as [|[model_str is_commented] es IH];
    intros result seen; cbn [merge_existing].
  - rewrite !fmap_nil. cbn [list_to_set]. by rewrite app_nil_r, (left_id_L ∅ (∪)).
  - rewrite fmap_cons, (fmap_cons entry_id). cbn [list_to_set].
    assert (list_to_set (entry_id <$> es) ∪ ({[normalize_model_id model_str]} ∪ seen)
            = {[entry_id (model_str, is_commented)]} ∪ list_to_set (entry_id <$> es) ∪ seen)
      as Hset.
    { unfold entry_id. cbn [fst].
      by rewrite (assoc_L (∪)), (comm_L (∪) (list_to_set _)). }
    destruct is_commented; rewrite IH, <- app_assoc, Hset; done.
Qed.

Lemma merge_new_spec new_models result seen :
  (merge_new new_models result seen).1
  = result ++ ((λ m, "  - " +:+ m) <$> fresh_models seen new_models).
Proof.
  revert result seen. induction new_models as [|m ms IH]; intros result seen;
    cbn [merge_new fresh_models].
  - by rewrite app_nil_r.
  - case_bool_decide; rewrite IH, <- ?app_assoc; done.
Qed.

Lemma merge_lines tier_entries new_models :
  merge_models_with_comments tier_entries new_models
  = (render_entry <$> tier_entries)
    ++ ((λ m, "  - " +:+ m)
          <$> fresh_models (list_to_set (entry_id <$> tier_entries)) new_models).
Proof.
  unfold merge_models_with_comments. rewrite merge_existing_spec, merge_new_spec.
  by rewrite (right_id_L ∅ (∪)).
Qed.

Lemma merge_lines_entries tier_entries new_models :
  merge_models_with_comments tier_entries new_models
  = render_entry <$> merge_entries tier_entries new_models.
Proof.
  rewrite merge_lines. unfold merge_entries.
  rewrite fmap_app, <- list_fmap_compose. done.
Qed.

Lemma appended_lines_spec tier_entries new_models :
  appended_lines tier_entries new_models
  = (λ m, "  - " +:+ m)
      <$> fresh_models (list_to_set (entry_id <$> tier_entries)) new_models.
Proof.
  unfold appended_lines. rewrite merge_lines.
  rewrite drop_app_length'; [done|]. by rewrite length_fmap.
Qed.

Lemma fresh_models_unseen seen new_models m :
  m ∈ fresh_models seen new_models → (normalize_model_id m ∉ seen) ∧ m ∈ new_models.
Proof.
  revert seen. induction new_models as [|c cs IH]; intros seen; simpl.
  - by intros ?%elem_of_nil.
  - case_bool_decide as Hc.
    + intros [->|Hm]%elem_of_cons; [split; [done|left]|].
      apply IH in Hm as [Hm ?]. split; [|by right].
      intros Hseen. apply Hm, elem_of_union. by right.
    + intros Hm. apply IH in Hm as [? ?]. split; [done|by right].
Qed.

Lemma fresh_models_NoDup seen new_models :
  NoDup (normalize_model_id <$> fresh_models seen new_models).
Proof.
  revert seen. induction new_models as [|c cs IH]; intros seen; simpl.
  - constructor.
  - case_bool_decide; [|done]. simpl. constructor; [|done].
    intros (m & Heq & Hm)%list_elem_of_fmap.
    apply fresh_models_unseen in Hm as [Hm _]. set_solver.
Qed.

Lemma fresh_models_covers seen new_models m :
  m ∈ new_models →
  normalize_model_id m ∈ seen
  ∨ normalize_model_id m ∈ normalize_model_id <$> fresh_models seen new_models.
Proof.
  revert seen. induction new_models as [|c cs IH]; intros seen; simpl.
  - by intros ?%elem_of_nil.
  - intros [->|Hm]%elem_of_cons.
    + case_bool_decide as Hc.
      * right. simpl. left.
      * left. by destruct (decide (normalize_model_id c ∈ seen)).
    + case_bool_decide as Hc; [|by apply IH].
      destruct (IH ({[normalize_model_id c]} ∪ seen) Hm) as [Hs|Hs].
      * apply elem_of_union in Hs as [->%elem_of_singleton|?]; [|by left].
        right. simpl. left.
      * right. simpl. by right.
Qed.

Lemma has_duplicate_spec tier_entries new_model :
  has_duplicate tier_entries new_model = true
  ↔ normalize_model_id new_model ∈ entry_id <$> tier_entries.
Proof.
  unfold has_duplicate. rewrite existsb_exists, list_elem_of_fmap.
  split.
  - intros ([m c] & Hin & Heq). exists (m, c). split.
    + by apply String.eqb_eq in Heq.
    + by apply list_elem_of_In.
  - intros ([m c] & Heq & Hin). exists (m, c). split.
    + by apply list_elem_of_In.
    + by apply String.eqb_eq.
Qed.

Lemma render_active_inj : Inj (=) (=) (λ m : string, "  - " +:+ m).
Proof. intros m1 m2 H. by simplify_eq/=. Qed.
End Merger.
(** C4: when the existing entries of a tier have pairwise distinct
    normalized identities, the entries after the merge (active and
    commented) still have pairwise distinct identities, and a candidate
    whose identity is already among the existing entries gets no line. *)
Theorem merge_deduplicates (tier_entries : list TierEntry) (new_models : list string) :
  NoDup (entry_id <$> tier_entries) →
  merge_models_with_comments tier_entries new_models
  = render_entry <$> merge_entries tier_entries new_models
  ∧ NoDup (entry_id <$> merge_entries tier_entries new_models)
  ∧ ∀ candidate,
      candidate ∈ new_models →
      has_duplicate tier_entries candidate = true →
      "  - " +:+ candidate ∉ appended_lines tier_entries new_models.
Proof.
  intros Hnodup. split; [apply merge_lines_entries|]. split.
  - unfold merge_entries. rewrite fmap_app, <- list_fmap_compose.
    apply NoDup_app. split; [done|]. split; [|apply fresh_models_NoDup].
    intros identity Hold (m & -> & Hm)%list_elem_of_fmap.
    apply fresh_models_unseen in Hm as [Hm _]. apply Hm.
    by apply elem_of_list_to_set.
  - intros candidate _ Hdup%has_duplicate_spec.
    rewrite appended_lines_spec.
    intros (m & Heq & Hm)%list_elem_of_fmap.
    apply render_active_inj in Heq as <-.
    apply fresh_models_unseen in Hm as [Hm _]. apply Hm.
    by apply elem_of_list_to_set.
Qed.

Lemma merge_deduplicates_witness :
  let tier_entries :=
    [("openrouter:old/model:free", false); ("openrouter:banned/model:free", true)] in
  let new_models := ["openrouter:old/model:free"; "openrouter:new/model:free"] in
  NoDup (entry_id <$> tier_entries)
  ∧ NoDup (entry_id <$> merge_entries tier_entries new_models).
Proof.
  intros tier_entries new_models.
  assert (NoDup (entry_id <$> tier_entries)) as Hnodup.
  { apply (bool_decide_unpack _). vm_compute. exact I. }
  split; [exact Hnodup|].
  exact (proj1 (proj2 (merge_deduplicates tier_entries new_models Hnodup))).
Defined.

(** C6, as stated, fails: there are no existing entries and candidates for
    which two distinct candidates with the same normalized identity both
    get a line. *)
Lemma merge_never_inserts_both :
  ¬ ∃ (tier_entries : list TierEntry) (new_models : list string) (c1 c2 : string),
      c1 ≠ c2 ∧ c1 ∈ new_models ∧ c2 ∈ new_models
      ∧ normalize_model_id c1 = normalize_model_id c2
      ∧ "  - " +:+ c1 ∈ appended_lines tier_entries new_models
      ∧ "  - " +:+ c2 ∈ appended_lines tier_entries new_models.
Proof.
  intros (tier_entries & new_models & c1 & c2 & Hne & _ & _ & Hid & H1 & H2).
  rewrite appended_lines_spec in H1, H2.
  apply list_elem_of_fmap in H1 as (m1 & Heq1 & H1).
  apply list_elem_of_fmap in H2 as (m2 & Heq2 & H2).
  apply render_active_inj in Heq1 as <-. apply render_active_inj in Heq2 as <-.
  apply Hne.
  pose proof (fresh_models_NoDup (list_to_set (entry_id <$> tier_entries)) new_models)
    as Hnodup.
  apply list_elem_of_lookup in H1 as [i Hi]. apply list_elem_of_lookup in H2 as [j Hj].
  assert (i = j) as ->; [|congruence].
  eapply NoDup_lookup; [exact Hnodup| |].
  - rewrite list_lookup_fmap, Hi. done.
  - rewrite list_lookup_fmap, Hj. simpl. by rewrite Hid.
Qed.

(** C6, amended: the second pass tracks the identities it adds, so of two
    candidates with the same normalized identity that no existing entry
    has, only the first gets a line; the duplicate check of the
    statistics, [has_duplicate], looks at the existing entries alone and
    reports neither candidate as a duplicate. *)
Theorem merge_dedupes_within_batch
    (tier_entries : list TierEntry) (c1 c2 : string) :
  normalize_model_id c1 = normalize_model_id c2 →
  has_duplicate tier_entries c1 = false →
  merge_models_with_comments tier_entries [c1; c2]
  = (render_entry <$> tier_entries) ++ ["  - " +:+ c1]
  ∧ has_duplicate tier_entries c2 = false.
Proof.
  intros Hid Hnew. split.
  - rewrite merge_lines. f_equal. cbn [fresh_models].
    rewrite bool_decide_true.
    + rewrite bool_decide_false; [done|]. rewrite <- Hid. set_solver.
    + intros Hin%elem_of_list_to_set.
      apply has_duplicate_spec in Hin. congruence.
  - destruct (has_duplicate tier_entries c2) eqn:E; [|done].
    apply has_duplicate_spec in E. rewrite <- Hid in E.
    apply has_duplicate_spec in E. congruence.
Qed.

Lemma merge_dedupes_within_batch_witness :
  let tier_entries := [("anthropic:claude-haiku", false)] in
  let c1 := "openrouter:new/model:free" in
  let c2 := "New/Model" in
  normalize_model_id c1 = normalize_model_id c2
  ∧ has_duplicate tier_entries c1 = false
  ∧ merge_models_with_comments tier_entries [c1; c2]
    = ["  - anthropic:claude-haiku"; "  - openrouter:new/model:free"].
Proof.
  intros tier_entries c1 c2.
  assert (normalize_model_id c1 = normalize_model_id c2) as Hid by (vm_compute; reflexivity).
  assert (has_duplicate tier_entries c1 = false) as Hnew by (vm_compute; reflexivity).
  split; [exact Hid|]. split; [exact Hnew|].
  exact (proj1 (merge_dedupes_within_batch tier_entries c1 c2 Hid Hnew)).
Defined.
(** ** Classifier and distribution *)

Lemma rank_singleton clock model :
  rank_free_models clock [model]
  = [with_score model (calculate_model_score (clock 0) model)].
Proof. reflexivity. Qed.

(** C5, as stated, fails: the scenario entry is not classified [hard]. *)
Lemma scenario_not_hard :
  categorize_model
    <$> rank_free_models (λ _, 1760000000%Q) [scenario_entry 1760000000]
  ≠ ["hard"].
Proof. vm_compute. discriminate. Qed.

(** C5, amended: the scenario entry is classified [easy] whatever the
    clock reads, because its short name contains "8b" and the rule for
    small models comes before the rule on the context length; it is
    the only candidate of tier [easy] besides the fallback. *)
Theorem scenario_classified_easy (clock : nat → Q) (now : Z) :
  categorize_model <$> rank_free_models clock [scenario_entry now] = ["easy"]
  ∧ distribute_to_tiers (rank_free_models clock [scenario_entry now]) !! "easy"
    = Some ["openrouter:meta-llama/llama-3.1-8b:free"; free_router]
  ∧ distribute_to_tiers (rank_free_models clock [scenario_entry now]) !! "hard"
    = Some [free_router].
Proof.
  rewrite rank_singleton.
  assert (categorize_model
            (with_score (scenario_entry now)
               (calculate_model_score (clock 0) (scenario_entry now))) = "easy") as Hcat.
  { vm_compute. reflexivity. }
  split; [simpl; by rewrite Hcat|].
  unfold distribute_to_tiers. cbn [foldl]. unfold add_to_tier. rewrite Hcat.
  split; vm_compute; reflexivity.
Qed.

Lemma add_to_tier_is_Some tiers model tier_name :
  is_Some (tiers !! tier_name) → is_Some (add_to_tier tiers model !! tier_name).
Proof.
  intros Hsome. unfold add_to_tier. case_bool_decide; [done|].
  destruct (decide (categorize_model model = tier_name)) as [->|Hne].
  - rewrite lookup_insert_eq. eauto.
  - by rewrite lookup_insert_ne.
Qed.

Lemma foldl_add_to_tier_is_Some ranked_models tiers tier_name :
  is_Some (tiers !! tier_name) →
  is_Some (foldl add_to_tier tiers ranked_models !! tier_name).
Proof.
  revert tiers. induction ranked_models as [|model ms IH]; intros tiers Hsome; [done|].
  simpl. apply IH. by apply add_to_tier_is_Some.
Qed.

Lemma ensure_fallback_elem members : free_router ∈ ensure_fallback members.
Proof.
  unfold ensure_fallback. case_bool_decide; [done|].
  apply elem_of_app. right. left.
Qed.

Lemma distribute_has_fallback ranked_models tier_name :
  tier_name ∈ TIERS →
  ∃ new_models,
    distribute_to_tiers ranked_models !! tier_name = Some new_models
    ∧ free_router ∈ new_models.
Proof.
  intros Htier. unfold distribute_to_tiers. rewrite lookup_fmap.
  destruct (foldl_add_to_tier_is_Some ranked_models
              (list_to_map ((λ t, (t, [])) <$> TIERS)) tier_name) as [members Hm].
  { exists []. apply elem_of_list_to_map_1'.
    - intros y (t & [= _ ->] & _)%list_elem_of_fmap. done.
    - apply list_elem_of_fmap. eauto. }
  rewrite Hm. simpl. eexists. split; [done|]. apply ensure_fallback_elem.
Qed.

(** X28: for each of the five tiers the candidate list built by the
    distribution holds the fallback identifier, and the merge of any
    existing entries with that list holds an entry with the fallback's
    normalized identity: an existing line, active or commented, or else a
    line appended for a candidate with that identity. *)
Theorem fallback_in_merge
    (ranked_models : list Model) (tier_name : string) (tier_entries : list TierEntry) :
  tier_name ∈ TIERS →
  ∃ new_models,
    distribute_to_tiers ranked_models !! tier_name = Some new_models
    ∧ free_router ∈ new_models
    ∧ merge_models_with_comments tier_entries new_models
      = render_entry <$> merge_entries tier_entries new_models
    ∧ (∃ entry, entry ∈ merge_entries tier_entries new_models
                ∧ entry_id entry = normalize_model_id free_router)
    ∧ (has_duplicate tier_entries free_router = false →
       ∃ candidate, candidate ∈ new_models
         ∧ normalize_model_id candidate = normalize_model_id free_router
         ∧ "  - " +:+ candidate ∈ appended_lines tier_entries new_models)
    ∧ ∀ tier_comments : gmap string (list TierEntry),
        tier_comments !! tier_name = Some tier_entries →
        ∃ entry,
          render_entry entry
            ∈ merged_tier tier_comments (distribute_to_tiers ranked_models) tier_name
          ∧ entry_id entry = normalize_model_id free_router.
Proof.
  intros Htier.
  destruct (distribute_has_fallback ranked_models tier_name Htier)
    as (new_models & Hlookup & Hin).
  exists new_models. split; [done|]. split; [done|].
  split; [apply merge_lines_entries|].
  pose proof (fresh_models_covers (list_to_set (entry_id <$> tier_entries))
                new_models free_router Hin) as Hcov.
  assert (∃ entry, entry ∈ merge_entries tier_entries new_models
                   ∧ entry_id entry = normalize_model_id free_router) as Hentry.
  { unfold merge_entries. destruct Hcov as [Hold|Hnew].
    + apply elem_of_list_to_set, list_elem_of_fmap in Hold as (entry & Heq & He).
      exists entry. split; [|done]. apply elem_of_app. by left.
    + apply list_elem_of_fmap in Hnew as (m & Heq & Hm).
      exists (m, false). split; [|done].
      apply elem_of_app. right. apply list_elem_of_fmap. eauto. }
  split; [exact Hentry|]. split.
  - intros Hnodup. destruct Hcov as [Hold|Hnew].
    + apply elem_of_list_to_set, has_duplicate_spec in Hold. congruence.
    + apply list_elem_of_fmap in Hnew as (m & Heq & Hm).
      exists m. split; [by apply fresh_models_unseen in Hm as [_ ?]|].
      split; [done|]. rewrite appended_lines_spec.
      apply list_elem_of_fmap. eauto.
  - intros tier_comments Hcomments. destruct Hentry as (entry & Hmem & Hid).
    exists entry. split; [|done].
    unfold merged_tier. rewrite Hcomments, Hlookup. cbn [default from_option].
    unfold id. rewrite merge_lines_entries. apply list_elem_of_fmap. eauto.
Qed.

Lemma fallback_in_merge_witness :
  "hard" ∈ TIERS
  ∧ ∃ new_models,
      distribute_to_tiers [] !! "hard" = Some new_models
      ∧ free_router ∈ new_models.
Proof.
  assert ("hard" ∈ TIERS) as Htier by (apply (bool_decide_unpack _); vm_compute; exact I).
  split; [exact Htier|].
  destruct (fallback_in_merge [] "hard" [("openrouter:openrouter/free:free", true)] Htier)
    as (new_models & Hlookup & Hin & _).
  exists new_models. split; [exact Hlookup|exact Hin].
Defined.
(** ** The stable sort *)

Section PySortProps.
Context {A K : Type} (key : A → K) (leb : K → K → bool).
Hypothesis leb_total : ∀ a b, leb a b = false → leb b a = true.
Hypothesis leb_trans : ∀ a b c, leb a b = true → leb b c = true → leb a c = true.

Lemma sort_insert_perm x l : sort_insert key leb x l ≡ₚ x :: l.
Proof.
  induction l as [|y l IH]; simpl; [done|].
  destruct (leb (key x) (key y)); [done|]. rewrite IH. apply Permutation_swap.
Qed.

Lemma py_sort_perm l : py_sort key leb l ≡ₚ l.
Proof.
  induction l as [|x l IH]; simpl; [done|]. by rewrite sort_insert_perm, IH.
Qed.

Lemma sort_insert_sorted x l :
  StronglySorted (key_le key leb) l → StronglySorted (key_le key leb) (sort_insert key leb x l).
Proof.
  induction 1 as [|y l Hsorted IH Hall]; simpl.
  - repeat constructor.
  - destruct (leb (key x) (key y)) eqn:Hxy.
    + constructor; [by constructor|]. constructor; [done|].
      eapply Forall_impl; [exact Hall|]. intros z Hz. by eapply leb_trans.
    + constructor; [done|]. rewrite sort_insert_perm.
      constructor; [|done]. by apply leb_total.
Qed.

Lemma py_sort_sorted l : StronglySorted (key_le key leb) (py_sort key leb l).
Proof.
  induction l as [|x l IH]; simpl; [constructor|]. by apply sort_insert_sorted.
Qed.

Context (P : A → Prop) `{∀ x, Decision (P x)}.
Hypothesis P_class : ∀ x y, P x → P y → leb (key x) (key y) = true.

Lemma filter_sort_insert x l :
  filter P (sort_insert key leb x l) = filter P (x :: l).
Proof.
  induction l as [|y l IH]; simpl; [done|].
  destruct (leb (key x) (key y)) eqn:Hxy; [done|].
  rewrite (filter_cons P y), IH, !(filter_cons P x), (filter_cons P y).
  destruct (decide (P x)) as [Hx|Hx], (decide (P y)) as [Hy|Hy]; try done.
  rewrite P_class in Hxy; done.
Qed.

Lemma py_sort_stable l : filter P (py_sort key leb l) = filter P l.
Proof.
  induction l as [|x l IH]; simpl; [done|].
  by rewrite filter_sort_insert, !filter_cons, IH.
Qed.

Lemma py_sort_reverse_stable l : filter P (py_sort_reverse key leb l) = filter P l.
Proof.
  unfold py_sort_reverse.
  by rewrite filter_reverse, py_sort_stable, filter_reverse, reverse_involutive.
Qed.

Lemma py_sort_reverse_perm l : py_sort_reverse key leb l ≡ₚ l.
Proof. unfold py_sort_reverse. by rewrite reverse_Permutation, py_sort_perm, reverse_Permutation. Qed.

Lemma py_sort_reverse_sorted l :
  StronglySorted (flip (key_le key leb)) (py_sort_reverse key leb l).
Proof.
  unfold py_sort_reverse. apply Sorted_StronglySorted.
  - intros x y z Hxy Hyz. unfold flip, key_le in *. by eapply leb_trans.
  - apply Sorted_reverse, StronglySorted_Sorted, py_sort_sorted.
Qed.
End PySortProps.

Lemma Qle_bool_total a b : Qle_bool a b = false → Qle_bool b a = true.
Proof.
  intros Hab. apply Qle_bool_iff. apply Qlt_le_weak, Qnot_le_lt.
  intros Hle%Qle_bool_iff. congruence.
Qed.

Lemma Qle_bool_trans a b c :
  Qle_bool a b = true → Qle_bool b c = true → Qle_bool a c = true.
Proof. rewrite !Qle_bool_iff. apply Qle_trans. Qed.

(** C7: the ranker returns the input entries, each annotated with its
    score: the entry made from the [i]-th model has all its fields and,
    as ["_score"], the score computed for it at that moment.  The result
    holds exactly these annotated entries, in descending order of score,
    and entries with equal scores keep the relative order they have in
    the input. *)
Theorem rank_free_models_stable (clock : nat → Q) (models : list Model) :
  let scored := score_models clock models in
  let ranked := rank_free_models clock models in
  length scored = length models
  ∧ (∀ i model,
       models !! i = Some model →
       ∃ entry,
         scored !! i = Some entry
         ∧ m_score entry = Some (calculate_model_score (clock i) model)
         ∧ get_score entry = calculate_model_score (clock i) model
         ∧ m_id entry = m_id model
         ∧ m_pricing_prompt entry = m_pricing_prompt model
         ∧ m_context_length entry = m_context_length model
         ∧ m_supported_parameters entry = m_supported_parameters model
         ∧ m_created entry = m_created model)
  ∧ ranked ≡ₚ scored
  ∧ (∀ entry, entry ∈ ranked → m_score entry = Some (get_score entry))
  ∧ StronglySorted (λ a b, (get_score b <= get_score a)%Q) ranked
  ∧ ∀ score : Q,
      filter (λ m, (get_score m == score)%Q) ranked
      = filter (λ m, (get_score m == score)%Q) scored.
Proof.
  intros scored ranked.
  assert (∀ i, scored !! i
               = (λ model, with_score model (calculate_model_score (clock i) model))
                   <$> models !! i) as Hlookup.
  { intros i. apply list_lookup_imap. }
  assert (ranked ≡ₚ scored) as Hperm by apply py_sort_reverse_perm.
  split; [apply length_imap|]. split.
  { intros i model Hi. eexists. rewrite Hlookup, Hi. split; [reflexivity|].
    by cbn [with_score m_score get_score default from_option m_id m_pricing_prompt
            m_context_length m_supported_parameters m_created]. }
  split; [exact Hperm|]. split.
  { intros entry Hin. rewrite Hperm in Hin.
    apply list_elem_of_lookup_1 in Hin as [i Hi]. rewrite Hlookup in Hi.
    destruct (models !! i) as [model|]; [|done]. injection Hi as <-. reflexivity. }
  split.
  - pose proof (py_sort_reverse_sorted get_score Qle_bool Qle_bool_total
                  Qle_bool_trans scored) as Hsorted.
    change (py_sort_reverse get_score Qle_bool scored) with ranked in Hsorted.
    clear Hperm. clearbody ranked.
    induction Hsorted as [|a l _ IH Hall]; constructor; [done|].
    eapply Forall_impl; [exact Hall|]. intros b Hab. by apply Qle_bool_iff.
  - intros score. apply py_sort_reverse_stable.
    intros x y Hx Hy. apply Qle_bool_iff. rewrite Hx, Hy. apply Qle_refl.
Qed.
(** ** The update operation *)

(** C9: when the configuration file is missing, unreadable or not
    parsable, the update returns a failure result with a message that
    names the problem, leaves the file as it was, and the command line
    exits with code 1. *)
Theorem config_error_handling
    (config_path : string) (yaml_safe_load : string → string + Config)
    (yaml_dump_metadata : string → nat → string) (env_api_key : option string)
    (fetch_all_models : string → list Model) (clock : nat → Q)
    (write_error : option WriteError) (file : File) (api_key : option string) :
  file = Missing
  ∨ (∃ e, file = Unreadable e)
  ∨ (∃ text e, file = Content text ∧ yaml_safe_load text = inl e) →
  ∃ error,
    update_config_with_freeride config_path yaml_safe_load yaml_dump_metadata
      env_api_key fetch_all_models clock write_error file api_key
    = (Failure error, file)
    ∧ (error = "Config file not found: " +:+ config_path
       ∨ ∃ e, error = "Error reading config: " +:+ e)
    ∧ main_update config_path yaml_safe_load yaml_dump_metadata
        env_api_key fetch_all_models clock write_error file
      = (1, file).
Proof.
  intros [->|[[e ->]|(text & e & -> & Hload)]]; unfold main_update;
    cbn [update_config_with_freeride parse_yaml_with_comments]; rewrite ?Hload;
    eexists; (split; [reflexivity|]); split; eauto.
Qed.

Lemma config_error_handling_witness :
  ∃ error,
    update_config_with_freeride "config.yaml" (λ _, inl "mapping values are not allowed here")
      (λ text _, text) None (λ _, []) (λ _, 0%Q) None (Content "models: : :") None
    = (Failure error, Content "models: : :").
Proof.
  destruct (config_error_handling "config.yaml"
              (λ _, inl "mapping values are not allowed here")
              (λ text _, text) None (λ _, []) (λ _, 0%Q) None (Content "models: : :") None)
    as (error & Hupdate & _).
  - right. right. exists "models: : :", "mapping values are not allowed here".
    split; reflexivity.
  - exists error. exact Hupdate.
Defined.
(** ** Rewriter *)

Lemma split_head_startswith tier_name s :
  Py.contains tier_name ":" = false →
  Py.startswith s (tier_name +:+ ":") = true →
  Py.split_head ":" s = tier_name.
Proof.
  revert s. induction tier_name as [|a t IH]; intros s Hno Hstart.
  - destruct s as [|b s]; [done|].
    cbn [Py.startswith Py.split_head String.append] in *.
    apply andb_true_iff in Hstart as [Hb _]. by rewrite Ascii.eqb_sym, Hb.
  - rewrite contains_char_cons in Hno. apply orb_false_iff in Hno as [Ha Hno].
    destruct s as [|b s]; [done|].
    cbn [Py.startswith Py.split_head String.append] in *.
    apply andb_true_iff in Hstart as [Hb Hstart].
    apply Ascii.eqb_eq in Hb as <-.
    rewrite Ascii.eqb_sym, Ha. f_equal. by apply IH.
Qed.

Lemma tier_match_Some stripped tier_name :
  tier_match stripped = Some tier_name →
  tier_name ∈ TIERS ∧ Re.match_tier tier_name stripped = true
  ∧ Py.split_head ":" stripped = tier_name.
Proof.
  unfold tier_match. intros Hfind. apply find_some in Hfind as [Hin Hmatch].
  apply list_elem_of_In in Hin. split; [done|]. split; [done|].
  unfold Re.match_tier in Hmatch. apply andb_true_iff in Hmatch as [Hstart _].
  apply split_head_startswith; [|done].
  unfold TIERS in Hin. set_unfold. by destruct Hin as [->|[->|[->|[->|[->|[]]]]]].
Qed.

Lemma tier_match_blank line :
  String.eqb (Py.strip line) "" = true → tier_match (Py.strip line) = None.
Proof. intros ->%String.eqb_eq. reflexivity. Qed.

Lemma tier_match_ends_section line :
  ends_section line = true → tier_match (Py.strip line) = None.
Proof.
  unfold ends_section. intros [_ Hkey%negb_true_iff]%andb_true_iff.
  destruct (tier_match (Py.strip line)) as [tier_name|] eqn:Hmatch; [|done].
  apply tier_match_Some in Hmatch as (Hin & _ & Heq).
  apply bool_decide_eq_false in Hkey. by rewrite Heq in Hkey.
Qed.

Lemma find_tier_end_any from_j j tier_end tier_end' :
  from_j ≠ [] → find_tier_end from_j j tier_end = find_tier_end from_j j tier_end'.
Proof. by destruct from_j. Qed.

Lemma find_tier_end_segments from_j j :
  ∃ k, find_tier_end from_j j j = j + k
       ∧ k ≤ length from_j
       ∧ segments true from_j
         = (Replaced <$> take k from_j) ++ segments false (drop k from_j).
Proof.
  revert j. induction from_j as [|line rest IH]; intros j.
  { exists 0. split; [simpl; lia|]. done. }
  cbn [find_tier_end segments].
  destruct (String.eqb (Py.strip line) "") eqn:Hblank.
  - destruct rest as [|line' rest'].
    + exists 0. split; [simpl; lia|]. split; [simpl; lia|].
      cbn [take drop fmap list_fmap app segments]. by rewrite (tier_match_blank _ Hblank).
    + rewrite (find_tier_end_any _ _ j (S j)) by done.
      destruct (IH (S j)) as (k & Hend & Hk & Hseg).
      exists (S k). split; [lia|]. split; [simpl in *; lia|].
      rewrite Hseg. done.
  - destruct (ends_section line) eqn:Hends.
    + exists 0. split; [lia|]. split; [simpl; lia|].
      cbn [take drop fmap list_fmap app segments].
      by rewrite (tier_match_ends_section _ Hends).
    + destruct (IH (S j)) as (k & Hend & Hk & Hseg).
      exists (S k). split; [lia|]. split; [simpl; lia|].
      rewrite Hseg. done.
Qed.

Lemma bind_emit_replaced merged (lines : list string) :
  (Replaced <$> lines) ≫= emit merged = [].
Proof. induction lines as [|l ls IH]; [done|]. by rewrite fmap_cons, bind_cons, IH. Qed.

Lemma save_loop_segments merged lines fuel i result_lines :
  i ≤ length lines → length lines - i ≤ fuel →
  save_loop fuel merged lines i result_lines
  = result_lines ++ (segments false (drop i lines) ≫= emit merged).
Proof.
  revert i result_lines. induction fuel as [|fuel IH]; intros i result Hi Hfuel.
  { rewrite drop_ge by lia. simpl. by rewrite app_nil_r. }
  cbn [save_loop]. destruct (lines !! i) as [line|] eqn:Hline.
  2:{ apply lookup_ge_None in Hline. rewrite drop_ge by lia. by rewrite app_nil_r. }
  pose proof (lookup_lt_Some _ _ _ Hline) as Hlt.
  rewrite (drop_S _ _ _ Hline). cbn [segments].
  destruct (tier_match (Py.strip line)) as [tier_name|].
  - destruct (find_tier_end_segments (drop (S i) lines) (S i)) as (k & -> & Hk & ->).
    rewrite length_drop in Hk.
    rewrite IH by lia. rewrite bind_cons, bind_app, bind_emit_replaced, drop_drop.
    cbn [emit app]. by rewrite <- !app_assoc.
  - rewrite IH by lia. rewrite bind_cons. cbn [emit]. by rewrite <- app_assoc.
Qed.

Lemma segments_lines in_body lines : segment_line <$> segments in_body lines = lines.
Proof.
  revert in_body. induction lines as [|line rest IH]; intros in_body; [done|].
  cbn [segments]. destruct in_body.
  - destruct (String.eqb (Py.strip line) "").
    + destruct rest; [done|]. rewrite fmap_cons, IH. done.
    + destruct (ends_section line); rewrite fmap_cons, IH; done.
  - destruct (tier_match (Py.strip line)); rewrite fmap_cons, IH; done.
Qed.

Lemma segments_replaced in_body lines line :
  Replaced line ∈ segments in_body lines → ends_section line = false.
Proof.
  revert in_body. induction lines as [|l rest IH]; intros in_body; cbn [segments].
  { by intros ?%elem_of_nil. }
  destruct in_body.
  - destruct (String.eqb (Py.strip l) "") eqn:Hblank.
    + apply String.eqb_eq in Hblank.
      destruct rest as [|l' rest'].
      * intros [?|?%elem_of_nil]%elem_of_cons; done.
      * intros [[= ->]|?]%elem_of_cons; [|by eapply IH].
        unfold ends_section. rewrite Hblank. by rewrite andb_false_r.
    + destruct (ends_section l) eqn:Hends.
      * intros [?|?]%elem_of_cons; [done|by eapply IH].
      * intros [[= ->]|?]%elem_of_cons; [done|by eapply IH].
  - destruct (tier_match (Py.strip l)); intros [?|?]%elem_of_cons; try done; by eapply IH.
Qed.

Lemma join_split s : Py.join newline (Py.split "010" s) = s.
Proof.
  induction s as [|c s IH]; [done|]. cbn [Py.split].
  destruct (Ascii.eqb_spec c "010") as [->|Hc].
  - cbn [Py.join]. destruct (Py.split "010" s) eqn:E.
    + by destruct s; simpl in E; repeat case_match.
    + by rewrite IH.
  - destruct (Py.split "010" s) as [|piece pieces] eqn:E.
    + by destruct s; simpl in E; repeat case_match.
    + cbn [Py.join] in *. destruct pieces; simpl in *; by rewrite IH.
Qed.

Lemma ends_section_not_blank line :
  ends_section line = true → String.eqb (Py.strip line) "" = false.
Proof.
  unfold ends_section. intros [[_ Hcolon]%andb_true_iff _]%andb_true_iff.
  destruct (String.eqb_spec (Py.strip line) "") as [Heq|]; [|done].
  by rewrite Heq in Hcolon.
Qed.

Lemma segments_before_headers before after :
  Forall (λ line, tier_match (Py.strip line) = None) before →
  segments false (before ++ after) = (Keep <$> before) ++ segments false after.
Proof.
  induction 1 as [|line before Hline _ IH]; [done|].
  rewrite <- app_comm_cons. cbn [segments]. by rewrite Hline, IH.
Qed.

Lemma segments_cut in_body before line after :
  ends_section line = true →
  ∃ segs, segments in_body (before ++ line :: after)
          = segs ++ Keep line :: segments false after.
Proof.
  intros Hends. revert in_body. induction before as [|b before IH]; intros in_body.
  - exists []. cbn [app segments]. destruct in_body.
    + by rewrite (ends_section_not_blank _ Hends), Hends.
    + by rewrite (tier_match_ends_section _ Hends).
  - rewrite <- app_comm_cons. cbn [segments]. destruct in_body.
    + destruct (String.eqb (Py.strip b) "").
      * destruct (before ++ line :: after) as [|x xs] eqn:E; [by destruct before|].
        destruct (IH true) as [segs ->]. by exists (Replaced b :: segs).
      * destruct (ends_section b).
        -- destruct (IH false) as [segs ->]. by exists (Keep b :: segs).
        -- destruct (IH true) as [segs ->]. by exists (Replaced b :: segs).
    + destruct (tier_match (Py.strip b)) as [tier_name|].
      * destruct (IH true) as [segs ->]. by exists (Header tier_name b :: segs).
      * destruct (IH false) as [segs ->]. by exists (Keep b :: segs).
Qed.

(** X27: the index loop of the rewriter is a scan of the lines in two
    states.  Outside a range a line is copied, and a tier header is
    copied and followed by the merger's lines for that tier; the range
    after a header runs up to the next line at zero indentation with a
    key that is not a tier name, and its lines are dropped.  So the
    lines before the first tier header come out as they are, and a line
    at zero indentation with a key that is not a tier name is always
    copied, the file from it on being rewritten on its own. *)
Theorem rewriter_scan
    (original_content : string) (tier_comments : gmap string (list TierEntry))
    (new_tiers : gmap string (list string)) :
  let lines := Py.split "010" original_content in
  let segs := segments false lines in
  Py.join newline (segment_line <$> segs) = original_content
  ∧ save_config_with_comments original_content tier_comments new_tiers
    = Py.join newline (segs ≫= emit (merged_tier tier_comments new_tiers))
  ∧ (∀ merged, rewrite_lines merged lines = segs ≫= emit merged)
  ∧ (∀ line, Replaced line ∈ segs → ends_section line = false)
  ∧ (∀ merged before after,
       lines = before ++ after →
       Forall (λ line, tier_match (Py.strip line) = None) before →
       rewrite_lines merged lines = before ++ rewrite_lines merged after)
  ∧ ∀ merged before line after,
      lines = before ++ line :: after →
      ends_section line = true →
      ∃ rewritten,
        rewrite_lines merged lines = rewritten ++ line :: rewrite_lines merged after.
Proof.
  intros lines segs. unfold segs.
  assert (∀ merged ls, rewrite_lines merged ls = segments false ls ≫= emit merged)
    as Hrewrite.
  { intros merged ls. unfold rewrite_lines. by rewrite save_loop_segments by lia. }
  split; [|split; [|split; [|split; [|split]]]].
  - rewrite segments_lines. apply join_split.
  - unfold save_config_with_comments. by rewrite Hrewrite.
  - intros merged. apply Hrewrite.
  - apply segments_replaced.
  - intros merged before after -> Hbefore.
    rewrite !Hrewrite, segments_before_headers, bind_app by done. f_equal.
    clear. induction before as [|b before IH]; [done|].
    by rewrite fmap_cons, bind_cons, IH.
  - intros merged before line after -> Hends.
    destruct (segments_cut false before line after Hends) as [segs' Hsegs].
    exists (segs' ≫= emit merged).
    by rewrite !Hrewrite, Hsegs, bind_app, bind_cons.
Qed.
(** ** Stripping and the lines of entries *)

Section StripLemmas.
Implicit Types s t g pre : string.

Lemma no_char_app pre g c :
  Py.contains (pre +:+ g) (String c "") = false →
  Py.contains pre (String c "") = false ∧ Py.contains g (String c "") = false.
Proof.
  induction pre as [|a pre IH]; [by destruct g|].
  change (String a pre +:+ g) with (String a (pre +:+ g)).
  rewrite !contains_char_cons. intros [Ha Hrest]%orb_false_iff.
  destruct (IH Hrest) as [Hpre Hg]. by rewrite Ha, Hpre.
Qed.

Lemma lstrip_suffix s : ∃ pre, s = pre +:+ Py.lstrip s.
Proof.
  induction s as [|c s [pre IH]]; [by exists ""|]. simpl.
  destruct (Py.is_space c).
  - exists (String c pre). simpl. by rewrite <- IH.
  - by exists "".
Qed.

Lemma rstrip_cons c s :
  Py.rstrip (String c s)
  = if String.eqb (Py.rstrip s) "" then (if Py.is_space c then "" else String c "")
    else String c (Py.rstrip s).
Proof. cbn [Py.rstrip]. by destruct (Py.rstrip s). Qed.

Lemma rstrip_prefix s : ∃ post, s = Py.rstrip s +:+ post.
Proof.
  induction s as [|c s [post IH]]; [by exists ""|]. cbn [Py.rstrip].
  destruct (Py.rstrip s) eqn:E.
  - destruct (Py.is_space c); [by exists (String c s)|].
    exists s. done.
  - exists post. by rewrite IH at 1.
Qed.

Lemma rstrip_fixed_cons c s :
  Py.rstrip (String c s) = String c s → s ≠ "" → Py.rstrip s = s.
Proof.
  cbn [Py.rstrip]. destruct (Py.rstrip s) eqn:E; [|congruence].
  destruct (Py.is_space c); [done|]. intros [= <-]. done.
Qed.

Lemma rstrip_app_inv pre g : Py.rstrip (pre +:+ g) = pre +:+ g → g ≠ "" → Py.rstrip g = g.
Proof.
  intros H Hg. induction pre as [|c pre IH]; [done|].
  apply IH. eapply rstrip_fixed_cons; [exact H|]. by destruct pre, g.
Qed.

Lemma rstrip_idemp s : Py.rstrip (Py.rstrip s) = Py.rstrip s.
Proof.
  induction s as [|c s IH]; [done|]. cbn [Py.rstrip].
  destruct (Py.rstrip s) eqn:E.
  - destruct (Py.is_space c) eqn:Hc; [done|]. cbn [Py.rstrip]. by rewrite Hc.
  - cbn [Py.rstrip] in *. rewrite IH. done.
Qed.

Lemma rstrip_head c s :
  Py.is_space c = false → ∃ t, Py.rstrip (String c s) = String c t.
Proof.
  intros Hc. cbn [Py.rstrip]. destruct (Py.rstrip s); rewrite ?Hc; eauto.
Qed.

Lemma lstrip_head s : Py.lstrip s = "" ∨ ∃ c t, Py.lstrip s = String c t ∧ Py.is_space c = false.
Proof.
  induction s as [|c s IH]; [by left|]. simpl.
  destruct (Py.is_space c) eqn:Hc; [done|]. right. eauto.
Qed.

Lemma strip_head s : Py.strip s = "" ∨ ∃ c t, Py.strip s = String c t ∧ Py.is_space c = false.
Proof.
  unfold Py.strip. destruct (lstrip_head s) as [->|(c & t & -> & Hc)]; [by left|].
  right. destruct (rstrip_head c t Hc) as [t' ->]. eauto.
Qed.

Lemma rstrip_strip s : Py.rstrip (Py.strip s) = Py.strip s.
Proof. apply rstrip_idemp. Qed.

Lemma lstrip_strip s : Py.lstrip (Py.strip s) = Py.strip s.
Proof.
  destruct (strip_head s) as [->|(c & t & -> & Hc)]; [done|]. by apply lstrip_id.
Qed.

Lemma strip_idemp s : Py.strip (Py.strip s) = Py.strip s.
Proof. unfold Py.strip at 1. by rewrite lstrip_strip, rstrip_strip. Qed.

Lemma strip_no_char s c :
  Py.contains s (String c "") = false → Py.contains (Py.strip s) (String c "") = false.
Proof.
  intros Hs. unfold Py.strip.
  destruct (lstrip_suffix s) as [pre Hpre]. rewrite Hpre in Hs.
  apply no_char_app in Hs as [_ Hs].
  destruct (rstrip_prefix (Py.lstrip s)) as [post Hpost]. rewrite Hpost in Hs.
  by apply no_char_app in Hs as [Hs _].
Qed.

(** A stripped, non-empty tail of a string without trailing white space
    strips to something non-empty. *)
Lemma rstrip_fixed_lstrip g :
  Py.rstrip g = g → g ≠ "" → Py.lstrip g ≠ "" ∧ Py.strip g = Py.lstrip g.
Proof.
  unfold Py.strip. induction g as [|c g IH]; [done|]. intros Hfix _. simpl.
  destruct (Py.is_space c) eqn:Hc; [|done].
  assert (g ≠ "") as Hg.
  { intros ->. cbn [Py.rstrip] in Hfix. by rewrite Hc in Hfix. }
  apply IH; [|done]. by eapply rstrip_fixed_cons.
Qed.

Lemma clean_text_spec text :
  clean_text text = true
  ↔ text ≠ "" ∧ Py.strip text = text ∧ Py.contains text newline = false.
Proof.
  unfold clean_text. rewrite !andb_true_iff, !negb_true_iff, String.eqb_neq, String.eqb_eq.
  tauto.
Qed.

Lemma clean_tail g :
  Py.rstrip g = g → g ≠ "" → Py.contains g newline = false →
  clean_text (Py.strip g) = true.
Proof.
  intros Hfix Hg Hnl. apply clean_text_spec.
  destruct (rstrip_fixed_lstrip g Hfix Hg) as [Hne Heq].
  split; [by rewrite Heq|]. split; [apply strip_idemp|]. by apply strip_no_char.
Qed.

Lemma clean_text_head text :
  clean_text text = true →
  ∃ c t, text = String c t ∧ Py.is_space c = false ∧ Py.rstrip text = text.
Proof.
  intros (Hne & Hstrip & _)%clean_text_spec.
  destruct (strip_head text) as [E|(c & t & E & Hc)]; rewrite Hstrip in E; [done|].
  exists c, t. split; [done|]. split; [done|].
  rewrite <- Hstrip. apply rstrip_strip.
Qed.
End StripLemmas.
(** ** The comment pattern and the entry of a line *)

Lemma dot_run_id s : Py.contains s newline = false → Re.dot_run s = s.
Proof.
  unfold newline. induction s as [|c s IH]; [done|].
  rewrite contains_char_cons. intros [Hc Hs]%orb_false_iff. cbn [Re.dot_run].
  rewrite Ascii.eqb_sym, Hc. by rewrite IH.
Qed.

Lemma dot_plus_Some s :
  Py.contains s newline = false → s ≠ "" → Re.dot_plus s = Some s.
Proof. intros Hnl Hs. unfold Re.dot_plus. rewrite dot_run_id by done. by destruct s. Qed.

Lemma dot_plus_inv s g :
  Py.contains s newline = false → Re.dot_plus s = Some g → g = s ∧ s ≠ "".
Proof.
  intros Hnl. unfold Re.dot_plus. rewrite dot_run_id by done.
  destruct s; [done|]. by intros [= <-].
Qed.

Lemma star_space_inv {A} (k : string → option A) r g :
  Re.star_space k r = Some g → ∃ pre r', r = pre +:+ r' ∧ k r' = Some g.
Proof.
  induction r as [|c r IH]; cbn [Re.star_space].
  - intros Hk. by exists "", "".
  - destruct (Py.is_space c); [|intros Hk; by exists "", (String c r)].
    destruct (Re.star_space k r) as [g'|] eqn:E.
    + intros [= ->]. destruct (IH eq_refl) as (pre & r' & -> & Hk).
      by exists (String c pre), r'.
    + intros Hk. by exists "", (String c r).
Qed.

Lemma star_space_head {A} (k : string → option A) c t :
  Py.is_space c = false → Re.star_space k (String c t) = k (String c t).
Proof. intros Hc. cbn [Re.star_space]. by rewrite Hc. Qed.

Lemma comment_body_inv r g :
  Py.contains r newline = false →
  Re.comment_body r = Some g → ∃ pre, r = pre +:+ g ∧ g ≠ "".
Proof.
  intros Hnl Hbody. unfold Re.comment_body in Hbody.
  apply star_space_inv in Hbody as (pre & r' & -> & Hk).
  apply no_char_app in Hnl as [_ Hnl].
  destruct (match r' with
            | String "-" r1 => Re.star_space Re.dot_plus r1
            | _ => None
            end) as [g'|] eqn:Hdash.
  - injection Hk as ->.
    destruct r' as [|c r1]; [done|].
    destruct (Ascii.eqb_spec c "-") as [->|Hc].
    2:{ exfalso. revert Hdash. clear -Hc.
        destruct c as [[] [] [] [] [] [] [] []]; try done. }
    apply star_space_inv in Hdash as (pre1 & r2 & -> & Hdot).
    change (String "-" (pre1 +:+ r2)) with (String "-" pre1 +:+ r2) in Hnl.
    apply no_char_app in Hnl as [_ Hnl].
    apply dot_plus_inv in Hdot as [-> Hne]; [|done].
    exists (pre +:+ String "-" pre1). split; [|done].
    by rewrite app_assoc_s.
  - apply dot_plus_inv in Hk as [-> Hne]; [|done]. by exists pre.
Qed.

Lemma search_comment_inv s g :
  Py.contains s newline = false →
  Re.search_comment s = Some g → ∃ pre, s = pre +:+ g ∧ g ≠ "".
Proof.
  unfold newline. induction s as [|c s IH]; [done|].
  rewrite contains_char_cons. intros [Hc Hs]%orb_false_iff. cbn [Re.search_comment].
  assert (Re.search_comment s = Some g → ∃ pre, String c s = pre +:+ g ∧ g ≠ "") as Hrest.
  { intros (pre & -> & Hg)%IH; [|done]. by exists (String c pre). }
  destruct (Ascii.eqb c "#"); [|done].
  destruct (Re.comment_body s) as [g'|] eqn:Hbody; [|done].
  intros [= ->]. apply comment_body_inv in Hbody as (pre & -> & Hg); [|done].
  by exists (String c pre).
Qed.

Lemma line_entry_clean s text is_commented :
  Py.rstrip s = s → Py.contains s newline = false →
  line_entry s = Some (text, is_commented) → clean_text text = true.
Proof.
  intros Hfix Hnl. unfold line_entry.
  destruct (negb (String.eqb s "")); [|done].
  destruct (Py.startswith s "#" || Py.startswith s "- #").
  - destruct (Re.search_comment s) as [g|] eqn:Hsearch; [|done].
    intros [= <- <-]. apply search_comment_inv in Hsearch as (pre & -> & Hg); [|done].
    apply no_char_app in Hnl as [_ Hnl].
    apply clean_tail; [|done..]. by eapply rstrip_app_inv.
  - destruct (Py.startswith s "- ") eqn:Hdash; [|done].
    intros [= <- <-].
    destruct s as [|a [|b r]]; [done| |].
    { cbn [Py.startswith] in Hdash. by rewrite andb_false_r in Hdash. }
    cbn [Py.startswith] in Hdash.
    apply andb_true_iff in Hdash as [<-%Ascii.eqb_eq [<-%Ascii.eqb_eq _]%andb_true_iff].
    cbn [Py.drop].
    assert (r ≠ "") as Hr by (by intros ->).
    change (String "-" (String " " r)) with ("- " +:+ r) in Hfix, Hnl.
    apply no_char_app in Hnl as [_ Hnl].
    apply clean_tail; [|done..]. by eapply rstrip_app_inv.
Qed.

Lemma strip_render_commented text :
  clean_text text = true → Py.strip ("  # - " +:+ text) = "# - " +:+ text.
Proof.
  intros (c & t & -> & Hc & Hfix)%clean_text_head.
  unfold Py.strip. change (Py.lstrip ("  # - " +:+ String c t)) with ("# - " +:+ String c t).
  by apply rstrip_nonempty_app.
Qed.

Lemma strip_render_active text :
  clean_text text = true → Py.strip ("  - " +:+ text) = "- " +:+ text.
Proof.
  intros (c & t & -> & Hc & Hfix)%clean_text_head.
  unfold Py.strip. change (Py.lstrip ("  - " +:+ String c t)) with ("- " +:+ String c t).
  by apply rstrip_nonempty_app.
Qed.

Lemma comment_body_canonical text :
  clean_text text = true →
  Re.comment_body (String " " (String "-" (String " " text))) = Some text.
Proof.
  intros Hclean.
  pose proof Hclean as (Hne & Hstrip & Hnl)%clean_text_spec.
  destruct (clean_text_head _ Hclean) as (c & t & -> & Hc & Hfix).
  unfold Re.comment_body. cbn [Re.star_space Py.is_space]. rewrite Hc.
  by rewrite dot_plus_Some.
Qed.

Lemma line_entry_render_commented text :
  clean_text text = true →
  line_entry (Py.strip ("  # - " +:+ text)) = Some (text, true).
Proof.
  intros Hclean. rewrite strip_render_commented by done.
  pose proof Hclean as (Hne & Hstrip & Hnl)%clean_text_spec.
  unfold line_entry. cbn [String.append Re.search_comment].
  rewrite comment_body_canonical by done.
  cbn. by rewrite Hstrip.
Qed.

Lemma line_entry_render_active text :
  clean_text text = true → Py.startswith text "#" = false →
  line_entry (Py.strip ("  - " +:+ text)) = Some (text, false).
Proof.
  intros Hclean Hhash. rewrite strip_render_active by done.
  pose proof Hclean as (Hne & Hstrip & Hnl)%clean_text_spec.
  unfold line_entry.
  change (Py.startswith ("- " +:+ text) "- #") with (Py.startswith text "#").
  rewrite Hhash.
  change (Py.drop 2 ("- " +:+ text)) with text. rewrite Hstrip. done.
Qed.

Lemma line_entry_render entry :
  entry_ok entry = true → line_entry (Py.strip (render_entry entry)) = Some entry.
Proof.
  destruct entry as [text [|]]; unfold entry_ok, render_entry; cbn [fst snd].
  - rewrite orb_true_l, andb_true_r. apply line_entry_render_commented.
  - rewrite orb_false_l. intros [Hclean Hhash%negb_true_iff]%andb_true_iff.
    by apply line_entry_render_active.
Qed.
(** ** Running the update twice *)

Lemma split_nonempty s : Py.split "010" s ≠ [].
Proof. induction s as [|c s IH]; [done|]. cbn [Py.split]. by repeat case_match. Qed.

Lemma split_no_newline s :
  Forall (λ line, Py.contains line newline = false) (Py.split "010" s).
Proof.
  unfold newline. induction s as [|c s IH]; [by repeat constructor|]. cbn [Py.split].
  destruct (Ascii.eqb c "010") eqn:Hc; [by constructor|].
  destruct (Py.split "010" s) as [|piece pieces] eqn:E; [by apply split_nonempty in E|].
  inversion_clear IH as [|? ? Hpiece Hpieces].
  constructor; [|done]. rewrite contains_char_cons, Hpiece, Ascii.eqb_sym, Hc. done.
Qed.

Lemma split_single line :
  Py.contains line newline = false → Py.split "010" line = [line].
Proof.
  unfold newline. induction line as [|c line IH]; [done|].
  rewrite contains_char_cons. intros [Hc Hline]%orb_false_iff.
  cbn [Py.split]. by rewrite Ascii.eqb_sym, Hc, IH.
Qed.

Lemma split_line line tail :
  Py.contains line newline = false →
  Py.split "010" (line +:+ String "010" tail) = line :: Py.split "010" tail.
Proof.
  unfold newline. induction line as [|c line IH]; [done|].
  rewrite contains_char_cons. intros [Hc Hline]%orb_false_iff.
  change (String c line +:+ String "010" tail) with (String c (line +:+ String "010" tail)).
  cbn [Py.split]. by rewrite Ascii.eqb_sym, Hc, IH.
Qed.

Lemma split_join lines :
  lines ≠ [] → Forall (λ line, Py.contains line newline = false) lines →
  Py.split "010" (Py.join newline lines) = lines.
Proof.
  intros Hne Hall. induction Hall as [|line rest Hline Hrest IH]; [done|].
  destruct rest as [|line' rest'].
  - by apply split_single.
  - change (Py.join newline (line :: line' :: rest'))
      with (line +:+ String "010" (Py.join newline (line' :: rest'))).
    rewrite split_line by done. by rewrite IH.
Qed.

Lemma parse_tier_comments_lookup models_keys content tier_name :
  tier_name ∈ TIERS →
  parse_tier_comments models_keys content !! tier_name
  = Some (parse_tier models_keys tier_name false (Py.split "010" content)).
Proof.
  intros Hin. unfold parse_tier_comments. apply elem_of_list_to_map_1.
  - unfold TIERS. cbn [fmap list_fmap fst].
    apply (bool_decide_unpack _). vm_compute. exact I.
  - apply list_elem_of_fmap. eauto.
Qed.

Lemma line_entry_ok line entry :
  Py.contains line newline = false → line_ok line = true →
  line_entry (Py.strip line) = Some entry → entry_ok entry = true.
Proof.
  intros Hnl Hok Hentry. destruct entry as [text is_commented].
  unfold entry_ok. cbn [fst snd]. apply andb_true_iff. split.
  - eapply line_entry_clean; [apply rstrip_strip|by apply strip_no_char|done].
  - unfold line_ok in Hok. rewrite Hentry in Hok. by destruct is_commented.
Qed.

Lemma parse_tier_ok models_keys tier_name in_tier lines :
  Forall (λ line, Py.contains line newline = false) lines →
  forallb line_ok lines = true →
  Forall (λ entry, entry_ok entry = true) (parse_tier models_keys tier_name in_tier lines).
Proof.
  intros Hnl. revert in_tier. induction Hnl as [|line rest Hline Hrest IH]; intros in_tier Hok.
  { constructor. }
  cbn [forallb] in Hok. apply andb_true_iff in Hok as [Hok Hoks].
  cbn [parse_tier].
  destruct (Re.match_tier tier_name (Py.strip line)); [by apply IH|].
  destruct in_tier; [|by apply IH].
  destruct (leaves_tier models_keys tier_name line); [constructor|].
  apply Forall_app. split; [|by apply IH].
  destruct (line_entry (Py.strip line)) as [entry|] eqn:Hentry; [|constructor].
  repeat constructor. by eapply line_entry_ok.
Qed.

Lemma fresh_models_seen seen new_models :
  (∀ m, m ∈ new_models → normalize_model_id m ∈ seen) → fresh_models seen new_models = [].
Proof.
  induction new_models as [|m ms IH]; intros Hseen; [done|]. cbn [fresh_models].
  rewrite bool_decide_false.
  - apply IH. intros m' Hm'. apply Hseen. by right.
  - intros Hnot. apply Hnot, Hseen. by left.
Qed.

Lemma merge_entries_idemp tier_entries new_models :
  merge_entries (merge_entries tier_entries new_models) new_models
  = merge_entries tier_entries new_models.
Proof.
  unfold merge_entries at 1. rewrite fresh_models_seen; [apply app_nil_r|].
  intros m Hm. apply elem_of_list_to_set. unfold merge_entries.
  rewrite fmap_app, <- list_fmap_compose. apply elem_of_app.
  destruct (fresh_models_covers (list_to_set (entry_id <$> tier_entries)) new_models m Hm)
    as [Hold|Hnew]; [left|by right].
  by apply elem_of_list_to_set in Hold.
Qed.

Lemma merge_entries_ok tier_entries new_models :
  Forall (λ entry, entry_ok entry = true) tier_entries →
  forallb candidate_ok new_models = true →
  Forall (λ entry, entry_ok entry = true) (merge_entries tier_entries new_models).
Proof.
  intros Hold Hnew. unfold merge_entries. apply Forall_app. split; [done|].
  apply Forall_fmap, Forall_forall. intros m [_ Hm]%fresh_models_unseen.
  rewrite forallb_forall in Hnew. apply Hnew. by apply list_elem_of_In.
Qed.
Section RenderedLines.
Implicit Types (entry : TierEntry) (tier_name line : string).

Lemma render_entry_strip entry :
  ∃ z, Py.strip (render_entry entry) = String "-" z
       ∨ Py.strip (render_entry entry) = String "#" z.
Proof.
  destruct entry as [text [|]]; unfold render_entry, Py.strip; cbn [fst snd].
  - change (Py.lstrip ("  # - " +:+ text)) with (String "#" (" - " +:+ text)).
    destruct (rstrip_head "#" (" - " +:+ text) eq_refl) as [z ->]. eauto.
  - change (Py.lstrip ("  - " +:+ text)) with (String "-" (" " +:+ text)).
    destruct (rstrip_head "-" (" " +:+ text) eq_refl) as [z ->]. eauto.
Qed.

Lemma render_entry_indent entry : Py.indent_of (render_entry entry) = 2.
Proof.
  destruct entry as [text [|]]; unfold render_entry, Py.indent_of; cbn [fst snd].
  - change (Py.lstrip ("  # - " +:+ text)) with ("# - " +:+ text).
    rewrite !length_app. simpl. lia.
  - change (Py.lstrip ("  - " +:+ text)) with ("- " +:+ text).
    rewrite !length_app. simpl. lia.
Qed.

Lemma render_entry_not_blank entry :
  String.eqb (Py.strip (render_entry entry)) "" = false.
Proof. by destruct (render_entry_strip entry) as [z [-> | ->]]. Qed.

Lemma render_entry_not_header entry tier_name :
  tier_name ∈ TIERS → Re.match_tier tier_name (Py.strip (render_entry entry)) = false.
Proof.
  intros Hin. unfold TIERS in Hin. set_unfold.
  destruct (render_entry_strip entry) as [z [-> | ->]];
    by destruct Hin as [->|[->|[->|[->|[->|[]]]]]].
Qed.

Lemma render_entry_tier_match entry : tier_match (Py.strip (render_entry entry)) = None.
Proof. by destruct (render_entry_strip entry) as [z [-> | ->]]. Qed.

Lemma render_entry_ends_section entry : ends_section (render_entry entry) = false.
Proof. unfold ends_section. by rewrite render_entry_indent. Qed.

Lemma render_entry_leaves_tier models_keys tier_name entry :
  leaves_tier models_keys tier_name (render_entry entry) = false.
Proof. unfold leaves_tier. rewrite render_entry_indent. cbn. by rewrite andb_false_r. Qed.

Lemma render_entry_no_newline entry :
  entry_ok entry = true → Py.contains (render_entry entry) newline = false.
Proof.
  intros [(_ & _ & Hnl)%clean_text_spec _]%andb_true_iff.
  unfold newline in *.
  destruct entry as [text [|]]; unfold render_entry; cbn [fst snd] in *.
  - change ("  # - " +:+ text)
      with (String " " (String " " (String "#" (String " " (String "-" (String " " text)))))).
    by rewrite !contains_char_cons, Hnl.
  - change ("  - " +:+ text) with (String " " (String " " (String "-" (String " " text)))).
    by rewrite !contains_char_cons, Hnl.
Qed.
End RenderedLines.
Lemma match_tier_split_head tier_name s :
  tier_name ∈ TIERS → Re.match_tier tier_name s = true → Py.split_head ":" s = tier_name.
Proof.
  intros Hin [Hstart _]%andb_true_iff. apply split_head_startswith; [|done].
  unfold TIERS in Hin. set_unfold. by destruct Hin as [->|[->|[->|[->|[->|[]]]]]].
Qed.

Lemma tier_match_None s tier_name :
  tier_match s = None → tier_name ∈ TIERS → Re.match_tier tier_name s = false.
Proof.
  unfold tier_match. intros Hfind Hin.
  apply (find_none _ _ Hfind tier_name). by apply list_elem_of_In.
Qed.

Lemma tier_match_other s tier_name tier_name' :
  tier_match s = Some tier_name' → tier_name ∈ TIERS → tier_name ≠ tier_name' →
  Re.match_tier tier_name s = false.
Proof.
  intros (_ & _ & Hhead)%tier_match_Some Hin Hne.
  destruct (Re.match_tier tier_name s) eqn:Hmatch; [|done].
  apply match_tier_split_head in Hmatch; [|done]. congruence.
Qed.

Lemma match_tier_blank tier_name : Re.match_tier tier_name "" = false.
Proof. by destruct tier_name. Qed.

Lemma segments_merged entries tail :
  segments true ((render_entry <$> entries) ++ tail)
  = (Replaced <$> (render_entry <$> entries)) ++ segments true tail.
Proof.
  induction entries as [|entry entries IH]; [done|].
  rewrite !fmap_cons, <- !app_comm_cons. cbn [segments].
  by rewrite render_entry_not_blank, render_entry_ends_section, IH.
Qed.

Section Twice.
Context (merged merged' : string → list string).
Hypothesis merged_rendered : ∀ tier_name, ∃ entries, merged tier_name = render_entry <$> entries.

Lemma rewrite_twice in_body lines :
  (∀ tier_name header, Header tier_name header ∈ segments in_body lines →
                       merged' tier_name = merged tier_name) →
  segments in_body (segments in_body lines ≫= emit merged) ≫= emit merged'
  = segments in_body lines ≫= emit merged.
Proof.
  revert in_body. induction lines as [|line rest IH]; intros in_body Hsame; [by destruct in_body|].
  revert Hsame. cbn [segments]. destruct in_body.
  - destruct (String.eqb (Py.strip line) "") eqn:Hblank.
    + destruct rest as [|line' rest'].
      * intros _. cbn [mbind list_bind emit app segments]. by rewrite Hblank.
      * intros Hsame. rewrite bind_cons. cbn [emit app]. apply IH.
        intros t h Hin. apply (Hsame t h). by right.
    + destruct (ends_section line) eqn:Hends; intros Hsame.
      * rewrite bind_cons. cbn [emit app segments]. rewrite Hblank, Hends.
        rewrite bind_cons. cbn [emit app]. f_equal. apply IH.
        intros t h Hin. apply (Hsame t h). by right.
      * rewrite bind_cons. cbn [emit app]. apply IH.
        intros t h Hin. apply (Hsame t h). by right.
  - destruct (tier_match (Py.strip line)) as [tier_name|] eqn:Hmatch; intros Hsame.
    + rewrite bind_cons. cbn [emit]. rewrite <- app_comm_cons. cbn [segments].
      rewrite Hmatch. destruct (merged_rendered tier_name) as [entries Hentries].
      rewrite Hentries at 1. rewrite segments_merged, bind_cons, bind_app, bind_emit_replaced.
      cbn [emit app]. rewrite (Hsame tier_name line) by left. f_equal. f_equal.
      apply IH. intros t h Hin. apply (Hsame t h). by right.
    + rewrite bind_cons. cbn [emit app segments]. rewrite Hmatch.
      rewrite bind_cons. cbn [emit app]. f_equal. apply IH.
      intros t h Hin. apply (Hsame t h). by right.
Qed.

Context (models_keys : list string) (tier_name : string).
Hypothesis tier_name_known : tier_name ∈ TIERS.

Lemma parse_after_body rest :
  parse_tier models_keys tier_name true (segments true rest ≫= emit merged) = [].
Proof.
  induction rest as [|line rest IH]; [done|]. cbn [segments].
  destruct (String.eqb (Py.strip line) "") eqn:Hblank.
  - destruct rest as [|line' rest'].
    + cbn [mbind list_bind emit app parse_tier]. unfold leaves_tier.
      rewrite Hblank. apply String.eqb_eq in Hblank. rewrite Hblank.
      by rewrite match_tier_blank.
    + by rewrite bind_cons.
  - destruct (ends_section line) eqn:Hends; [|by rewrite bind_cons].
    rewrite bind_cons. cbn [emit app parse_tier].
    rewrite (tier_match_None _ _ (tier_match_ends_section _ Hends)) by done.
    assert (leaves_tier models_keys tier_name line = true) as ->; [|done].
    unfold ends_section in Hends. unfold leaves_tier. rewrite Hblank.
    apply andb_true_iff in Hends as [[-> ->]%andb_true_iff Hkey].
    cbn [negb andb]. apply orb_true_iff. right.
    apply negb_true_iff, String.eqb_neq. intros Heq.
    apply negb_true_iff, bool_decide_eq_false in Hkey. by rewrite Heq in Hkey.
Qed.

Lemma parse_merged_block entries tail :
  Forall (λ entry, entry_ok entry = true) entries →
  parse_tier models_keys tier_name true ((render_entry <$> entries) ++ tail)
  = entries ++ parse_tier models_keys tier_name true tail.
Proof.
  induction 1 as [|entry entries Hok _ IH]; [done|].
  rewrite fmap_cons, <- !app_comm_cons. cbn [parse_tier].
  rewrite render_entry_not_header by done.
  rewrite render_entry_leaves_tier, line_entry_render by done.
  by rewrite IH.
Qed.

Lemma parse_skip_block entries tail :
  parse_tier models_keys tier_name false ((render_entry <$> entries) ++ tail)
  = parse_tier models_keys tier_name false tail.
Proof.
  induction entries as [|entry entries IH]; [done|].
  rewrite fmap_cons, <- !app_comm_cons. cbn [parse_tier].
  by rewrite render_entry_not_header.
Qed.

Lemma parse_rewritten entries in_body lines header :
  merged tier_name = render_entry <$> entries →
  Forall (λ entry, entry_ok entry = true) entries →
  Header tier_name header ∈ segments in_body lines →
  parse_tier models_keys tier_name false (segments in_body lines ≫= emit merged) = entries.
Proof.
  intros Hentries Hok. revert in_body.
  induction lines as [|line rest IH]; intros in_body.
  { destruct in_body; by intros ?%elem_of_nil. }
  cbn [segments]. destruct in_body.
  - destruct (String.eqb (Py.strip line) "") eqn:Hblank.
    + destruct rest as [|line' rest'].
      * intros [?|?%elem_of_nil]%elem_of_cons; done.
      * intros [?|Hin]%elem_of_cons; [done|]. rewrite bind_cons. by apply IH.
    + destruct (ends_section line) eqn:Hends; intros [?|Hin]%elem_of_cons; try done.
      * rewrite bind_cons. cbn [emit app parse_tier].
        rewrite (tier_match_None _ _ (tier_match_ends_section _ Hends)) by done.
        by apply IH.
      * rewrite bind_cons. by apply IH.
  - destruct (tier_match (Py.strip line)) as [tier_name'|] eqn:Hmatch.
    + intros Hin. rewrite bind_cons. cbn [emit]. rewrite <- app_comm_cons.
      cbn [parse_tier].
      destruct (decide (tier_name = tier_name')) as [<-|Hne].
      * apply tier_match_Some in Hmatch as (_ & -> & _).
        rewrite Hentries, parse_merged_block by done.
        by rewrite parse_after_body, app_nil_r.
      * rewrite (tier_match_other _ _ _ Hmatch) by done.
        destruct (merged_rendered tier_name') as [entries' ->].
        rewrite parse_skip_block. apply IH.
        apply elem_of_cons in Hin as [[= ? _]|Hin]; [done|done].
    + intros [?|Hin]%elem_of_cons; [done|].
      rewrite bind_cons. cbn [emit app parse_tier].
      rewrite (tier_match_None _ _ Hmatch) by done. by apply IH.
Qed.
End Twice.
Lemma segments_header in_body lines tier_name header :
  Header tier_name header ∈ segments in_body lines → tier_name ∈ TIERS.
Proof.
  revert in_body. induction lines as [|line rest IH]; intros in_body; cbn [segments].
  { by intros ?%elem_of_nil. }
  destruct in_body.
  - destruct (String.eqb (Py.strip line) "").
    + destruct rest as [|line' rest'].
      * intros [?|?%elem_of_nil]%elem_of_cons; done.
      * intros [?|?]%elem_of_cons; [done|by eapply IH].
    + destruct (ends_section line); intros [?|?]%elem_of_cons; try done; by eapply IH.
  - destruct (tier_match (Py.strip line)) as [tier_name'|] eqn:Hmatch.
    + intros [[= -> _]|?]%elem_of_cons; [|by eapply IH].
      by apply tier_match_Some in Hmatch as (? & _).
    + intros [?|?]%elem_of_cons; [done|by eapply IH].
Qed.

Lemma emitted_no_newline merged in_body lines :
  (∀ tier_name, tier_name ∈ TIERS →
                Forall (λ line, Py.contains line newline = false) (merged tier_name)) →
  Forall (λ line, Py.contains line newline = false) lines →
  Forall (λ line, Py.contains line newline = false) (segments in_body lines ≫= emit merged).
Proof.
  intros Hmerged Hlines. revert in_body.
  induction Hlines as [|line rest Hline _ IH]; intros in_body; [by destruct in_body|].
  cbn [segments]. destruct in_body.
  - destruct (String.eqb (Py.strip line) "").
    + destruct rest as [|line' rest']; [by repeat constructor|].
      rewrite bind_cons. apply IH.
    + destruct (ends_section line); rewrite bind_cons; [|apply IH].
      constructor; [done|apply IH].
  - destruct (tier_match (Py.strip line)) as [tier_name|] eqn:Hmatch;
      rewrite bind_cons; cbn [emit].
    + apply tier_match_Some in Hmatch as (Hin & _).
      constructor; [done|]. apply Forall_app. split; [by apply Hmerged|apply IH].
    + constructor; [done|apply IH].
Qed.

Lemma emitted_nonempty merged lines :
  lines ≠ [] → segments false lines ≫= emit merged ≠ [].
Proof.
  destruct lines as [|line rest]; [done|]. intros _. cbn [segments].
  by destruct (tier_match (Py.strip line)).
Qed.

Lemma merged_tier_rendered tier_comments new_tiers tier_name :
  ∃ entries, merged_tier tier_comments new_tiers tier_name = render_entry <$> entries.
Proof. unfold merged_tier. rewrite merge_lines_entries. eauto. Qed.

Lemma candidates_ok_tier new_tiers tier_name :
  candidates_ok new_tiers = true → tier_name ∈ TIERS →
  forallb candidate_ok (default [] (new_tiers !! tier_name)) = true.
Proof.
  unfold candidates_ok. rewrite forallb_forall. intros Hall Hin.
  apply Hall. by apply list_elem_of_In.
Qed.

(** C1, as stated, fails on two inputs: a candidate with a space after
    it, which the parser strips when it reads the line back, and a list
    item whose text starts with the comment marker after two spaces,
    which is read as active in the first run and as commented in the
    second. *)
Lemma update_not_idempotent :
  (let new_tiers : gmap string (list string) :=
     {["easy" := ["openrouter:vendor/model:free "]]} in
   let once := update_text [] "easy:" new_tiers in
   Py.split "010" once = ["easy:"; "  - openrouter:vendor/model:free "]
   ∧ Py.split "010" (update_text [] once new_tiers)
     = ["easy:"; "  - openrouter:vendor/model:free"])
  ∧ (let content := Py.join newline ["easy:"; "  -   #x"] in
     let once := update_text [] content ∅ in
     Py.split "010" once = ["easy:"; "  - #x"]
     ∧ Py.split "010" (update_text [] once ∅) = ["easy:"; "  # - x"]).
Proof. vm_compute. done. Qed.

(** C1, amended: when every candidate of the five tiers is a clean
    identifier that does not begin with the comment marker, and no line
    of the file holds an active entry that begins with it, running the
    update a second time with the same candidates gives back the text of
    the first run, whatever the YAML loader reports as keys. *)
Theorem update_idempotent
    (models_keys models_keys' : list string) (content : string)
    (new_tiers : gmap string (list string)) :
  candidates_ok new_tiers = true →
  lines_ok content = true →
  update_text models_keys' (update_text models_keys content new_tiers) new_tiers
  = update_text models_keys content new_tiers.
Proof.
  intros Hcands Hlines.
  set (lines := Py.split "010" content).
  set (merged := merged_tier (parse_tier_comments models_keys content) new_tiers).
  assert (update_text models_keys content new_tiers
          = Py.join newline (segments false lines ≫= emit merged)) as Honce.
  { unfold update_text, save_config_with_comments, rewrite_lines.
    by rewrite save_loop_segments by lia. }
  assert (∀ tier_name, tier_name ∈ TIERS →
            let entries :=
              merge_entries (parse_tier models_keys tier_name false lines)
                            (default [] (new_tiers !! tier_name)) in
            merged tier_name = render_entry <$> entries
            ∧ Forall (λ entry, entry_ok entry = true) entries) as Hmerged.
  { intros tier_name Hin entries. split.
    - unfold merged, merged_tier. rewrite parse_tier_comments_lookup by done.
      apply merge_lines_entries.
    - apply merge_entries_ok; [|by apply candidates_ok_tier].
      apply parse_tier_ok; [apply split_no_newline|done]. }
  assert (Py.split "010" (Py.join newline (segments false lines ≫= emit merged))
          = segments false lines ≫= emit merged) as Hsplit.
  { apply split_join; [apply emitted_nonempty, split_nonempty|].
    apply emitted_no_newline; [|apply split_no_newline].
    intros tier_name Hin. destruct (Hmerged tier_name Hin) as [-> Hok].
    apply Forall_fmap. eapply Forall_impl; [exact Hok|].
    intros entry. apply render_entry_no_newline. }
  rewrite Honce. unfold update_text, save_config_with_comments at 1.
  rewrite Hsplit. f_equal. unfold rewrite_lines.
  rewrite save_loop_segments by lia. rewrite drop_0.
  apply rewrite_twice; [apply merged_tier_rendered|].
  intros tier_name header Hheader.
  pose proof (segments_header _ _ _ _ Hheader) as Hin.
  destruct (Hmerged tier_name Hin) as [Hrender Hok].
  unfold merged_tier at 1. rewrite parse_tier_comments_lookup by done.
  rewrite Hsplit. cbn [default from_option].
  erewrite parse_rewritten; [|apply merged_tier_rendered|done|exact Hrender|exact Hok|exact Hheader].
  unfold id. by rewrite merge_lines_entries, merge_entries_idemp, Hrender.
Qed.

Lemma update_idempotent_witness :
  let content :=
    Py.join newline
      ["models:"; "  super_easy:"; "    - anthropic:claude-haiku";
       "    # - openrouter:banned/model:free"; ""; "providers:"; "  openrouter: {}"; ""] in
  let new_tiers : gmap string (list string) :=
    {["super_easy" := ["openrouter:banned/model:free"; "openrouter:new/model:free"]]} in
  candidates_ok new_tiers = true
  ∧ lines_ok content = true
  ∧ update_text ["super_easy"]
      (update_text ["super_easy"] content new_tiers) new_tiers
    = update_text ["super_easy"] content new_tiers.
Proof.
  intros content new_tiers.
  assert (candidates_ok new_tiers = true) as Hcands by (vm_compute; reflexivity).
  assert (lines_ok content = true) as Hlines by (vm_compute; reflexivity).
  split; [exact Hcands|]. split; [exact Hlines|].
  exact (update_idempotent ["super_easy"] ["super_easy"] content new_tiers Hcands Hlines).
Defined.
(** ** A tier section that stands on its own *)














(** ** The range the rewriter replaces *)

(** The keys the loader reports matter to the parser only at a line at
    zero indentation whose key is the name of the tier being read and
    which is not its header. *)
Lemma leaves_tier_keys models_keys tier_name line :
  negb (leaves_tier [] tier_name line)
  || negb (String.eqb (Py.split_head ":" (Py.strip line)) tier_name) = true →
  leaves_tier models_keys tier_name line = leaves_tier [] tier_name line.
Proof.
  unfold leaves_tier. cbn [existsb negb orb].
  destruct (negb (String.eqb (Py.strip line) "") && (Py.indent_of line <=? 0)
            && Py.contains (Py.strip line) ":"); cbn [andb negb orb]; [|done].
  intros ->. apply orb_true_r.
Qed.

Lemma parse_tier_keys models_keys tier_name in_tier lines :
  forallb (λ line, Re.match_tier tier_name (Py.strip line)
                   || negb (leaves_tier [] tier_name line)
                   || negb (String.eqb (Py.split_head ":" (Py.strip line)) tier_name))
          lines = true →
  parse_tier models_keys tier_name in_tier lines = parse_tier [] tier_name in_tier lines.
Proof.
  revert in_tier. induction lines as [|line lines IH]; intros in_tier; [done|].
  cbn [forallb parse_tier]. intros [Hline Hlines]%andb_true_iff.
  rewrite !IH by done.
  destruct (Re.match_tier tier_name (Py.strip line)); [done|].
  by rewrite (leaves_tier_keys models_keys tier_name line Hline).
Qed.

Lemma parse_tier_comments_keys models_keys content :
  forallb (λ tier_name,
             forallb (λ line,
                        Re.match_tier tier_name (Py.strip line)
                        || negb (leaves_tier [] tier_name line)
                        || negb (String.eqb (Py.split_head ":" (Py.strip line)) tier_name))
                     (Py.split "010" content))
          TIERS = true →
  parse_tier_comments models_keys content = parse_tier_comments [] content.
Proof.
  intros Hall. unfold parse_tier_comments. f_equal.
  apply list_fmap_ext. intros i tier_name Hi%list_elem_of_lookup_2. f_equal.
  apply parse_tier_keys.
  exact (proj1 (forallb_forall _ _) Hall tier_name (proj1 (list_elem_of_In _ _) Hi)).
Qed.

(** C3: the code does not do this.  In the file below the parser ends
    the tier [super_easy] at the header of [easy], so the line [easy:]
    and the lines after it are in no body of [super_easy]; but the range
    that the rewriter replaces under the header [super_easy:] does not
    end at the header of another tier, it runs on to the line
    [other: 1].  Whatever the loader reports and whatever the merger
    gives for the tiers, the rewritten file holds the header
    [super_easy:], the merger's lines for that tier and [other: 1]: the
    header [easy:], which lies outside every tier body, and the entry of
    [easy] are gone, and the merger's lines for [easy] are never
    written. *)
Theorem rewriter_swallows_next_tier
    (models_keys : list string) (tier_comments : gmap string (list TierEntry))
    (new_tiers : gmap string (list string)) :
  let lines := ["super_easy:"; "  - a"; "easy:"; "  - b"; "other: 1"] in
  let content := Py.join newline lines in
  parse_tier_comments models_keys content !! "super_easy" = Some [("a", false)]
  ∧ parse_tier_comments models_keys content !! "easy" = Some [("b", false)]
  ∧ save_config_with_comments content tier_comments new_tiers
    = Py.join newline
        ("super_easy:" :: merged_tier tier_comments new_tiers "super_easy" ++ ["other: 1"])
  ∧ Py.split "010" (update_text models_keys content ∅)
    = ["super_easy:"; "  - a"; "other: 1"]
  ∧ "easy:" ∉ Py.split "010" (update_text models_keys content ∅).
Proof.
  intros lines content.
  assert (parse_tier_comments models_keys content = parse_tier_comments [] content)
    as Hkeys by (apply parse_tier_comments_keys; vm_compute; reflexivity).
  assert (Py.split "010" (update_text models_keys content ∅)
          = ["super_easy:"; "  - a"; "other: 1"]) as Hout.
  { unfold update_text. rewrite Hkeys. vm_compute. reflexivity. }
  rewrite Hkeys.
  split; [vm_compute; reflexivity|]. split; [vm_compute; reflexivity|]. split.
  - unfold save_config_with_comments.
    change (Py.split "010" content) with lines.
    set (merged := merged_tier tier_comments new_tiers).
    by assert (rewrite_lines merged lines
               = "super_easy:" :: merged "super_easy" ++ ["other: 1"]) as -> by reflexivity.
  - split; [exact Hout|]. rewrite Hout.
    intros [H|[H|[H|H%elem_of_nil]%elem_of_cons]%elem_of_cons]%elem_of_cons; done.
Qed.

(** C8: the code does not reach this.  The distribution puts the
    fallback into the candidates of each of the five tiers, but the
    rewriter writes the merged lines of a tier only under a header it
    meets outside the range of an earlier tier, and that range does not
    end at the header of another tier.  In a file with the five tiers one
    after the other, flat or nested under a key, the range of
    [super_easy] runs over the four other tiers: after an update with
    the catalog of the classification scenario, whatever the loader
    reports, the file holds the fallback under [super_easy] alone, the
    headers of the other four tiers are gone, and the parser finds no
    entry for them. *)
Theorem fallback_lost_after_update (models_keys models_keys' : list string) :
  let flat :=
    Py.join newline
      ["super_easy:"; "  - a"; "easy:"; "  - b"; "medium:"; "  - c";
       "hard:"; "  - d"; "super_hard:"; "  - e"; "other: 1"] in
  let nested :=
    Py.join newline
      ["models:"; "  super_easy:"; "    - a"; "  easy:"; "    - b"; "  medium:";
       "    - c"; "  hard:"; "    - d"; "  super_hard:"; "    - e"; "";
       "providers:"; "  openrouter: {}"] in
  let new_tiers :=
    distribute_to_tiers
      (rank_free_models (λ _, 1760000000%Q) [scenario_entry 1760000000]) in
  (λ tier_name, new_tiers !! tier_name) <$> TIERS
  = [Some [free_router]; Some ["openrouter:meta-llama/llama-3.1-8b:free"; free_router];
     Some [free_router]; Some [free_router]; Some [free_router]]
  ∧ (λ tier_name, parse_tier_comments models_keys flat !! tier_name) <$> TIERS
    = [Some [("a", false)]; Some [("b", false)]; Some [("c", false)];
       Some [("d", false)]; Some [("e", false)]]
  ∧ Py.split "010" (update_text models_keys flat new_tiers)
    = ["super_easy:"; "  - a"; "  - openrouter:openrouter/free:free"; "other: 1"]
  ∧ (λ tier_name,
       parse_tier_comments models_keys' (update_text models_keys flat new_tiers)
         !! tier_name) <$> TIERS
    = [Some [("a", false); (free_router, false)]; Some []; Some []; Some []; Some []]
  ∧ Py.split "010" (update_text models_keys nested new_tiers)
    = ["models:"; "  super_easy:"; "  - a"; "  - b"; "  - c"; "  - d"; "  - e";
       "  - openrouter:openrouter/free:free"; "providers:"; "  openrouter: {}"]
  ∧ (λ tier_name,
       parse_tier_comments models_keys' (update_text models_keys nested new_tiers)
         !! tier_name) <$> TIERS
    = [Some [("a", false); ("b", false); ("c", false); ("d", false); ("e", false);
             (free_router, false)];
       Some []; Some []; Some []; Some []].
Proof.
  intros flat nested new_tiers.
  assert (update_text models_keys flat new_tiers = update_text [] flat new_tiers) as ->.
  { unfold update_text.
    by rewrite (parse_tier_comments_keys models_keys flat) by (vm_compute; reflexivity). }
  assert (update_text models_keys nested new_tiers = update_text [] nested new_tiers) as ->.
  { unfold update_text.
    by rewrite (parse_tier_comments_keys models_keys nested) by (vm_compute; reflexivity). }
  rewrite (parse_tier_comments_keys models_keys flat) by (vm_compute; reflexivity).
  rewrite (parse_tier_comments_keys models_keys' (update_text [] flat new_tiers))
    by (vm_compute; reflexivity).
  rewrite (parse_tier_comments_keys models_keys' (update_text [] nested new_tiers))
    by (vm_compute; reflexivity).
  repeat split; vm_compute; reflexivity.
Qed.
(** * Further properties *)

(** ** Merger *)

Lemma render_entry_inj : Inj (=) (=) render_entry.
Proof.
  intros [t1 [|]] [t2 [|]] H; unfold render_entry in H; cbn [fst snd] in H;
    by simplify_eq/=.
Qed.

(** X1: no candidate is lost without a trace: for every candidate the
    merged lines hold a line, old or new, active or commented, whose entry
    has the candidate's normalized identity. *)
Theorem merge_covers_candidates
    (tier_entries : list TierEntry) (new_models : list string) (candidate : string) :
  candidate ∈ new_models →
  ∃ entry, render_entry entry ∈ merge_models_with_comments tier_entries new_models
           ∧ entry_id entry = normalize_model_id candidate.
Proof.
  intros Hin. rewrite merge_lines.
  destruct (fresh_models_covers (list_to_set (entry_id <$> tier_entries))
              new_models candidate Hin) as [Hold|Hnew].
  - apply elem_of_list_to_set, list_elem_of_fmap in Hold as (entry & Heq & He).
    exists entry. split; [|done]. apply elem_of_app. left.
    apply list_elem_of_fmap. eauto.
  - apply list_elem_of_fmap in Hnew as (m & Heq & Hm).
    exists (m, false). split; [|done]. apply elem_of_app. right.
    apply list_elem_of_fmap. eauto.
Qed.

Lemma merge_covers_candidates_witness :
  "openrouter:banned/model:free" ∈ ["openrouter:banned/model:free"]
  ∧ ∃ entry,
      render_entry entry
        ∈ merge_models_with_comments [("Banned/Model", true)] ["openrouter:banned/model:free"]
      ∧ entry_id entry = normalize_model_id "openrouter:banned/model:free".
Proof.
  assert ("openrouter:banned/model:free" ∈ ["openrouter:banned/model:free"]) as Hin by left.
  split; [exact Hin|].
  exact (merge_covers_candidates [("Banned/Model", true)] _ _ Hin).
Defined.

(** X2: for a single candidate the merger and the duplicate check of the
    statistics agree: the candidate gets a line exactly when
    [has_duplicate] reports no duplicate. *)
Theorem merge_single_candidate (tier_entries : list TierEntry) (new_model : string) :
  merge_models_with_comments tier_entries [new_model]
  = (render_entry <$> tier_entries)
    ++ (if has_duplicate tier_entries new_model then [] else ["  - " +:+ new_model]).
Proof.
  rewrite merge_lines. f_equal. cbn [fresh_models].
  destruct (has_duplicate tier_entries new_model) eqn:Hdup.
  - apply has_duplicate_spec in Hdup. rewrite bool_decide_false; [done|].
    intros Hnot. apply Hnot. by apply elem_of_list_to_set.
  - rewrite bool_decide_true; [done|].
    intros Hin%elem_of_list_to_set%has_duplicate_spec. congruence.
Qed.

Lemma fresh_models_sublist seen new_models :
  fresh_models seen new_models `sublist_of` new_models.
Proof.
  revert seen. induction new_models as [|m ms IH]; intros seen; cbn [fresh_models].
  - constructor.
  - case_bool_decide; [by apply sublist_skip|by apply sublist_cons].
Qed.

(** X3: the merger only appends: its output starts with one line per
    existing entry and goes on with lines for some of the candidates, in
    the order of the candidate list, so it has between [len(existing)] and
    [len(existing) + len(candidates)] lines. *)
Theorem merge_only_appends (tier_entries : list TierEntry) (new_models : list string) :
  ∃ added,
    added `sublist_of` new_models
    ∧ merge_models_with_comments tier_entries new_models
      = (render_entry <$> tier_entries) ++ ((λ m, "  - " +:+ m) <$> added)
    ∧ length tier_entries ≤ length (merge_models_with_comments tier_entries new_models)
    ∧ length (merge_models_with_comments tier_entries new_models)
      ≤ length tier_entries + length new_models.
Proof.
  exists (fresh_models (list_to_set (entry_id <$> tier_entries)) new_models).
  pose proof (fresh_models_sublist (list_to_set (entry_id <$> tier_entries)) new_models)
    as Hsub.
  split; [done|]. split; [apply merge_lines|].
  rewrite merge_lines, List.length_app, !length_fmap.
  apply sublist_length in Hsub. lia.
Qed.

(** X4: merging is idempotent on its own output: whatever entries render
    to the lines of a merge, merging them with the same candidates again
    gives the same lines. *)
Theorem merge_again_same
    (tier_entries merged : list TierEntry) (new_models : list string) :
  render_entry <$> merged = merge_models_with_comments tier_entries new_models →
  merge_models_with_comments merged new_models
  = merge_models_with_comments tier_entries new_models.
Proof.
  rewrite (merge_lines_entries tier_entries). intros Heq.
  apply (list_fmap_eq_inj render_entry render_entry_inj) in Heq as ->.
  by rewrite merge_lines_entries, merge_entries_idemp.
Qed.

Lemma merge_again_same_witness :
  let tier_entries := [("anthropic:claude-haiku", false)] in
  let new_models := ["openrouter:a/b:free"; "openrouter:A/B:free"] in
  let merged := [("anthropic:claude-haiku", false); ("openrouter:a/b:free", false)] in
  render_entry <$> merged = merge_models_with_comments tier_entries new_models
  ∧ merge_models_with_comments merged new_models
    = merge_models_with_comments tier_entries new_models.
Proof.
  intros tier_entries new_models merged.
  assert (render_entry <$> merged = merge_models_with_comments tier_entries new_models)
    as Heq by (vm_compute; reflexivity).
  split; [exact Heq|]. exact (merge_again_same tier_entries merged new_models Heq).
Defined.

Lemma fresh_models_filter seen new_models :
  length (fresh_models seen new_models)
  ≤ length (List.filter (λ m, bool_decide (normalize_model_id m ∉ seen)) new_models).
Proof.
  revert seen. induction new_models as [|m ms IH]; intros seen; [done|].
  cbn [fresh_models List.filter]. case_bool_decide as Hm; [|apply IH].
  cbn [length]. apply le_n_S. etrans; [apply IH|].
  clear. induction ms as [|m' ms IH]; [done|]. cbn [List.filter].
  repeat case_bool_decide; cbn [length]; try lia. set_solver.
Qed.

Lemma fresh_models_filter_NoDup seen new_models :
  NoDup (normalize_model_id <$> new_models) →
  fresh_models seen new_models
  = List.filter (λ m, bool_decide (normalize_model_id m ∉ seen)) new_models.
Proof.
  revert seen. induction new_models as [|m ms IH]; intros seen Hnodup; [done|].
  rewrite fmap_cons in Hnodup. apply NoDup_cons in Hnodup as [Hm Hms].
  cbn [fresh_models List.filter]. case_bool_decide as Hseen; [|by apply IH].
  f_equal. rewrite IH by done. apply filter_ext_in. intros m' Hm'.
  apply bool_decide_ext. rewrite elem_of_union, elem_of_singleton.
  split; [tauto|]. intros Hnot [Heq|Hin]; [|done].
  apply Hm. rewrite <- Heq. apply list_elem_of_fmap. exists m'.
  split; [done|]. by apply list_elem_of_In.
Qed.

Lemma has_duplicate_decide tier_entries m :
  negb (has_duplicate tier_entries m)
  = bool_decide (normalize_model_id m ∉ (list_to_set (entry_id <$> tier_entries) : gset string)).
Proof.
  destruct (has_duplicate tier_entries m) eqn:Hdup; cbn [negb]; symmetry.
  - apply bool_decide_eq_false. intros Hnot. apply Hnot, elem_of_list_to_set.
    by apply has_duplicate_spec.
  - apply bool_decide_eq_true. intros Hin%elem_of_list_to_set%has_duplicate_spec.
    congruence.
Qed.

(** X5: the statistics of a tier count every candidate once, as added or
    as skipped; the number reported as added is never below the number of
    lines the merger appends, and equals it when the candidates have
    pairwise distinct normalized identities. *)
Theorem tier_stats_counts
    (existing_entries : list TierEntry) (new_models : list string) (stats : Stats) :
  let stats' := tier_stats existing_entries new_models stats in
  added stats' + skipped_duplicates stats'
  = added stats + skipped_duplicates stats + length new_models
  ∧ added stats + length (appended_lines existing_entries new_models) ≤ added stats'
  ∧ (NoDup (normalize_model_id <$> new_models) →
     added stats' = added stats + length (appended_lines existing_entries new_models)).
Proof.
  cbn zeta. unfold tier_stats. cbn [added skipped_duplicates].
  rewrite appended_lines_spec, length_fmap.
  rewrite (filter_ext _ _ (has_duplicate_decide existing_entries)).
  pose proof (filter_length_le
                (λ m, bool_decide (normalize_model_id m
                   ∉ (list_to_set (entry_id <$> existing_entries) : gset string)))
                new_models) as Hle.
  split; [lia|]. split.
  - pose proof (fresh_models_filter (list_to_set (entry_id <$> existing_entries)) new_models).
    lia.
  - intros Hnodup. by rewrite fresh_models_filter_NoDup.
Qed.

Lemma tier_stats_counts_witness :
  let new_models := ["openrouter:a/b:free"; "openrouter:c/d:free"] in
  let stats := {| added := 0; preserved := 0; skipped_duplicates := 0; tiers_updated := 0 |} in
  NoDup (normalize_model_id <$> new_models)
  ∧ added (tier_stats [("a/b", true)] new_models stats)
    = added stats + length (appended_lines [("a/b", true)] new_models).
Proof.
  intros new_models stats.
  assert (NoDup (normalize_model_id <$> new_models)) as Hnodup.
  { apply (bool_decide_unpack _). vm_compute. exact I. }
  split; [exact Hnodup|].
  exact (proj2 (proj2 (tier_stats_counts [("a/b", true)] new_models stats)) Hnodup).
Defined.
(** ** Normalizer and router format *)

Lemma rstrip_app_fixed p s :
  p ≠ "" → Py.rstrip p = p → Py.rstrip (p +:+ s) = p +:+ Py.rstrip s.
Proof.
  induction p as [|c p IH]; [done|]. intros _ Hfix.
  change (String c p +:+ s) with (String c (p +:+ s)).
  destruct p as [|c' p'].
  - cbn [Py.rstrip] in Hfix. destruct (Py.is_space c) eqn:Hc; [done|].
    change ("" +:+ s) with s. cbn [Py.rstrip String.append].
    destruct (Py.rstrip s); by rewrite ?Hc.
  - pose proof (rstrip_fixed_cons _ _ Hfix ltac:(done)) as Hfix'.
    cbn [Py.rstrip]. rewrite IH by done.
    change (String c (String c' p') +:+ Py.rstrip s)
      with (String c (String c' (p' +:+ Py.rstrip s))). done.
Qed.

Lemma normalize_prefixed prefix s :
  prefix ∈ PREFIXES →
  normalize_model_id (prefix +:+ s)
  = Py.lower (if Py.endswith (Py.rstrip s) ":free"
              then Py.drop_last 5 (Py.rstrip s) else Py.rstrip s).
Proof.
  intros Hin. unfold normalize_model_id, Py.strip.
  assert (Py.lstrip (prefix +:+ s) = prefix +:+ s) as ->.
  { unfold PREFIXES in Hin. set_unfold.
    by destruct Hin as [->|[->|[->|[->|[->|[->|[->|[]]]]]]]]. }
  rewrite rstrip_app_fixed.
  - assert (remove_first_prefix PREFIXES (prefix +:+ Py.rstrip s) = Py.rstrip s) as ->; [|done].
    unfold PREFIXES in Hin. set_unfold.
    by destruct Hin as [->|[->|[->|[->|[->|[->|[->|[]]]]]]]].
  - unfold PREFIXES in Hin. set_unfold.
    by destruct Hin as [->|[->|[->|[->|[->|[->|[->|[]]]]]]]].
  - unfold PREFIXES in Hin. set_unfold.
    by destruct Hin as [->|[->|[->|[->|[->|[->|[->|[]]]]]]]].
Qed.

(** X6: the duplicate check does not look at which scheme an entry
    names: two references that differ only in their scheme prefix, both
    from the normalizer's list, have the same normalized identity, so each
    is a duplicate of the other. *)
Theorem normalize_ignores_scheme (prefix prefix' s : string) (is_commented : bool) :
  prefix ∈ PREFIXES → prefix' ∈ PREFIXES →
  normalize_model_id (prefix +:+ s) = normalize_model_id (prefix' +:+ s)
  ∧ has_duplicate [(prefix +:+ s, is_commented)] (prefix' +:+ s) = true.
Proof.
  intros Hin Hin'.
  assert (normalize_model_id (prefix +:+ s) = normalize_model_id (prefix' +:+ s)) as Heq.
  { by rewrite !normalize_prefixed. }
  split; [done|]. apply has_duplicate_spec.
  rewrite fmap_cons. unfold entry_id. cbn [fst]. rewrite Heq. left.
Qed.

Lemma normalize_ignores_scheme_witness :
  "anthropic:" ∈ PREFIXES ∧ "openrouter:" ∈ PREFIXES
  ∧ has_duplicate [("anthropic:claude-haiku", false)] "openrouter:claude-haiku" = true.
Proof.
  assert ("anthropic:" ∈ PREFIXES) as H1 by (apply (bool_decide_unpack _); vm_compute; exact I).
  assert ("openrouter:" ∈ PREFIXES) as H2 by (apply (bool_decide_unpack _); vm_compute; exact I).
  split; [exact H1|]. split; [exact H2|].
  exact (proj2 (normalize_ignores_scheme "anthropic:" "openrouter:" "claude-haiku" false H1 H2)).
Defined.

Lemma lower_char_idemp c : Py.lower_char (Py.lower_char c) = Py.lower_char c.
Proof. by destruct c as [[] [] [] [] [] [] [] []]. Qed.

Lemma lower_idemp s : Py.lower (Py.lower s) = Py.lower s.
Proof. induction s as [|c s IH]; [done|]. cbn [Py.lower]. by rewrite lower_char_idemp, IH. Qed.

(** X7: white space around a reference does not change its normalized
    identity, and the identity is already in lower case. *)
Theorem normalize_ignores_outer_space (model_id : string) :
  normalize_model_id (Py.strip model_id) = normalize_model_id model_id
  ∧ Py.lower (normalize_model_id model_id) = normalize_model_id model_id.
Proof.
  unfold normalize_model_id. rewrite strip_idemp. split; [done|]. apply lower_idemp.
Qed.

Lemma startswith_split s p : Py.startswith s p = true → s = p +:+ Py.drop (String.length p) s.
Proof.
  revert s. induction p as [|a p IH]; intros s Hs; [by destruct s|].
  destruct s as [|b s]; [done|]. cbn [Py.startswith] in Hs.
  apply andb_true_iff in Hs as [->%Ascii.eqb_eq Hs].
  cbn [String.length Py.drop String.append]. f_equal. by apply IH.
Qed.

(** X8: the router form always begins with the scheme ["openrouter:"] and
    holds the free marker; and the function does not recognise its own
    output: applied to a router form it puts a second scheme in front. *)
Theorem format_model_shape (model_id : string) :
  Py.startswith (format_model_for_router model_id) "openrouter:" = true
  ∧ Py.contains (format_model_for_router model_id) ":free" = true
  ∧ format_model_for_router (format_model_for_router model_id)
    = "openrouter:" +:+ format_model_for_router model_id.
Proof.
  assert (Py.contains (format_model_for_router model_id) ":free" = true) as Hfree.
  { unfold format_model_for_router.
    assert (∀ base_id, Py.contains base_id ":free" = true →
              Py.contains ("openrouter:" +:+ base_id) ":free" = true) as Hscheme.
    { intros base_id Hb.
      change (Py.contains ("openrouter:" +:+ base_id) ":free")
        with (Py.startswith (String ":" base_id) ":free" || Py.contains base_id ":free").
      rewrite Hb. apply orb_true_r. }
    apply Hscheme.
    destruct (Py.contains model_id ":free") eqn:Hid; cbn [negb].
    - destruct (Py.startswith model_id "openrouter/") eqn:Hslash; [|done].
      apply startswith_split in Hslash. rewrite Hslash in Hid.
      exact Hid.
    - rewrite (startswith_app_miss "openrouter/" model_id "free" ":") by done.
      destruct (Py.startswith model_id "openrouter/") eqn:Hslash.
      + apply startswith_split in Hslash. rewrite Hslash at 1.
        rewrite app_assoc_s.
        change (Py.drop (String.length "openrouter/")
                  ("openrouter/" +:+ Py.drop (String.length "openrouter/") model_id +:+ ":free"))
          with (Py.drop (String.length "openrouter/") model_id +:+ ":free").
        apply endswith_contains, endswith_app.
      + apply endswith_contains, endswith_app. }
  split; [done|]. split; [done|].
  unfold format_model_for_router at 1. rewrite Hfree. cbn [negb].
  done.
Qed.
(** ** Classifier, distribution and filter *)

(** X9: the classifier always answers with one of the five tier names,
    so the distribution never looks up a tier that does not exist. *)
Theorem categorize_model_tier (model : Model) : categorize_model model ∈ TIERS.
Proof.
  unfold categorize_model.
  repeat match goal with
         | |- context [if ?b then _ else _] => destruct b
         end;
    apply (bool_decide_unpack _); vm_compute; exact I.
Qed.

Section Distribute.
Implicit Types (tiers : gmap string (list string)) (ranked : list Model).

Lemma add_to_tier_lookup tiers model tier_name members :
  add_to_tier tiers model !! tier_name = Some members →
((tiers !! tier_name = Some members)
   ∧ (categorize_model model = tier_name →
      format_model_for_router (m_id model) ∈ members))
  ∨ (categorize_model model = tier_name
     ∧ (format_model_for_router (m_id model) ∉ default [] (tiers !! tier_name))
     ∧ members = default [] (tiers !! tier_name) ++ [format_model_for_router (m_id model)]).
Proof.
  unfold add_to_tier. case_bool_decide as Hin.
  - intros Hlookup. left. split; [done|]. intros <-. by rewrite Hlookup in Hin.
  - destruct (decide (categorize_model model = tier_name)) as [<-|Hne].
    + rewrite lookup_insert_eq. intros [= <-]. by right.
    + rewrite lookup_insert_ne by done. by left.
Qed.

Lemma foldl_add_to_tier_spec ranked tiers tier_name members :
  tiers !! tier_name = Some [] →
  foldl add_to_tier tiers ranked !! tier_name = Some members →
  NoDup members
  ∧ ∀ x, x ∈ members ↔
         ∃ model, model ∈ ranked ∧ categorize_model model = tier_name
                  ∧ format_model_for_router (m_id model) = x.
Proof.
  intros Hinit. revert members.
  induction ranked as [|model ranked IH] using rev_ind; intros members.
  { cbn [foldl]. rewrite Hinit. intros [= <-]. split; [constructor|].
    intros x. split; [by intros ?%elem_of_nil|]. by intros (m & ?%elem_of_nil & _). }
  rewrite foldl_snoc.
  destruct (foldl_add_to_tier_is_Some ranked tiers tier_name) as [old Hold]; [by eexists|].
  destruct (IH old Hold) as [Hnodup Hmem].
  intros [[Hlookup Hthere]|(Hcat & Hfresh & ->)]%add_to_tier_lookup.
  - rewrite Hold in Hlookup. injection Hlookup as <-.
    split; [done|]. intros x. rewrite Hmem. split.
    + intros (m & Hm & ? & ?). exists m. split; [|done]. apply elem_of_app. by left.
    + intros (m & [Hm|Hm%list_elem_of_singleton]%elem_of_app & Hc & Hf); [by eauto|].
      subst m. apply Hmem. rewrite <- Hf. by apply Hthere.
  - rewrite Hold in Hfresh |- *. cbn [default from_option] in *. unfold id in *. split.
    + apply NoDup_app. split; [done|]. split; [|apply NoDup_singleton].
      intros x Hx ->%list_elem_of_singleton. done.
    + intros x. rewrite elem_of_app, list_elem_of_singleton, Hmem. split.
      * intros [(m & Hm & ? & ?)| ->].
        -- exists m. split; [|done]. apply elem_of_app. by left.
        -- exists model. split; [|done]. apply elem_of_app. right. left.
      * intros (m & [Hm|Hm%list_elem_of_singleton]%elem_of_app & Hc & Hf); [left; by eauto|].
        subst m. by right.
Qed.

Lemma add_to_tier_dom tiers model :
  categorize_model model ∈ dom tiers → dom (add_to_tier tiers model) = dom tiers.
Proof.
  intros Hin. unfold add_to_tier. case_bool_decide; [done|].
  rewrite dom_insert_L. apply set_eq. intros x.
  rewrite elem_of_union, elem_of_singleton. split; [by intros [->|?]|by right].
Qed.

Lemma foldl_add_to_tier_dom ranked tiers :
  dom tiers = list_to_set TIERS → dom (foldl add_to_tier tiers ranked) = list_to_set TIERS.
Proof.
  revert tiers. induction ranked as [|model ranked IH]; intros tiers Hdom; [done|].
  cbn [foldl]. apply IH. rewrite add_to_tier_dom; [done|].
  rewrite Hdom. apply elem_of_list_to_set, categorize_model_tier.
Qed.

Lemma ensure_fallback_spec members :
  (NoDup members → NoDup (ensure_fallback members))
  ∧ ∀ x, x ∈ ensure_fallback members ↔ x = free_router ∨ x ∈ members.
Proof.
  unfold ensure_fallback. case_bool_decide as Hin.
  - split; [done|]. intros x. split; [by right|]. by intros [->|?].
  - split.
    + intros Hnodup. apply NoDup_app. split; [done|]. split; [|apply NoDup_singleton].
      intros x Hx ->%list_elem_of_singleton. done.
    + intros x. rewrite elem_of_app, list_elem_of_singleton. tauto.
Qed.
End Distribute.

(** X10: the distribution always has exactly the five tiers as keys,
    whatever the models are. *)
Theorem distribute_to_tiers_keys (ranked_models : list Model) :
  dom (distribute_to_tiers ranked_models) = list_to_set TIERS
  ∧ size (distribute_to_tiers ranked_models) = 5.
Proof.
  assert (dom (distribute_to_tiers ranked_models) = list_to_set TIERS) as Hdom.
  { unfold distribute_to_tiers. rewrite dom_fmap_L. by apply foldl_add_to_tier_dom. }
  split; [done|]. rewrite <- size_dom, Hdom. reflexivity.
Qed.

(** X11: the list of a tier has no entry twice, and it holds exactly the
    fallback and the router forms of the models that the classifier puts
    into this tier. *)
Theorem distribute_to_tiers_members
    (ranked_models : list Model) (tier_name : string) (members : list string) :
  distribute_to_tiers ranked_models !! tier_name = Some members →
  NoDup members
  ∧ ∀ x, x ∈ members ↔
         x = free_router
         ∨ ∃ model, model ∈ ranked_models ∧ categorize_model model = tier_name
                    ∧ format_model_for_router (m_id model) = x.
Proof.
  unfold distribute_to_tiers. rewrite lookup_fmap.
  destruct (foldl add_to_tier _ ranked_models !! tier_name) as [found|] eqn:Hfound;
    [|done].
  intros [= <-].
  assert (tier_name ∈ TIERS) as Hin.
  { apply (elem_of_list_to_set (C:=gset string)).
    rewrite <- (foldl_add_to_tier_dom ranked_models
                  (list_to_map ((λ t, (t, [])) <$> TIERS))) by reflexivity.
    apply elem_of_dom. by eexists. }
  apply foldl_add_to_tier_spec in Hfound as [Hnodup Hmem].
  - destruct (ensure_fallback_spec found) as [Hnd Hfb]. split; [by apply Hnd|].
    intros x. by rewrite Hfb, Hmem.
  - apply elem_of_list_to_map_1.
    + unfold TIERS. cbn [fmap list_fmap fst].
      apply (bool_decide_unpack _). vm_compute. exact I.
    + apply list_elem_of_fmap. eauto.
Qed.

Lemma distribute_to_tiers_members_witness :
  distribute_to_tiers [] !! "easy" = Some [free_router] ∧ NoDup [free_router].
Proof.
  assert (distribute_to_tiers [] !! "easy" = Some [free_router]) as Hlookup
    by (vm_compute; reflexivity).
  split; [exact Hlookup|].
  exact (proj1 (distribute_to_tiers_members [] "easy" [free_router] Hlookup)).
Defined.

(** ** Filter *)

Lemma filter_free_loop_spec models free_models :
  ∃ kept,
    filter_free_loop models free_models = free_models ++ kept
    ∧ kept `sublist_of` models
    ∧ (∀ model, model ∈ kept →
         (∃ price, m_pricing_prompt model = Some price ∧ Qeq_bool price 0 = true)
         ∨ Py.contains (m_id model) ":free" = true)
    ∧ ∀ model, model ∈ models →
        (∃ price, m_pricing_prompt model = Some price ∧ Qeq_bool price 0 = true)
        ∨ Py.contains (m_id model) ":free" = true →
        model ∈ free_models ++ kept.
Proof.
  revert free_models. induction models as [|model models IH]; intros free_models.
  { exists []. rewrite app_nil_r. split; [done|]. split; [done|].
    split; by intros ? ?%elem_of_nil. }
  cbn [filter_free_loop].
  set (zero_price := match m_pricing_prompt model with
                     | Some prompt_cost => Qeq_bool prompt_cost 0
                     | None => false
                     end).
  assert (zero_price = true ↔
          ∃ price, m_pricing_prompt model = Some price ∧ Qeq_bool price 0 = true) as Hzero.
  { unfold zero_price. destruct (m_pricing_prompt model) as [price|]; split;
      [by eauto|by intros (? & [= <-] & ?)|done|by intros (? & ? & _)]. }
  destruct zero_price eqn:Hz.
  - destruct (IH (free_models ++ [model])) as (kept & -> & Hsub & Hfree & Hall).
    exists (model :: kept). rewrite <- app_assoc. split; [done|].
    split; [by apply sublist_skip|]. split.
    + intros m [->|Hm]%elem_of_cons; [left; by apply Hzero|by apply Hfree].
    + intros m [->|Hm]%elem_of_cons Hm'.
      * apply elem_of_app. right. left.
      * specialize (Hall m Hm Hm'). by rewrite <- app_assoc in Hall.
  - destruct (Py.contains (m_id model) ":free" && negb (bool_decide (model ∈ free_models)))
      eqn:Hfr.
    + apply andb_true_iff in Hfr as [Hfr _].
      destruct (IH (free_models ++ [model])) as (kept & -> & Hsub & Hfree & Hall).
      exists (model :: kept). rewrite <- app_assoc. split; [done|].
      split; [by apply sublist_skip|]. split.
      * intros m [->|Hm]%elem_of_cons; [by right|by apply Hfree].
      * intros m [->|Hm]%elem_of_cons Hm'.
        -- apply elem_of_app. right. left.
        -- specialize (Hall m Hm Hm'). by rewrite <- app_assoc in Hall.
    + destruct (IH free_models) as (kept & -> & Hsub & Hfree & Hall).
      exists kept. split; [done|]. split; [by apply sublist_cons|]. split; [done|].
      intros m [->|Hm]%elem_of_cons Hm'; [|by apply Hall].
      destruct Hm' as [Hp|Hc]; [apply Hzero in Hp; congruence|].
      rewrite Hc in Hfr. cbn [andb] in Hfr.
      apply negb_false_iff, bool_decide_eq_true in Hfr.
      apply elem_of_app. by left.
Qed.

(** X12: the filter keeps the order of the catalog and invents nothing;
    it returns only models whose prompt price is zero or whose identifier
    holds the free marker, and every such model of the catalog is in its
    result. *)
Theorem filter_free_models_spec (models : list Model) :
  filter_free_models models `sublist_of` models
  ∧ ∀ model,
      model ∈ filter_free_models models ↔
      model ∈ models
      ∧ ((∃ price, m_pricing_prompt model = Some price ∧ Qeq_bool price 0 = true)
         ∨ Py.contains (m_id model) ":free" = true).
Proof.
  unfold filter_free_models.
  destruct (filter_free_loop_spec models []) as (kept & -> & Hsub & Hfree & Hall).
  cbn [app]. split; [done|]. intros model. split.
  - intros Hin. split; [|by apply Hfree]. by eapply elem_of_sublist.
  - intros [Hin Hfr]. by apply (Hall model Hin Hfr).
Qed.
(** ** Score *)

Lemma list_index_lt x xs i : list_index x xs = Some i → i < length xs.
Proof.
  revert i. induction xs as [|y xs IH]; intros i; [done|]. cbn [list_index].
  destruct (String.eqb x y).
  - intros [= <-]. simpl. lia.
  - destruct (list_index x xs) as [j|]; [|done]. intros [= <-].
    specialize (IH j eq_refl). simpl. lia.
Qed.

Lemma inject_Z_nonneg z : (0 <= z)%Z → (0 <= inject_Z z)%Q.
Proof. intros. change 0%Q with (inject_Z 0). by rewrite <- Zle_Qle. Qed.

Lemma Qdiv_unit a c : (0 <= a)%Q → (a <= c)%Q → (0 < c)%Q → (0 <= a / c <= 1)%Q.
Proof.
  intros Ha Hac Hc. split.
  - apply Qle_shift_div_l; [done|]. lra.
  - apply Qle_shift_div_r; [done|]. lra.
Qed.

Lemma context_score_unit context_length :
  (0 <= context_length)%Z →
  (0 <= Qmin (inject_Z context_length / 1000000) 1 <= 1)%Q.
Proof.
  intros Hc. split; [|apply Q.le_min_r]. apply Q.min_glb; [|lra].
  apply Qle_shift_div_l; [lra|]. pose proof (inject_Z_nonneg _ Hc). lra.
Qed.

Lemma capability_score_unit (n : nat) :
  (0 <= Qmin (inject_Z (Z.of_nat n) / 10) 1 <= 1)%Q.
Proof.
  split; [|apply Q.le_min_r]. apply Q.min_glb; [|lra].
  apply Qle_shift_div_l; [lra|]. pose proof (inject_Z_nonneg (Z.of_nat n) ltac:(lia)). lra.
Qed.

Lemma trust_score_unit provider trust_index :
  list_index provider TRUSTED_PROVIDERS = Some trust_index →
  (0 <= 1 - inject_Z (Z.of_nat trust_index)
            / inject_Z (Z.of_nat (length TRUSTED_PROVIDERS)) <= 1)%Q.
Proof.
  intros Hi%list_index_lt.
  assert (0 <= inject_Z (Z.of_nat trust_index)
               / inject_Z (Z.of_nat (length TRUSTED_PROVIDERS)) <= 1)%Q; [|lra].
  apply Qdiv_unit.
  - apply inject_Z_nonneg. lia.
  - rewrite <- Zle_Qle. lia.
  - reflexivity.
Qed.

(** X13: for a model with a context length that is not negative and a
    creation time that is not in the future, the score lies between 0
    and 1. *)
Theorem calculate_model_score_bounds (now : Q) (model : Model) :
  (0 <= m_context_length model)%Z →
  (m_created model = 0%Z ∨ (inject_Z (m_created model) <= now)%Q) →
  (0 <= calculate_model_score now model <= 1)%Q.
Proof.
  intros Hctx Hcreated. unfold calculate_model_score.
  pose proof (context_score_unit _ Hctx) as Hcs.
  pose proof (capability_score_unit (length (m_supported_parameters model))) as Hcap.
  set (cs := Qmin (inject_Z (m_context_length model) / 1000000) 1) in *.
  set (cap := Qmin (inject_Z (Z.of_nat (length (m_supported_parameters model))) / 10) 1) in *.
  assert (0 <= (if (m_created model =? 0)%Z then 0 + cs * 0.4 + cap * 0.3
                else 0 + cs * 0.4 + cap * 0.3
                     + Qmax 0 (1 - (now - inject_Z (m_created model)) / 86400 / 365) * 0.2)
          <= 0.9)%Q as Hbase.
  { destruct (Z.eqb_spec (m_created model) 0) as [Hz|Hnz]; [lra|].
    destruct Hcreated as [?|Hpast]; [done|].
    assert (0 <= Qmax 0 (1 - (now - inject_Z (m_created model)) / 86400 / 365) <= 1)%Q;
      [|lra].
    split; [apply Q.le_max_l|]. apply Q.max_lub; [lra|].
    assert (0 <= (now - inject_Z (m_created model)) / 86400 / 365)%Q; [|lra].
    apply Qle_shift_div_l; [lra|]. apply Qle_shift_div_l; lra. }
  set (base := if (m_created model =? 0)%Z then _ else _) in *.
  destruct (list_index _ TRUSTED_PROVIDERS) as [trust_index|] eqn:Hidx; [|lra].
  pose proof (trust_score_unit _ _ Hidx). lra.
Qed.

Lemma calculate_model_score_bounds_witness :
  let model := scenario_entry 1760000000 in
  (0 <= m_context_length model)%Z
  ∧ (0 <= calculate_model_score 1760000000 model <= 1)%Q.
Proof.
  intros model.
  assert (0 <= m_context_length model)%Z as Hctx by (vm_compute; discriminate).
  split; [exact Hctx|].
  apply (calculate_model_score_bounds 1760000000 model Hctx).
  right. vm_compute. discriminate.
Defined.

(** X14: the score does not go down when the context length grows, and
    a context length above one million counts as one million. *)
Theorem calculate_model_score_context (now : Q) (model : Model) (c c' : Z) :
  (c <= c')%Z →
  (calculate_model_score now (with_context_length model c)
   <= calculate_model_score now (with_context_length model c'))%Q
  ∧ ((1000000 <= c)%Z →
     (calculate_model_score now (with_context_length model c)
      == calculate_model_score now (with_context_length model 1000000))%Q).
Proof.
  intros Hcc. unfold calculate_model_score, with_context_length.
  cbn [m_id m_context_length m_supported_parameters m_created].
  set (cap := Qmin (inject_Z (Z.of_nat (length (m_supported_parameters model))) / 10) 1).
  assert (∀ a b : Q, (a <= b)%Q →
            (Qmin (a / 1000000) 1 <= Qmin (b / 1000000) 1)%Q) as Hmono.
  { intros a b Hab. apply Q.min_le_compat_r.
    apply Qle_shift_div_l; [lra|]. 
    assert (a / 1000000 * 1000000 == a)%Q as -> by (field; lra). done. }
  assert (∀ a : Z, (1000000 <= a)%Z → (Qmin (inject_Z a / 1000000) 1 == 1)%Q) as Hsat.
  { intros a Ha. apply Q.min_r. apply Qle_shift_div_l; [lra|].
    rewrite Zle_Qle in Ha. change (inject_Z 1000000) with 1000000%Q in Ha. lra. }
  pose proof (Hmono (inject_Z c) (inject_Z c') ltac:(by rewrite <- Zle_Qle)) as Hle.
  split.
  - destruct (m_created model =? 0)%Z;
      destruct (list_index _ TRUSTED_PROVIDERS); lra.
  - intros Hbig. pose proof (Hsat c Hbig) as H1. pose proof (Hsat 1000000%Z ltac:(lia)) as H2.
    destruct (m_created model =? 0)%Z;
      destruct (list_index _ TRUSTED_PROVIDERS); lra.
Qed.

Lemma calculate_model_score_context_witness :
  (131072 <= 200000)%Z
  ∧ (calculate_model_score 0 (with_context_length (scenario_entry 0) 131072)
     <= calculate_model_score 0 (with_context_length (scenario_entry 0) 200000))%Q.
Proof.
  assert (131072 <= 200000)%Z as H by lia.
  split; [exact H|].
  exact (proj1 (calculate_model_score_context 0 (scenario_entry 0) 131072 200000 H)).
Defined.
(** ** Parser and rewriter *)

Lemma parse_tier_clean models_keys tier_name in_tier lines :
  Forall (λ line, Py.contains line newline = false) lines →
  Forall (λ entry : TierEntry, clean_text entry.1 = true)
         (parse_tier models_keys tier_name in_tier lines).
Proof.
  intros Hnl. revert in_tier. induction Hnl as [|line rest Hline _ IH]; intros in_tier.
  { constructor. }
  cbn [parse_tier].
  destruct (Re.match_tier tier_name (Py.strip line)); [by apply IH|].
  destruct in_tier; [|by apply IH].
  destruct (leaves_tier models_keys tier_name line); [constructor|].
  apply Forall_app. split; [|by apply IH].
  destruct (line_entry (Py.strip line)) as [[text is_commented]|] eqn:Hentry; [|constructor].
  repeat constructor. cbn [fst].
  eapply line_entry_clean; [apply rstrip_strip|by apply strip_no_char|done].
Qed.

Lemma parse_tier_comments_Some models_keys content tier_name entries :
  parse_tier_comments models_keys content !! tier_name = Some entries →
  tier_name ∈ TIERS
  ∧ entries = parse_tier models_keys tier_name false (Py.split "010" content).
Proof.
  unfold parse_tier_comments. intros Hin%elem_of_list_to_map_2.
  apply list_elem_of_fmap in Hin as (t & [= -> ->] & Ht). done.
Qed.

(** X15: the parser reports exactly the five tiers, and every entry text
    it reports is not empty, has no white space around it and no line
    break in it. *)
Theorem parse_tier_comments_clean (models_keys : list string) (content : string) :
  dom (parse_tier_comments models_keys content) = list_to_set TIERS
  ∧ ∀ tier_name entries,
      parse_tier_comments models_keys content !! tier_name = Some entries →
      Forall (λ entry : TierEntry, clean_text entry.1 = true) entries.
Proof.
  split.
  - apply set_eq. intros tier_name. rewrite elem_of_dom, elem_of_list_to_set. split.
    + intros [entries Hlookup]. by apply parse_tier_comments_Some in Hlookup as [? _].
    + intros Hin. rewrite parse_tier_comments_lookup by done. by eexists.
  - intros tier_name entries [_ ->]%parse_tier_comments_Some.
    apply parse_tier_clean, split_no_newline.
Qed.

Lemma parse_tier_no_header models_keys tier_name lines :
  Forall (λ line, Re.match_tier tier_name (Py.strip line) = false) lines →
  parse_tier models_keys tier_name false lines = [].
Proof. induction 1 as [|line rest Hline _ IH]; [done|]. cbn [parse_tier]. by rewrite Hline. Qed.

(** X16: a file without a tier header gives the empty entry list for
    each of the five tiers, and the rewriter writes it back byte for
    byte. *)
Theorem no_tier_sections
    (models_keys : list string) (content : string)
    (tier_comments : gmap string (list TierEntry)) (new_tiers : gmap string (list string)) :
  Forall (λ line, tier_match (Py.strip line) = None) (Py.split "010" content) →
  (∀ tier_name, tier_name ∈ TIERS →
                parse_tier_comments models_keys content !! tier_name = Some [])
  ∧ save_config_with_comments content tier_comments new_tiers = content.
Proof.
  intros Hnone. split.
  - intros tier_name Hin. rewrite parse_tier_comments_lookup by done. f_equal.
    apply parse_tier_no_header. eapply Forall_impl; [exact Hnone|].
    intros line Hline. by apply tier_match_None.
  - unfold save_config_with_comments, rewrite_lines.
    rewrite save_loop_segments by lia. rewrite drop_0. cbn [app].
    pose proof (segments_before_headers _ [] Hnone) as Hseg.
    rewrite app_nil_r in Hseg. rewrite Hseg. cbn [segments]. rewrite app_nil_r.
    rewrite <- (join_split content) at 2. f_equal. clear Hnone Hseg.
    induction (Py.split "010" content) as [|line rest IH]; [done|].
    by rewrite fmap_cons, bind_cons, IH.
Qed.

Lemma no_tier_sections_witness :
  let content := Py.join newline ["providers:"; "  openrouter:"; "    api_key: k"; ""] in
  Forall (λ line, tier_match (Py.strip line) = None) (Py.split "010" content)
  ∧ save_config_with_comments content ∅ {["easy" := ["openrouter:a/b:free"]]} = content.
Proof.
  intros content.
  assert (Forall (λ line, tier_match (Py.strip line) = None) (Py.split "010" content))
    as Hnone.
  { apply (bool_decide_unpack _). vm_compute. exact I. }
  split; [exact Hnone|].
  exact (proj2 (no_tier_sections [] content ∅ {["easy" := ["openrouter:a/b:free"]]} Hnone)).
Defined.




(** X18: the loop of the rewriter always moves forward: the end it
    finds for a tier body lies after the header and inside the file, so
    the loop is done after at most one turn per line, and more turns
    change nothing. *)
Theorem rewrite_loop_terminates
    (merged : string → list string) (lines : list string) (i fuel : nat) :
  i < length lines → length lines ≤ fuel →
  i < find_tier_end (drop (S i) lines) (S i) (S i) ≤ length lines
  ∧ save_loop fuel merged lines 0 [] = rewrite_lines merged lines.
Proof.
  intros Hi Hfuel. split.
  - destruct (find_tier_end_segments (drop (S i) lines) (S i)) as (k & -> & Hk & _).
    rewrite length_drop in Hk. lia.
  - unfold rewrite_lines. by rewrite !save_loop_segments by lia.
Qed.

Lemma rewrite_loop_terminates_witness :
  let lines := ["easy:"; "  - a"; ""; "providers:"] in
  0 < length lines ∧ length lines ≤ 10
  ∧ find_tier_end (drop 1 lines) 1 1 = 3
  ∧ save_loop 10 (λ _, []) lines 0 [] = rewrite_lines (λ _, []) lines.
Proof.
  intros lines.
  assert (0 < length lines) as H0 by (simpl; lia).
  assert (length lines ≤ 10) as H1 by (simpl; lia).
  split; [exact H0|]. split; [exact H1|]. split; [reflexivity|].
  exact (proj2 (rewrite_loop_terminates (λ _, []) lines 0 10 H0 H1)).
Defined.
(** ** Update, listing and the API key *)





(** X19: a failed update leaves the configuration file as it was, with
    one exception: when writing the new text fails after the file was
    opened for writing, the file holds what had been written of the new
    text, which may be nothing.  In every case the command line exits
    with code 1. *)
Theorem update_failure_file
    (config_path : string) (yaml_safe_load : string → string + Config)
    (yaml_dump_metadata : string → nat → string) (env_api_key : option string)
    (fetch_all_models : string → list Model) (clock : nat → Q)
    (write_error : option WriteError) (file file' : File) (api_key : option string)
    (error : string) :
  update_config_with_freeride config_path yaml_safe_load yaml_dump_metadata
    env_api_key fetch_all_models clock write_error file api_key
  = (Failure error, file') →
  (file' = file
   ∨ ∃ e written original config key,
       write_error = Some (WriteFails e written)
       ∧ error = "Error saving config: " +:+ e
       ∧ file = Content original
       ∧ yaml_safe_load original = inr config
       ∧ file' = Content
                   (String.substring 0 written
                      (update_text (models_keys config) original
                         (distribute_to_tiers
                            (rank_free_models clock
                               (filter_free_models (fetch_all_models key)))))))
  ∧ ((∀ e written, write_error ≠ Some (WriteFails e written)) → file' = file)
  ∧ (api_key = None →
     main_update config_path yaml_safe_load yaml_dump_metadata
       env_api_key fetch_all_models clock write_error file = (1, file')).
Proof.
  intros Hupdate.
  assert (file' = file
          ∨ ∃ e written original config key,
              write_error = Some (WriteFails e written)
              ∧ error = "Error saving config: " +:+ e
              ∧ file = Content original
              ∧ yaml_safe_load original = inr config
              ∧ file' = Content
                          (String.substring 0 written
                             (update_text (models_keys config) original
                                (distribute_to_tiers
                                   (rank_free_models clock
                                      (filter_free_models (fetch_all_models key)))))))
    as Hfile.
  { revert Hupdate. unfold update_config_with_freeride.
    destruct file as [|e|original]; [by intros [= _ <-]; left| |].
    { cbn [parse_yaml_with_comments]. intros [= _ <-]. by left. }
    cbn [parse_yaml_with_comments].
    destruct (yaml_safe_load original) as [e|config] eqn:Hload; [by intros [= _ <-]; left|].
    destruct (match truthy api_key with
              | Some k => Some k
              | None => get_api_key env_api_key config
              end) as [key|]; [|by intros [= _ <-]; left].
    destruct (fetch_all_models key) as [|m0 all_models] eqn:Hfetch;
      [by intros [= _ <-]; left|].
    rewrite <- Hfetch.
    destruct (filter_free_models (fetch_all_models key)) as [|f0 free_models] eqn:Hfree;
      [by intros [= _ <-]; left|].
    rewrite <- Hfree. unfold save_file, write_file.
    destruct write_error as [[e|e written]|]; [by intros [= _ <-]; left| |done].
    intros [= <- <-]. right. by exists e, written, original, config, key. }
  split; [exact Hfile|]. split.
  - intros Hnot. destruct Hfile as [?|(e & written & ? & ? & ? & Hw & _)]; [done|].
    by destruct (Hnot e written).
  - intros ->. unfold main_update. by rewrite Hupdate.
Qed.

Lemma update_failure_file_witness :
  let model := {| m_id := "vendor/model:free"; m_pricing_prompt := Some 0%Q;
                  m_context_length := 8000; m_supported_parameters := [];
                  m_created := 0; m_score := None |} in
  main_update "config.yaml" (λ _, inr empty_config) (λ text _, text) (Some "key")
    (λ _, [model]) (λ _, 0%Q) (Some (WriteFails "No space left on device" 3))
    (Content "easy:")
  = (1, Content "eas").
Proof.
  intros model.
  assert (update_config_with_freeride "config.yaml" (λ _, inr empty_config)
            (λ text _, text) (Some "key") (λ _, [model]) (λ _, 0%Q)
            (Some (WriteFails "No space left on device" 3)) (Content "easy:") None
          = (Failure "Error saving config: No space left on device", Content "eas"))
    as Hrun by (vm_compute; reflexivity).
  exact (proj2 (proj2 (update_failure_file _ _ _ _ _ _ _ _ _ _ _ Hrun)) eq_refl).
Defined.



Lemma py_slice_to_prefix {A} (limit : Z) (l : list A) : py_slice_to limit l `prefix_of` l.
Proof. unfold py_slice_to. destruct (limit <? 0)%Z; apply prefix_take. Qed.

Lemma py_slice_to_length {A} (limit : Z) (l : list A) :
  Z.of_nat (length (py_slice_to limit l))
  = if (limit <? 0)%Z then Z.max 0 (Z.of_nat (length l) + limit)
    else Z.min limit (Z.of_nat (length l)).
Proof.
  unfold py_slice_to. destruct (Z.ltb_spec limit 0); rewrite length_take; lia.
Qed.

Lemma rank_free_models_elem clock models model :
  model ∈ rank_free_models clock models →
  ∃ source score, source ∈ models ∧ model = with_score source score.
Proof.
  unfold rank_free_models. rewrite py_sort_reverse_perm.
  intros (i & source & -> & Hlookup)%elem_of_lookup_imap_1.
  exists source, (calculate_model_score (clock i) source).
  split; [|done]. by eapply list_elem_of_lookup_2.
Qed.

Lemma rank_free_models_sorted clock models :
  StronglySorted (λ a b, (get_score b <= get_score a)%Q) (rank_free_models clock models).
Proof.
  pose proof (py_sort_reverse_sorted get_score Qle_bool Qle_bool_total
                Qle_bool_trans (score_models clock models)) as Hsorted.
  unfold rank_free_models.
  induction Hsorted as [|a l _ IH Hall]; constructor; [done|].
  eapply Forall_impl; [exact Hall|]. intros b Hab. by apply Qle_bool_iff.
Qed.

(** X21: the listing is a piece from the front of a ranking: it is in
    descending order of score, it has at most [limit] entries when
    [limit] is not negative and leaves out the last [-limit] entries of
    the ranking when it is, and every entry is a model of a fetched
    catalog with its score, whose prompt price is zero or whose
    identifier holds the free marker. *)
Theorem list_free_models_ranked
    (yaml_safe_load : string → string + Config) (env_api_key : option string)
    (fetch_all_models : string → list Model) (clock : nat → Q)
    (file : File) (limit : Z) :
  let listed := list_free_models yaml_safe_load env_api_key fetch_all_models clock
                  file limit in
  StronglySorted (λ a b, (get_score b <= get_score a)%Q) listed
  ∧ (∃ ranked,
       (ranked = []
        ∨ ∃ key, key ≠ ""
                 ∧ ranked = rank_free_models clock
                              (filter_free_models (fetch_all_models key)))
       ∧ listed `prefix_of` ranked
       ∧ Z.of_nat (length listed)
         = if (limit <? 0)%Z then Z.max 0 (Z.of_nat (length ranked) + limit)
           else Z.min limit (Z.of_nat (length ranked)))
  ∧ ∀ model, model ∈ listed →
      ∃ key source score,
        key ≠ "" ∧ source ∈ fetch_all_models key ∧ model = with_score source score
        ∧ ((∃ price, m_pricing_prompt source = Some price ∧ Qeq_bool price 0 = true)
           ∨ Py.contains (m_id source) ":free" = true).
Proof.
  intros listed. subst listed. unfold list_free_models.
  set (config := match file with
                 | Content text =>
                     match yaml_safe_load text with
                     | inr config => config
                     | inl _ => empty_config
                     end
                 | _ => empty_config
                 end).
  destruct (get_api_key env_api_key config) as [key|] eqn:Hkey.
  - assert (key ≠ "") as Hne.
    { revert Hkey. unfold get_api_key, truthy.
      destruct env_api_key as [[|? ?]|], (openrouter_api_key config) as [[|? ?]|];
        by intros [= <-]. }
    set (ranked := rank_free_models clock (filter_free_models (fetch_all_models key))).
    pose proof (py_slice_to_prefix limit ranked) as Hprefix.
    split; [|split].
    + destruct Hprefix as [rest Hrest].
      pose proof (rank_free_models_sorted clock
                    (filter_free_models (fetch_all_models key))) as Hsorted.
      fold ranked in Hsorted. rewrite Hrest in Hsorted.
      by apply StronglySorted_app_1_l in Hsorted.
    + exists ranked. split; [right; by exists key|]. split; [done|].
      apply py_slice_to_length.
    + intros model Hin.
      assert (model ∈ ranked) as Hranked.
      { destruct Hprefix as [rest ->]. apply elem_of_app. by left. }
      apply rank_free_models_elem in Hranked as (source & score & Hsource & ->).
      destruct (filter_free_loop_spec (fetch_all_models key) [])
        as (kept & Hkept & Hsub & Hfree & _).
      unfold filter_free_models in Hsource. rewrite Hkept in Hsource. cbn [app] in Hsource.
      exists key, source, score. split; [|split; [|split]].
      * done.
      * eapply elem_of_sublist; [exact Hsource|done].
      * done.
      * by apply Hfree.
  - split; [constructor|]. split.
    + exists []. split; [by left|]. split; [done|]. cbn [length]. destruct (Z.ltb_spec limit 0); lia.
    + by intros model ?%elem_of_nil.
Qed.
(** ** The benchmark tool *)

Section SpeedtestProps.
Import Speedtest.

Lemma split_head_no_sep sep s : Py.contains (Py.split_head sep s) (String sep "") = false.
Proof.
  induction s as [|c s IH]; [done|]. cbn [Py.split_head].
  destruct (Ascii.eqb c sep) eqn:Hc; [done|].
  rewrite contains_char_cons, IH, Ascii.eqb_sym, Hc. done.
Qed.

Lemma split_parts sep s :
  Py.contains s (String sep "") = true →
  s = Py.split_head sep s +:+ String sep (split_rest sep s).
Proof.
  induction s as [|c s IH]; [done|].
  rewrite contains_char_cons. cbn [Py.split_head split_rest].
  rewrite (Ascii.eqb_sym sep c).
  destruct (Ascii.eqb c sep) eqn:Hc.
  - apply Ascii.eqb_eq in Hc as ->. done.
  - cbn [orb String.append]. intros Hs. f_equal. by apply IH.
Qed.

Lemma split_app sep provider rest :
  Py.contains provider (String sep "") = false →
  Py.contains (provider +:+ String sep rest) (String sep "") = true
  ∧ Py.split_head sep (provider +:+ String sep rest) = provider
  ∧ split_rest sep (provider +:+ String sep rest) = rest.
Proof.
  induction provider as [|c provider IH]; cbn [String.append].
  - intros _. rewrite contains_char_cons. cbn [Py.split_head split_rest].
    by rewrite Ascii.eqb_refl.
  - rewrite !contains_char_cons. intros [Hc Hp]%orb_false_iff.
    destruct (IH Hp) as (-> & Hhead & Hrest).
    cbn [Py.split_head split_rest]. rewrite (Ascii.eqb_sym c sep), Hc, Hhead, Hrest.
    by rewrite orb_true_r.
Qed.

Lemma parse_model_string_app provider model_name :
  Py.contains provider ":" = false →
  parse_model_string (provider +:+ String ":" model_name) = (provider, model_name).
Proof.
  intros Hp. unfold parse_model_string.
  destruct (split_app ":" provider model_name Hp) as (-> & -> & ->). done.
Qed.

(** X22: a model string with a colon is cut at its first colon: the
    provider has no colon, and provider, colon and model name give the
    string back; a string without colon is the model name of the provider
    ["unknown"].  The other way round, a provider without colon and a
    model name, put together with a colon, are parsed into the two. *)
Theorem parse_model_string_round_trip (model_str provider model_name : string) :
  (Py.contains provider ":" = false →
   parse_model_string (provider +:+ ":" +:+ model_name) = (provider, model_name))
  ∧ (parse_model_string model_str = (provider, model_name) →
     (Py.contains model_str ":" = true
      ∧ Py.contains provider ":" = false
      ∧ model_str = provider +:+ ":" +:+ model_name)
     ∨ (Py.contains model_str ":" = false
        ∧ provider = "unknown" ∧ model_name = model_str)).
Proof.
  split; [apply parse_model_string_app|].
  unfold parse_model_string. destruct (Py.contains model_str ":") eqn:Hc.
  - intros [= <- <-]. left. split; [done|]. split; [apply split_head_no_sep|].
    by apply split_parts.
  - intros [= <- <-]. by right.
Qed.

Lemma parse_model_string_round_trip_witness :
  parse_model_string "openai:ft:gpt-4o" = ("openai", "ft:gpt-4o")
  ∧ "openai:ft:gpt-4o" = "openai" +:+ ":" +:+ "ft:gpt-4o".
Proof.
  assert (parse_model_string "openai:ft:gpt-4o" = ("openai", "ft:gpt-4o")) as Hparse
    by reflexivity.
  split; [exact Hparse|].
  destruct (proj2 (parse_model_string_round_trip "openai:ft:gpt-4o" "openai" "ft:gpt-4o")
              Hparse) as [(_ & _ & Heq)|(Hc & _)].
  - exact Heq.
  - discriminate Hc.
Defined.

Lemma dict_get_Some table key value :
  dict_get table key = Some value → key ∈ table.*1.
Proof.
  induction table as [|[k v] table IH]; [done|]. cbn [dict_get fmap list_fmap fst].
  destruct (String.eqb_spec k key) as [->|_]; [left|]. intros H. right. by apply IH.
Qed.

Lemma dict_get_None table key : key ∉ table.*1 → dict_get table key = None.
Proof.
  intros Hnot. destruct (dict_get table key) eqn:Hget; [|done].
  by apply dict_get_Some in Hget.
Qed.

Lemma strategy_of_is_Some provider :
  is_Some (strategy_of provider) ↔ provider ∈ endpoints.*1.
Proof.
  unfold strategy_of. split.
  - destruct (String.eqb_spec provider "anthropic") as [->|_].
    { intros _. apply (bool_decide_unpack _). vm_compute. exact I. }
    case_bool_decide as Hin.
    { intros _. revert Hin. unfold endpoints. cbn [fmap list_fmap fst].
      rewrite !elem_of_cons. tauto. }
    destruct (String.eqb_spec provider "google") as [->|_].
    { intros _. apply (bool_decide_unpack _). vm_compute. exact I. }
    by intros [? ?].
  - unfold endpoints. cbn [fmap list_fmap fst]. rewrite !elem_of_cons, elem_of_nil.
    intros [->|[->|[->|[->|[->|[->|[->|[->|[->|[->|[]]]]]]]]]]]; vm_compute; by eexists.
Qed.

(** X23: the tables of the providers agree: a provider has a built-in
    endpoint exactly when there is a way to call it, and every provider
    for which an API key can be found has both; so the last error of
    [test_model], about a provider that is not supported, is never
    reached. *)
Theorem supported_providers (environ : string → option string) (provider : string) :
  (is_Some (dict_get endpoints provider) ↔ is_Some (strategy_of provider))
  ∧ (is_Some (get_api_key environ provider) → is_Some (strategy_of provider)).
Proof.
  rewrite strategy_of_is_Some. split.
  - split.
    + intros [url Hurl]. by eapply dict_get_Some.
    + unfold endpoints. cbn [fmap list_fmap fst]. rewrite !elem_of_cons, elem_of_nil.
      intros [->|[->|[->|[->|[->|[->|[->|[->|[->|[->|[]]]]]]]]]]]; vm_compute; by eexists.
  - unfold get_api_key.
    destruct (dict_get env_vars provider) as [env_var|] eqn:Hvar.
    + intros _. apply dict_get_Some in Hvar. revert Hvar.
      unfold env_vars, endpoints. cbn [fmap list_fmap fst].
      rewrite !elem_of_cons, !elem_of_nil. tauto.
    + case_bool_decide as Hlocal; [|by intros [? ?]].
      intros _. revert Hlocal. unfold endpoints. cbn [fmap list_fmap fst].
      rewrite !elem_of_cons, !elem_of_nil. tauto.
Qed.
Lemma distribute_members_router ranked_models tier_name members x :
  distribute_to_tiers ranked_models !! tier_name = Some members →
  x ∈ members → ∃ rest, x = "openrouter" +:+ String ":" rest.
Proof.
  unfold distribute_to_tiers. rewrite lookup_fmap.
  destruct (foldl add_to_tier _ ranked_models !! tier_name) as [found|] eqn:Hfound;
    [|done].
  intros [= <-] [->|Hx]%ensure_fallback_spec; [by eexists|].
  assert (tier_name ∈ TIERS) as Hin.
  { apply (elem_of_list_to_set (C:=gset string)).
    rewrite <- (foldl_add_to_tier_dom ranked_models
                  (list_to_map ((λ t, (t, [])) <$> TIERS))) by reflexivity.
    apply elem_of_dom. by eexists. }
  apply foldl_add_to_tier_spec in Hfound as [_ Hmem].
  - apply Hmem in Hx as (model & _ & _ & <-). unfold format_model_for_router. by eexists.
  - apply elem_of_list_to_map_1.
    + unfold TIERS. cbn [fmap list_fmap fst].
      apply (bool_decide_unpack _). vm_compute. exact I.
    + apply list_elem_of_fmap. eauto.
Qed.

Lemma get_api_endpoint_ok str_of config provider :
  config_ok config provider = true →
  ∃ endpoint, get_api_endpoint str_of (inr config) provider = inr endpoint.
Proof.
  unfold config_ok, get_api_endpoint.
  destruct config as [| | | | |fields]; try done. cbn [py_get].
  destruct (dict_lookup fields "providers") as [providers|]; cbn [default from_option].
  2:{ intros _. cbn. by eexists. }
  unfold id. destruct providers as [| | | | |providers]; try done.
  cbn [py_contains py_index].
  destruct (dict_lookup providers provider) as [entry|]; [|intros _; by eexists].
  destruct entry as [|b|n|s|items|m]; intros Hentry;
    try (apply negb_true_iff in Hentry; rewrite Hentry; by eexists).
  destruct (py_bool (VDict m)); [|by eexists]. cbn [py_get].
  destruct (py_bool (default VNone (dict_lookup m "url"))); by eexists.
Qed.

Lemma test_model_openrouter str_of load_config environ call_api start_time end_time round2
    tier rest test_prompt :
  test_model str_of load_config environ call_api start_time end_time round2 tier
    ("openrouter" +:+ String ":" rest) test_prompt
  = match get_api_endpoint str_of load_config "openrouter" with
    | inl e => inl e
    | inr endpoint =>
        inr {| r_tier := tier; r_model := "openrouter" +:+ String ":" rest;
               r_provider := "openrouter"; r_model_name := rest;
               r_endpoint := endpoint; r_success := false;
               r_latency_ms := None; r_tokens_per_sec := None;
               r_error :=
                 Some (if py_bool endpoint
                       then "Kein API-Key f" +:+ String "252" "r Provider 'openrouter'"
                       else "Kein Endpoint f" +:+ String "252" "r Provider 'openrouter'");
               r_response := None |}
    end.
Proof.
  unfold test_model. rewrite parse_model_string_app by reflexivity.
  destruct (get_api_endpoint str_of load_config "openrouter") as [e|endpoint]; [done|].
  by destruct (py_bool endpoint).
Qed.

(** X24: the benchmark cannot test what the update installs.  Every
    entry of the distribution names the provider ["openrouter"], for
    which the benchmark has no built-in endpoint and no source of an API
    key.  So [test_model] never calls a provider for it, whatever the
    configuration and the environment hold: it raises when reading the
    endpoint from the configuration raises, which it does not when the
    configuration has the form of the format, and otherwise it returns a
    failure about the endpoint or the key; the result recorded for the
    entry is no success in either case. *)
Theorem router_names_not_benchmarked
    (str_of : Fault → string) (load_config : string + Value)
    (environ : string → option string)
    (call_api call_api' : Strategy → Value → string → string → string
                          → string + ApiResponse)
    (start_time end_time : Q) (round2 : Q → Q)
    (ranked_models : list Model) (tier_name : string) (members : list string)
    (model_str tier test_prompt : string) :
  distribute_to_tiers ranked_models !! tier_name = Some members →
  model_str ∈ members →
  let run := test_model str_of load_config environ call_api start_time end_time round2
               tier model_str test_prompt in
  run = test_model str_of load_config environ call_api' start_time end_time round2
          tier model_str test_prompt
  ∧ (∀ e, run = inl e ↔ get_api_endpoint str_of load_config "openrouter" = inl e)
  ∧ (∀ config, load_config = inr config → config_ok config "openrouter" = true →
               ∃ result, run = inr result)
  ∧ (∀ result,
       run = inr result →
       r_provider result = "openrouter"
       ∧ r_success result = false
       ∧ (r_error result
          = Some ("Kein Endpoint f" +:+ String "252" "r Provider 'openrouter'")
          ∨ r_error result
            = Some ("Kein API-Key f" +:+ String "252" "r Provider 'openrouter'")))
  ∧ success (run_one str_of load_config environ call_api start_time end_time round2
               tier model_str) = false.
Proof.
  intros Hlookup Hin run.
  destruct (distribute_members_router _ _ _ _ Hlookup Hin) as [rest ->].
  subst run. unfold run_one. rewrite !test_model_openrouter.
  split; [done|]. split; [|split; [|split]].
  - intros e. destruct (get_api_endpoint str_of load_config "openrouter");
      split; congruence.
  - intros config -> Hok.
    destruct (get_api_endpoint_ok str_of config "openrouter" Hok) as [endpoint ->].
    by eexists.
  - intros result. destruct (get_api_endpoint str_of load_config "openrouter");
      [done|].
    intros [= <-]. cbn [r_provider r_success r_error]. split; [done|]. split; [done|].
    destruct (py_bool v); by eauto.
  - by destruct (get_api_endpoint str_of load_config "openrouter").
Qed.

Lemma router_names_not_benchmarked_witness :
  let config :=
    VDict [(VStr "providers",
            VDict [(VStr "openrouter",
                    VDict [(VStr "url",
                            VStr "https://openrouter.ai/api/v1/chat/completions")])])] in
  distribute_to_tiers [] !! "easy" = Some [free_router]
  ∧ ∃ result,
      test_model (λ _, "") (inr config) (λ _, Some "key") (λ _ _ _ _ _, inl "unreachable")
        0 1 id "easy" free_router DEFAULT_PROMPT = inr result
      ∧ r_success result = false.
Proof.
  intros config.
  assert (distribute_to_tiers [] !! "easy" = Some [free_router]) as Hlookup
    by (vm_compute; reflexivity).
  assert (free_router ∈ [free_router]) as Hin by left.
  split; [exact Hlookup|].
  destruct (router_names_not_benchmarked (λ _, "") (inr config) (λ _, Some "key")
              (λ _ _ _ _ _, inl "unreachable") (λ _ _ _ _ _, inl "unreachable")
              0 1 id [] "easy" [free_router] free_router "easy" DEFAULT_PROMPT
              Hlookup Hin)
    as (_ & _ & Hruns & Hresult & _).
  destruct (Hruns config eq_refl eq_refl) as [result Hrun].
  exists result. split; [exact Hrun|]. exact (proj1 (proj2 (Hresult result Hrun))).
Defined.

Lemma length_substring_le n s : String.length (String.substring 0 n s) ≤ n.
Proof.
  revert s. induction n as [|n IH]; intros [|c s]; cbn [String.substring String.length];
    try lia. specialize (IH s). lia.
Qed.

Lemma py_slice100_length v sliced :
  py_slice100 v = inr sliced →
  (∃ text, sliced = VStr text ∧ String.length text ≤ 100)
  ∨ (∃ items, sliced = VList items ∧ length items ≤ 100).
Proof.
  destruct v as [| | |s|items|]; try done; intros [= <-].
  - left. eexists. split; [done|]. apply length_substring_le.
  - right. eexists. split; [done|]. rewrite length_take. lia.
Qed.

(** X25: [test_model] raises exactly when reading the endpoint from the
    configuration raises, which it does not when the configuration has
    the form of the format.  Its result names the tier and the model it
    was given and the two parts of the model string; a failure always
    has an error and no latency, rate or response; a success always has
    the latency; a result without error is a success with a response; a
    rate is only there without error; the response is the answer cut to
    100 characters or items.  A success can carry an error: what fails
    after the answer has arrived, the cut of an answer that is no text
    or the reading of a usage that is no mapping of numbers, leaves
    [success] and the latency in the result and adds the text of the
    fault as error. *)
Theorem test_model_result_shape
    (str_of : Fault → string) (load_config : string + Value)
    (environ : string → option string)
    (call_api : Strategy → Value → string → string → string → string + ApiResponse)
    (start_time end_time : Q) (round2 : Q → Q)
    (tier model_str test_prompt : string) :
  let run := test_model str_of load_config environ call_api start_time end_time round2
               tier model_str test_prompt in
  let provider := (parse_model_string model_str).1 in
  (∀ e, run = inl e ↔ get_api_endpoint str_of load_config provider = inl e)
  ∧ (∀ e, load_config = inl e → run = inl e)
  ∧ (∀ config, load_config = inr config → config_ok config provider = true →
               ∃ result, run = inr result)
  ∧ ∀ result, run = inr result →
      r_tier result = tier ∧ r_model result = model_str
      ∧ parse_model_string model_str = (r_provider result, r_model_name result)
      ∧ get_api_endpoint str_of load_config provider = inr (r_endpoint result)
      ∧ (r_success result = false →
         is_Some (r_error result) ∧ r_latency_ms result = None
         ∧ r_tokens_per_sec result = None ∧ r_response result = None)
      ∧ (r_success result = true →
         r_latency_ms result = Some (round2 ((end_time - start_time) * 1000)%Q)
         ∧ (r_error result = None ∨ ∃ fault, r_error result = Some (str_of fault)))
      ∧ (r_error result = None → r_success result = true ∧ is_Some (r_response result))
      ∧ (is_Some (r_tokens_per_sec result) →
         r_error result = None ∧ is_Some (r_response result))
      ∧ ∀ sliced, r_response result = Some sliced →
          (∃ text, sliced = VStr text ∧ String.length text ≤ 100)
          ∨ (∃ items, sliced = VList items ∧ length items ≤ 100).
Proof.
  intros run provider. subst run provider. unfold test_model.
  destruct (parse_model_string model_str) as [provider model_name]. cbn [fst].
  split; [|split; [|split]].
  { intros e. destruct (get_api_endpoint str_of load_config provider); split; congruence. }
  { intros e ->. reflexivity. }
  { intros config -> Hok.
    destruct (get_api_endpoint_ok str_of config provider Hok) as [endpoint ->].
    by eexists. }
  intros result.
  destruct (get_api_endpoint str_of load_config provider) as [e|endpoint]; [done|].
  intros [= <-].
  match goal with |- context [r_tier ?r] => pattern r end.
  match goal with |- ?f _ => set (shape := f) end.
  assert (∀ error : string,
            shape {| r_tier := tier; r_model := model_str; r_provider := provider;
                     r_model_name := model_name; r_endpoint := endpoint;
                     r_success := false; r_latency_ms := None;
                     r_tokens_per_sec := None; r_error := Some error;
                     r_response := None |}) as Hfailure.
  { intros error. subst shape. cbn.
    split_and!; try done; try (by intros [? ?]); by eauto. }
  destruct (py_bool endpoint); cbn [negb]; [|apply Hfailure].
  destruct (get_api_key environ provider) as [[|k key]|]; [apply Hfailure| |apply Hfailure].
  destruct (strategy_of provider) as [strategy|]; [|apply Hfailure].
  destruct (call_api strategy _ _ _ _) as [e|response]; [apply Hfailure|].
  destruct (py_slice100 (content response)) as [fault|text] eqn:Hslice.
  { subst shape. cbn. split_and!; try done; try (by intros [? ?]); by eauto. }
  pose proof (py_slice100_length _ _ Hslice) as Hlen.
  assert (∀ fault : Fault,
            shape {| r_tier := tier; r_model := model_str; r_provider := provider;
                     r_model_name := model_name; r_endpoint := endpoint;
                     r_success := true;
                     r_latency_ms := Some (round2 ((end_time - start_time) * 1000)%Q);
                     r_tokens_per_sec := None; r_error := Some (str_of fault);
                     r_response := Some text |}) as Hfault.
  { intros fault. subst shape. cbn.
    split_and!; try done; try (by intros [? ?]); try (by eauto).
    by intros sliced [= <-]. }
  destruct (py_get (usage response) "total_tokens" (VNum 0)) as [fault|total];
    [apply Hfault|].
  destruct (if py_bool total then inr total
            else py_get (usage response) "completion_tokens" (VNum 0))
    as [fault|total_tokens]; [apply Hfault|].
  destruct (py_positive total_tokens) as [fault|positive]; [apply Hfault|].
  subst shape. cbn. split_and!; try done; try (by eauto).
  by intros sliced [= <-].
Qed.

Lemma test_model_result_shape_witness :
  match test_model (λ _, "'NoneType' object has no attribute 'get'") (inr (VDict []))
          (λ _, Some "key")
          (λ _ _ _ _ _, inr {| content := VStr "OK"; usage := VNone |})
          0 1 id "easy" "openai:gpt-4o-mini" DEFAULT_PROMPT with
  | inr result =>
      r_success result = true
      ∧ r_error result = Some "'NoneType' object has no attribute 'get'"
      ∧ r_response result = Some (VStr "OK")
      ∧ r_tokens_per_sec result = None
  | inl _ => False
  end.
Proof.
  destruct (test_model (λ _, "'NoneType' object has no attribute 'get'") (inr (VDict []))
              (λ _, Some "key")
              (λ _ _ _ _ _, inr {| content := VStr "OK"; usage := VNone |})
              0 1 id "easy" "openai:gpt-4o-mini" DEFAULT_PROMPT) as [e|result] eqn:Hrun.
  - vm_compute in Hrun. discriminate Hrun.
  - destruct (proj2 (proj2 (proj2 (test_model_result_shape _ _ _ _ _ _ _ _ _ _))) result Hrun)
      as (_ & _ & _ & _ & _ & _ & _ & Hrate & _).
    vm_compute in Hrun. injection Hrun as <-.
    split; [reflexivity|]. split; [reflexivity|]. split; [reflexivity|].
    destruct (r_tokens_per_sec _) as [rate|] eqn:Htokens; [|reflexivity].
    assert (is_Some (Some rate)) as [Herr _]%Hrate by by eexists. discriminate Herr.
Defined.

Lemma elem_of_List_filter {A} (P : A → bool) (l : list A) (x : A) :
  x ∈ List.filter P l ↔ x ∈ l ∧ P x = true.
Proof. rewrite !list_elem_of_In. apply List.filter_In. Qed.

(** X26: the top three of the summary: at most three results, each a
    successful result of the run with a latency that is not zero, in
    ascending order of latency; and a successful result with a latency
    that is not among them is not faster than any of them, and is left
    out only when three are listed. *)
Theorem top3_fastest (results : list Outcome) :
  length (top3 results) ≤ 3
  ∧ (∀ r, r ∈ top3 results → r ∈ results ∧ success r = true ∧ has_latency r = true)
  ∧ StronglySorted (λ a b, (latency_of a <= latency_of b)%Q) (top3 results)
  ∧ ∀ r, r ∈ results → success r = true → has_latency r = true →
         r ∉ top3 results →
         length (top3 results) = 3
         ∧ ∀ t, t ∈ top3 results → (latency_of t <= latency_of r)%Q.
Proof.
  unfold top3.
  set (eligible := List.filter has_latency (List.filter success results)).
  set (sorted := py_sort latency_of Qle_bool eligible).
  pose proof (py_sort_sorted latency_of Qle_bool Qle_bool_total Qle_bool_trans eligible)
    as Hsorted.
  pose proof (py_sort_perm latency_of Qle_bool eligible) as Hperm.
  fold sorted in Hsorted, Hperm.
  rewrite <- (take_drop 3 sorted) in Hsorted.
  split; [rewrite length_take; lia|]. split; [|split].
  - intros r Hr.
    assert (r ∈ eligible) as He.
    { rewrite <- Hperm. rewrite <- (take_drop 3 sorted). apply elem_of_app. by left. }
    unfold eligible in He. rewrite !elem_of_List_filter in He. tauto.
  - apply StronglySorted_app_1_l in Hsorted.
    induction Hsorted as [|a l _ IH Hall]; constructor; [done|].
    eapply Forall_impl; [exact Hall|]. intros b Hab. by apply Qle_bool_iff.
  - intros r Hr Hs Hl Hnot.
    assert (r ∈ drop 3 sorted) as Hdrop.
    { assert (r ∈ sorted) as Hin.
      { rewrite Hperm. unfold eligible. rewrite !elem_of_List_filter. tauto. }
      rewrite <- (take_drop 3 sorted) in Hin. apply elem_of_app in Hin as [?|?]; done. }
    split.
    + rewrite length_take. destruct (decide (length sorted ≤ 3)) as [Hle|]; [|lia].
      rewrite drop_ge in Hdrop by done. by apply elem_of_nil in Hdrop.
    + intros t Ht. apply Qle_bool_iff.
      exact (StronglySorted_app_1_elem_of _ _ _ _ _ Hsorted Ht Hdrop).
Qed.
End SpeedtestProps.
(** ** The fallback in the updated file *)


